(** * Booking lifecycle, seat inventory and driver rating of the ride-sharing server

    A shallow embedding of the booking, ride and review controllers
    (bookRide, cancelBooking, respondToBooking, updateBookingStatus,
    updateRideStatus, updateRide, postRide, deleteRide, createReview,
    updateReview, deleteReview, canReviewBooking and the helper
    updateDriverRating), of the statistics of getDriverHistory, the lists of
    getActiveBookings and the role middleware, together with the Mongoose
    schemas they write through (Booking, Ride, DriverProfile, Review).

    Conventions of the embedding:
    - a collection is a finite map from [_id] to document; DriverProfile is
      keyed by its unique [user] field, the only key the controllers query;
    - a document has the paths of its schema that a controller reads, writes
      or that a validator checks; the paths that are set once and never read
      again (coordinates, cities, origin and destination, the profile's
      licence and vehicle, [createdAt] and [updatedAt] of bookings and rides)
      are left out;
    - a request is typed: identifiers are ObjectIds, seat counts and fares
      are integers, texts are strings of one-byte characters, and an absent
      ([undefined]) field is [None]; [protect] and [requireRole] have run,
      and [user] is [req.user._id];
    - the numbers of the code are doubles: the sums and products of whole
      numbers are taken exactly, which they are in the code while the results
      are safe integers ([Number_isSafeInteger]);
    - ratings are exact rationals, and [Math.round x] is the integer floor of
      [x + 1/2]; on ratings in whole stars the doubles of the code store the
      same tenths, on other ratings they need not ([Double] has the
      arithmetic in binary64);
    - [new Date()] and [Date.now()] are the [now] argument of a handler, in
      milliseconds; the ObjectId a [create] draws is the [newId] argument;
    - a handler returns the database it leaves behind and the response it
      sends, when no other request runs between its awaited calls; an
      exception thrown inside the [try] block is the 500 response of the
      [catch] block, with the writes made before it kept;
    - requests that overlap are two handlers that take turns at their
      awaited calls, each call one step against the database: bookRide,
      cancelBooking, updateBookingStatus and createReview are given call by
      call as well. *)

From Stdlib Require Import ZArith QArith Qround Lqa PrimFloat Uint63.
From stdpp Require Import gmap strings list fin_maps pretty.

Local Open Scope string_scope.
Local Open Scope Z_scope.

(** ObjectIds. *)
Abbreviation ObjectId := positive (only parsing).

(** ** Schemas *)

(** [String.prototype.length <= n], the [maxlength] validator on an optional
    string path. *)
Definition maxlength (n : nat) (s : option string) : bool :=
  match s with
  | None => true
  | Some s => bool_decide (String.length s <= n)%nat
  end.

(** [Array.prototype.includes] on an array of strings. *)
Definition includes (l : list string) (s : string) : bool :=
  bool_decide (s ∈ l).

Module Booking.

Record t := mk {
  ride : ObjectId;
  passenger : ObjectId;
  seatsBooked : Z;
  pickupLocation_address : string;
  dropoffLocation_address : string;
  farePerSeat : Z;
  totalFare : Z;
  status : string;
  paymentStatus : string;
  paymentMethod : string;
  passengerNote : option string;
  driverNote : option string;
  cancelledBy : option string;
  cancellationReason : option string;
  cancelledAt : option Z;
  confirmedAt : option Z;
  comingForPickupAt : option Z;
  pickedUpAt : option Z;
  droppedOffAt : option Z;
  completedAt : option Z
}.

(** Field assignments [booking.f = v]. *)
Definition set_status (v : string) (b : t) : t :=
  let 'mk r p s pa da f tf _ ps pm pn dn cb cr ca t1 t2 t3 t4 t5 := b in
  mk r p s pa da f tf v ps pm pn dn cb cr ca t1 t2 t3 t4 t5.
Definition set_paymentStatus (v : string) (b : t) : t :=
  let 'mk r p s pa da f tf st _ pm pn dn cb cr ca t1 t2 t3 t4 t5 := b in
  mk r p s pa da f tf st v pm pn dn cb cr ca t1 t2 t3 t4 t5.
Definition set_driverNote (v : option string) (b : t) : t :=
  let 'mk r p s pa da f tf st ps pm pn _ cb cr ca t1 t2 t3 t4 t5 := b in
  mk r p s pa da f tf st ps pm pn v cb cr ca t1 t2 t3 t4 t5.
Definition set_cancelledBy (v : option string) (b : t) : t :=
  let 'mk r p s pa da f tf st ps pm pn dn _ cr ca t1 t2 t3 t4 t5 := b in
  mk r p s pa da f tf st ps pm pn dn v cr ca t1 t2 t3 t4 t5.
Definition set_cancellationReason (v : option string) (b : t) : t :=
  let 'mk r p s pa da f tf st ps pm pn dn cb _ ca t1 t2 t3 t4 t5 := b in
  mk r p s pa da f tf st ps pm pn dn cb v ca t1 t2 t3 t4 t5.
Definition set_cancelledAt (v : option Z) (b : t) : t :=
  let 'mk r p s pa da f tf st ps pm pn dn cb cr _ t1 t2 t3 t4 t5 := b in
  mk r p s pa da f tf st ps pm pn dn cb cr v t1 t2 t3 t4 t5.
Definition set_confirmedAt (v : option Z) (b : t) : t :=
  let 'mk r p s pa da f tf st ps pm pn dn cb cr ca _ t2 t3 t4 t5 := b in
  mk r p s pa da f tf st ps pm pn dn cb cr ca v t2 t3 t4 t5.
Definition set_comingForPickupAt (v : option Z) (b : t) : t :=
  let 'mk r p s pa da f tf st ps pm pn dn cb cr ca t1 _ t3 t4 t5 := b in
  mk r p s pa da f tf st ps pm pn dn cb cr ca t1 v t3 t4 t5.
Definition set_pickedUpAt (v : option Z) (b : t) : t :=
  let 'mk r p s pa da f tf st ps pm pn dn cb cr ca t1 t2 _ t4 t5 := b in
  mk r p s pa da f tf st ps pm pn dn cb cr ca t1 t2 v t4 t5.
Definition set_droppedOffAt (v : option Z) (b : t) : t :=
  let 'mk r p s pa da f tf st ps pm pn dn cb cr ca t1 t2 t3 _ t5 := b in
  mk r p s pa da f tf st ps pm pn dn cb cr ca t1 t2 t3 v t5.
Definition set_completedAt (v : option Z) (b : t) : t :=
  let 'mk r p s pa da f tf st ps pm pn dn cb cr ca t1 t2 t3 t4 _ := b in
  mk r p s pa da f tf st ps pm pn dn cb cr ca t1 t2 t3 t4 v.

(** The enums of the schema. *)
Definition status_enum : list string :=
  ["pending"; "confirmed"; "coming-for-pickup"; "picked-up"; "in-transit";
   "dropped-off"; "completed"; "cancelled"; "rejected"].
Definition paymentStatus_enum : list string := ["pending"; "paid"; "refunded"].
Definition paymentMethod_enum : list string := ["cash"; "online"].
Definition cancelledBy_enum : list string := ["passenger"; "driver"].

(** Schema validation, as run by [create] and [save]: required paths,
    [min], [enum] and [maxlength]. *)
Definition validate (b : t) : bool :=
  (1 <=? seatsBooked b)
  && negb (String.eqb (pickupLocation_address b) "")
  && negb (String.eqb (dropoffLocation_address b) "")
  && includes status_enum (status b)
  && includes paymentStatus_enum (paymentStatus b)
  && includes paymentMethod_enum (paymentMethod b)
  && maxlength 200 (passengerNote b)
  && maxlength 200 (driverNote b)
  && match cancelledBy b with
     | None => true
     | Some c => includes cancelledBy_enum c
     end.

(** The [pre("save")] hook: the fare is computed on creation and when
    [seatsBooked] or [farePerSeat] is modified; no controller modifies
    either after creation.  The product is the exact one, which the product
    of the code is when it is a safe integer. *)
Definition pre_save_new (b : t) : t :=
  let 'mk r p s pa da f _ st ps pm pn dn cb cr ca t1 t2 t3 t4 t5 := b in
  mk r p s pa da f (s * f) st ps pm pn dn cb cr ca t1 t2 t3 t4 t5.

End Booking.

Module Ride.

Record Preferences := mkPreferences {
  smokingAllowed : bool;
  petsAllowed : bool;
  musicAllowed : bool;
  acAvailable : bool;
  luggageSpace : string
}.

Record Stop := mkStop {
  stop_address : option string;
  stop_city : option string;
  stop_fare : option Z
}.

Record t := mk {
  driver : ObjectId;
  departureDate : Z;
  departureTime : string;
  totalSeats : Z;
  availableSeats : Z;
  farePerSeat : Z;
  preferences : Preferences;
  description : option string;
  stops : list Stop;
  status : string;
  passengers : list ObjectId
}.

(** Field assignments [ride.f = v]. *)
Definition set_departureDate (v : Z) (r : t) : t :=
  let 'mk d _ dt ts av f pr de st s ps := r in mk d v dt ts av f pr de st s ps.
Definition set_departureTime (v : string) (r : t) : t :=
  let 'mk d dd _ ts av f pr de st s ps := r in mk d dd v ts av f pr de st s ps.
Definition set_totalSeats (v : Z) (r : t) : t :=
  let 'mk d dd dt _ av f pr de st s ps := r in mk d dd dt v av f pr de st s ps.
Definition set_availableSeats (v : Z) (r : t) : t :=
  let 'mk d dd dt ts _ f pr de st s ps := r in mk d dd dt ts v f pr de st s ps.
Definition set_farePerSeat (v : Z) (r : t) : t :=
  let 'mk d dd dt ts av _ pr de st s ps := r in mk d dd dt ts av v pr de st s ps.
Definition set_preferences (v : Preferences) (r : t) : t :=
  let 'mk d dd dt ts av f _ de st s ps := r in mk d dd dt ts av f v de st s ps.
Definition set_description (v : option string) (r : t) : t :=
  let 'mk d dd dt ts av f pr _ st s ps := r in mk d dd dt ts av f pr v st s ps.
Definition set_stops (v : list Stop) (r : t) : t :=
  let 'mk d dd dt ts av f pr de _ s ps := r in mk d dd dt ts av f pr de v s ps.
Definition set_status (v : string) (r : t) : t :=
  let 'mk d dd dt ts av f pr de st _ ps := r in mk d dd dt ts av f pr de st v ps.
Definition set_passengers (v : list ObjectId) (r : t) : t :=
  let 'mk d dd dt ts av f pr de st s _ := r in mk d dd dt ts av f pr de st s v.

Definition status_enum : list string :=
  ["scheduled"; "in-progress"; "completed"; "cancelled"].
Definition luggageSpace_enum : list string := ["small"; "medium"; "large"].

(** Schema validation run by [save]: [totalSeats] in 1..8, a non-negative
    fare, a non-empty departure time, the description's [maxlength] and the
    two enums.  [availableSeats] is only [required]. *)
Definition validate (r : t) : bool :=
  (1 <=? totalSeats r) && (totalSeats r <=? 8)
  && (0 <=? farePerSeat r)
  && negb (String.eqb (departureTime r) "")
  && maxlength 500 (description r)
  && includes luggageSpace_enum (luggageSpace (preferences r))
  && includes status_enum (status r).

End Ride.

Module DriverProfile.

Record t := mk {
  isApproved : bool;
  rating : Q;
  totalRides : Z;
  totalEarnings : Z
}.

Definition set_rating (v : Q) (p : t) : t :=
  let 'mk a _ n e := p in mk a v n e.

(** [$inc: { totalRides: n, totalEarnings: e }].  The sums are the exact
    ones, which the sums of the database are when they are safe integers. *)
Definition inc_stats (n e : Z) (p : t) : t :=
  let 'mk a r tr te := p in mk a r (tr + n) (te + e).

End DriverProfile.

Module Review.

Record Aspects := mkAspects {
  punctuality : option Q;
  behavior : option Q;
  communication : option Q;
  drivingSkills : option Q;
  vehicleCondition : option Q
}.

Definition noAspects : Aspects := mkAspects None None None None None.

Record t := mk {
  booking : ObjectId;
  ride : ObjectId;
  reviewer : ObjectId;
  reviewee : ObjectId;
  reviewType : string;
  rating : Q;
  comment : option string;
  aspects : Aspects;
  isVisible : bool;
  createdAt : Z
}.

Definition set_rating (v : Q) (r : t) : t :=
  let 'mk b ri rr re ty _ c a vi ca := r in mk b ri rr re ty v c a vi ca.
Definition set_comment (v : option string) (r : t) : t :=
  let 'mk b ri rr re ty ra _ a vi ca := r in mk b ri rr re ty ra v a vi ca.
Definition set_aspects (v : Aspects) (r : t) : t :=
  let 'mk b ri rr re ty ra c _ vi ca := r in mk b ri rr re ty ra c v vi ca.

Definition reviewType_enum : list string :=
  ["passenger-to-driver"; "driver-to-passenger"].

(** [min: 1, max: 5] on a number path. *)
Definition in_1_5 (q : Q) : bool := Qle_bool 1 q && Qle_bool q 5.

Definition aspect_ok (a : option Q) : bool :=
  match a with None => true | Some q => in_1_5 q end.

Definition validate (r : t) : bool :=
  includes reviewType_enum (reviewType r)
  && in_1_5 (rating r)
  && maxlength 500 (comment r)
  && aspect_ok (punctuality (aspects r))
  && aspect_ok (behavior (aspects r))
  && aspect_ok (communication (aspects r))
  && aspect_ok (drivingSkills (aspects r))
  && aspect_ok (vehicleCondition (aspects r)).

End Review.

(** ** The database *)

Record DB := mkDB {
  rides : gmap positive Ride.t;
  bookings : gmap positive Booking.t;
  driverProfiles : gmap positive DriverProfile.t;
  reviews : gmap positive Review.t
}.

Definition with_rides (v : gmap positive Ride.t) (db : DB) : DB :=
  mkDB v (bookings db) (driverProfiles db) (reviews db).
Definition with_bookings (v : gmap positive Booking.t) (db : DB) : DB :=
  mkDB (rides db) v (driverProfiles db) (reviews db).
Definition with_driverProfiles (v : gmap positive DriverProfile.t) (db : DB) : DB :=
  mkDB (rides db) (bookings db) v (reviews db).
Definition with_reviews (v : gmap positive Review.t) (db : DB) : DB :=
  mkDB (rides db) (bookings db) (driverProfiles db) v.

(** ** Responses *)

(** The JSON body of a response.  A populated reference is not expanded: a
    returned document is the stored one. *)
Inductive Body :=
| Message (message : string)
| MessageBooking (message : string) (id : ObjectId) (booking : Booking.t)
| MessageRide (message : string) (id : ObjectId) (ride : Ride.t)
| MessageReview (message : string) (id : ObjectId) (review : Review.t)
| MessageTransition (message : string) (currentStatus : string)
    (allowedStatuses : list string)
| ServerError.

(** [res.status(code).json(body)]. *)
Record Response := json { code : Z; body : Body }.

(** Early exits and lookups of a handler:
    [IF c RETURN r ;; k] is [if (c) return r; k] and
    [LET x <- e ELSE r ;; k] binds the document a query found, or leaves
    with [r] when there is none. *)
Notation "'IF' c 'RETURN' r ;; k" := (if c then r else k)
  (at level 10, c at level 99, r at level 99, k at level 200,
   only parsing).
Notation "'LET' x <- e 'ELSE' r ;; k" :=
  (match e with Some x => k | None => r end)
  (at level 10, x pattern, e at level 99, r at level 99, k at level 200,
   only parsing).

(** Truthiness of an optional string and of an optional number: the value
    when it is present and neither empty nor zero. *)
Definition truthy_string (s : option string) : option string :=
  match s with
  | Some s => if String.eqb s "" then None else Some s
  | None => None
  end.

Definition truthy_Z (n : option Z) : option Z :=
  match n with
  | Some n => if n =? 0 then None else Some n
  | None => None
  end.

Definition truthy_Q (q : option Q) : option Q :=
  match q with
  | Some q => if Qeq_bool q 0 then None else Some q
  | None => None
  end.

(** ** Model operations of Mongoose *)

(** [Booking.create(doc)] with the ObjectId [newId]: validation, then the
    insert; [None] is a thrown error (validation or duplicate key). *)
Definition Booking_create (newId : ObjectId) (doc : Booking.t) (db : DB)
  : option DB :=
  if Booking.validate doc && bool_decide (bookings db !! newId = None)
  then Some (with_bookings (<[newId := Booking.pre_save_new doc]> (bookings db)) db)
  else None.

(** [booking.save()] of a document loaded from the collection. *)
Definition Booking_save (id : ObjectId) (doc : Booking.t) (db : DB)
  : option DB :=
  if Booking.validate doc
  then Some (with_bookings (<[id := doc]> (bookings db)) db)
  else None.

(** [ride.save()] of a document loaded from the collection. *)
Definition Ride_save (id : ObjectId) (doc : Ride.t) (db : DB) : option DB :=
  if Ride.validate doc
  then Some (with_rides (<[id := doc]> (rides db)) db)
  else None.

(** [Ride.findByIdAndUpdate(id, { $inc: { availableSeats: n },
    $pull: { passengers: bookingId } })]: no validation, nothing happens
    when the ride is absent. *)
Definition Ride_restoreSeats (id : ObjectId) (n : Z) (bookingId : ObjectId)
    (db : DB) : DB :=
  with_rides
    (alter (fun r =>
              Ride.set_passengers
                (filter (fun p => p <> bookingId) (Ride.passengers r))
                (Ride.set_availableSeats (Ride.availableSeats r + n) r))
           id (rides db)) db.

(** [Booking.findOne({ ride, passenger, status: { $nin: ["cancelled",
    "rejected"] } })], as a truth value. *)
Definition Booking_findOne_active (rideId user : ObjectId)
    (bs : gmap positive Booking.t) : bool :=
  bool_decide
    (map_Exists (fun _ b => Booking.ride b = rideId
                            /\ Booking.passenger b = user
                            /\ Booking.status b ∉ ["cancelled"; "rejected"]) bs).

(** [Booking.exists({ ride: id, status: { $in: ["confirmed", "completed"] } })]. *)
Definition Booking_exists_confirmed (rideId : ObjectId)
    (bs : gmap positive Booking.t) : bool :=
  bool_decide
    (map_Exists (fun _ b => Booking.ride b = rideId
                            /\ Booking.status b ∈ ["confirmed"; "completed"]) bs).

(** [Booking.updateMany({ ride: id, status: { $in: ["pending", "confirmed"] } },
    { status: "cancelled", cancelledBy: "driver", cancelledAt: now })]. *)
Definition Booking_cancelMany (rideId : ObjectId) (now : Z)
    (bs : gmap positive Booking.t) : gmap positive Booking.t :=
  (fun b =>
     if bool_decide (Booking.ride b = rideId
                     /\ Booking.status b ∈ ["pending"; "confirmed"])
     then Booking.set_cancelledAt (Some now)
            (Booking.set_cancelledBy (Some "driver")
               (Booking.set_status "cancelled" b))
     else b) <$> bs.

(** ** Booking controller *)

Module BookRideBody.
Record t := mk {
  rideId : option ObjectId;
  seatsBooked : option Z;
  pickupLocation_address : option string;
  dropoffLocation_address : option string;
  passengerNote : option string;
  paymentMethod : option string
}.
End BookRideBody.

Definition bookRide (user newId : ObjectId) (body : BookRideBody.t) (db : DB)
  : DB * Response :=
  LET rideId <- BookRideBody.rideId body
    ELSE (db, json 400 (Message "Ride ID is required")) ;;
  LET seatsBooked <- truthy_Z (BookRideBody.seatsBooked body)
    ELSE (db, json 400 (Message "At least 1 seat must be booked")) ;;
  IF seatsBooked <? 1
    RETURN (db, json 400 (Message "At least 1 seat must be booked")) ;;
  LET pickup <- truthy_string (BookRideBody.pickupLocation_address body)
    ELSE (db, json 400 (Message "Pickup location is required")) ;;
  LET dropoff <- truthy_string (BookRideBody.dropoffLocation_address body)
    ELSE (db, json 400 (Message "Dropoff location is required")) ;;
  LET ride <- rides db !! rideId
    ELSE (db, json 404 (Message "Ride not found")) ;;
  IF bool_decide (Ride.status ride <> "scheduled")
    RETURN (db, json 400 (Message "This ride is no longer available for booking")) ;;
  IF Ride.availableSeats ride <? seatsBooked
    RETURN (db, json 400 (Message
              ("Only " +:+ pretty (Ride.availableSeats ride) +:+ " seats available"))) ;;
  IF Booking_findOne_active rideId user (bookings db)
    RETURN (db, json 400 (Message "You have already booked this ride")) ;;
  IF bool_decide (Ride.driver ride = user)
    RETURN (db, json 400 (Message "You cannot book your own ride")) ;;
  let doc :=
    Booking.mk rideId user seatsBooked pickup dropoff
      (Ride.farePerSeat ride) (seatsBooked * Ride.farePerSeat ride)
      "pending" "pending"
      (default "cash" (truthy_string (BookRideBody.paymentMethod body)))
      (BookRideBody.passengerNote body) None None None None
      None None None None None in
  LET db1 <- Booking_create newId doc db ELSE (db, json 500 ServerError) ;;
  let ride' :=
    Ride.set_passengers (Ride.passengers ride ++ [newId])
      (Ride.set_availableSeats (Ride.availableSeats ride - seatsBooked) ride) in
  LET db2 <- Ride_save rideId ride' db1 ELSE (db1, json 500 ServerError) ;;
  (db2, json 201 (MessageBooking "Booking request submitted successfully"
                    newId (Booking.pre_save_new doc))).

Definition cancelBooking (user id : ObjectId) (reason : option string)
    (now : Z) (db : DB) : DB * Response :=
  LET booking <- bookings db !! id
    ELSE (db, json 404 (Message "Booking not found")) ;;
  IF bool_decide (Booking.passenger booking <> user)
    RETURN (db, json 404 (Message "Booking not found")) ;;
  IF negb (includes ["pending"; "confirmed"] (Booking.status booking))
    RETURN (db, json 400 (Message "Cannot cancel booking in current status")) ;;
  let booking' :=
    Booking.set_cancelledAt (Some now)
      (Booking.set_cancellationReason reason
         (Booking.set_cancelledBy (Some "passenger")
            (Booking.set_status "cancelled" booking))) in
  LET db1 <- Booking_save id booking' db ELSE (db, json 500 ServerError) ;;
  (Ride_restoreSeats (Booking.ride booking) (Booking.seatsBooked booking) id db1,
   json 200 (MessageBooking "Booking cancelled successfully" id booking')).

Definition respondToBooking (user id : ObjectId) (action : string)
    (driverNote : option string) (now : Z) (db : DB) : DB * Response :=
  IF negb (includes ["confirm"; "reject"] action)
    RETURN (db, json 400 (Message "Invalid action. Use 'confirm' or 'reject'")) ;;
  LET booking <- bookings db !! id
    ELSE (db, json 404 (Message "Booking not found")) ;;
  (* populate("ride"): reading [booking.ride.driver] of a dangling reference throws *)
  LET ride <- rides db !! Booking.ride booking
    ELSE (db, json 500 ServerError) ;;
  IF bool_decide (Ride.driver ride <> user)
    RETURN (db, json 403 (Message "Not authorized")) ;;
  IF bool_decide (Booking.status booking <> "pending")
    RETURN (db, json 400 (Message "Can only respond to pending bookings")) ;;
  let '(booking1, db1) :=
    if bool_decide (action = "confirm")
    then (Booking.set_confirmedAt (Some now)
            (Booking.set_status "confirmed" booking), db)
    else (Booking.set_status "rejected" booking,
          Ride_restoreSeats (Booking.ride booking)
            (Booking.seatsBooked booking) id db) in
  let booking2 :=
    match truthy_string driverNote with
    | Some note => Booking.set_driverNote (Some note) booking1
    | None => booking1
    end in
  LET db2 <- Booking_save id booking2 db1 ELSE (db1, json 500 ServerError) ;;
  (db2, json 200 (MessageBooking ("Booking " +:+ action +:+ "ed successfully")
                    id booking2)).

(** The [validStatuses] of updateBookingStatus. *)
Definition validStatuses : list string :=
  ["coming-for-pickup"; "picked-up"; "in-transit"; "dropped-off"; "completed"].

(** The [statusFlow] table.  [booking.status] is one of the schema's enum
    values, so only the table's own keys are ever hit or missed. *)
Definition statusFlow : gmap string (list string) :=
  list_to_map
    [("confirmed", ["coming-for-pickup"]);
     ("coming-for-pickup", ["picked-up"]);
     ("picked-up", ["in-transit"]);
     ("in-transit", ["dropped-off"]);
     ("dropped-off", ["completed"])].

(** [DriverProfile.findOneAndUpdate({ user }, { $inc: { totalRides: 1,
    totalEarnings: fare } })]. *)
Definition DriverProfile_incStats (user : ObjectId) (fare : Z) (db : DB) : DB :=
  with_driverProfiles
    (alter (DriverProfile.inc_stats 1 fare) user (driverProfiles db)) db.

Definition updateBookingStatus (user id : ObjectId) (status : string)
    (now : Z) (db : DB) : DB * Response :=
  IF negb (includes validStatuses status)
    RETURN (db, json 400 (Message
              ("Invalid status. Valid options: "
               +:+ String.concat ", " validStatuses))) ;;
  LET booking <- bookings db !! id
    ELSE (db, json 404 (Message "Booking not found")) ;;
  LET ride <- rides db !! Booking.ride booking
    ELSE (db, json 500 ServerError) ;;
  IF bool_decide (Ride.driver ride <> user)
    RETURN (db, json 403 (Message "Not authorized")) ;;
  let allowedNextStatuses := statusFlow !! Booking.status booking in
  IF negb (includes (default [] allowedNextStatuses) status)
    RETURN (db, json 400 (MessageTransition
              ("Cannot change status from '" +:+ Booking.status booking
               +:+ "' to '" +:+ status +:+ "'")
              (Booking.status booking)
              (default [] allowedNextStatuses))) ;;
  let booking1 := Booking.set_status status booking in
  let '(booking2, db1) :=
    if bool_decide (status = "coming-for-pickup")
    then (Booking.set_comingForPickupAt (Some now) booking1, db)
    else if bool_decide (status = "picked-up")
    then (Booking.set_pickedUpAt (Some now) booking1, db)
    else if bool_decide (status = "dropped-off")
    then (Booking.set_droppedOffAt (Some now) booking1, db)
    else if bool_decide (status = "completed")
    then (Booking.set_paymentStatus "paid"
            (Booking.set_completedAt (Some now) booking1),
          DriverProfile_incStats user (Booking.totalFare booking) db)
    else (booking1, db) in
  LET db2 <- Booking_save id booking2 db1 ELSE (db1, json 500 ServerError) ;;
  (db2, json 200 (MessageBooking
                    ("Booking status updated to '" +:+ status +:+ "'")
                    id booking2)).

(** ** Ride controller *)

(** The [validStatuses] of updateRideStatus. *)
Definition rideStatuses : list string :=
  ["scheduled"; "in-progress"; "completed"; "cancelled"].

(** [Ride.findOne({ _id: id, driver: user })]. *)
Definition Ride_findOne_owned (id user : ObjectId) (db : DB) : option Ride.t :=
  match rides db !! id with
  | Some ride => if bool_decide (Ride.driver ride = user) then Some ride else None
  | None => None
  end.

Definition updateRideStatus (user id : ObjectId) (status : string) (now : Z)
    (db : DB) : DB * Response :=
  IF negb (includes rideStatuses status)
    RETURN (db, json 400 (Message "Invalid status")) ;;
  LET ride <- Ride_findOne_owned id user db
    ELSE (db, json 404 (Message "Ride not found")) ;;
  let ride' := Ride.set_status status ride in
  LET db1 <- Ride_save id ride' db ELSE (db, json 500 ServerError) ;;
  let db2 :=
    if bool_decide (status = "cancelled")
    then with_bookings (Booking_cancelMany id now (bookings db1)) db1
    else db1 in
  (db2, json 200 (MessageRide "Ride status updated" id ride')).

Module UpdateRideBody.
Record t := mk {
  departureDate : option Z;
  departureTime : option string;
  totalSeats : option Z;
  farePerSeat : option Z;
  preferences : option Ride.Preferences;
  description : option string;
  stops : option (list Ride.Stop)
}.
End UpdateRideBody.

(** [if (updates[field] !== undefined) ride[field] = updates[field]]. *)
Definition assign_if_defined {A B} (set : A -> B -> B) (v : option A) (x : B) : B :=
  match v with
  | Some a => set a x
  | None => x
  end.

(** The [allowedUpdates.forEach] loop, in the order of the array. *)
Definition applyAllowedUpdates (updates : UpdateRideBody.t) (ride : Ride.t)
  : Ride.t :=
  let r1 := assign_if_defined Ride.set_departureDate
              (UpdateRideBody.departureDate updates) ride in
  let r2 := assign_if_defined Ride.set_departureTime
              (UpdateRideBody.departureTime updates) r1 in
  let r3 := assign_if_defined Ride.set_totalSeats
              (UpdateRideBody.totalSeats updates) r2 in
  let r4 := assign_if_defined Ride.set_farePerSeat
              (UpdateRideBody.farePerSeat updates) r3 in
  let r5 := assign_if_defined Ride.set_preferences
              (UpdateRideBody.preferences updates) r4 in
  let r6 := assign_if_defined (fun d => Ride.set_description (Some d))
              (UpdateRideBody.description updates) r5 in
  assign_if_defined Ride.set_stops (UpdateRideBody.stops updates) r6.

Definition updateRide (user id : ObjectId) (updates : UpdateRideBody.t)
    (db : DB) : DB * Response :=
  LET ride <- Ride_findOne_owned id user db
    ELSE (db, json 404 (Message "Ride not found")) ;;
  IF Booking_exists_confirmed id (bookings db)
    RETURN (db, json 400 (Message "Cannot update ride with confirmed bookings")) ;;
  let ride1 := applyAllowedUpdates updates ride in
  let ride2 :=
    match truthy_Z (UpdateRideBody.totalSeats updates) with
    | Some n => Ride.set_availableSeats n ride1
    | None => ride1
    end in
  LET db1 <- Ride_save id ride2 db ELSE (db, json 500 ServerError) ;;
  (db1, json 200 (MessageRide "Ride updated successfully" id ride2)).

(** ** Review controller *)

(** [Review.find({ reviewee: driverId, reviewType: "passenger-to-driver",
    isVisible: true })]. *)
Definition Review_find_visible (driverId : ObjectId)
    (rs : gmap positive Review.t) : list Review.t :=
  (map_to_list
     (filter (fun kr : positive * Review.t =>
                Review.reviewee kr.2 = driverId
                /\ Review.reviewType kr.2 = "passenger-to-driver"
                /\ Review.isVisible kr.2 = true) rs)).*2.

(** [Math.round]: the nearest integer, a half rounding up, of an exact
    rational; [Double.Math_round] below is the one of a double. *)
Definition Math_round (x : Q) : Z := Qfloor (x + (1 # 2))%Q.

(** [reviews.reduce((sum, r) => sum + r.rating, 0)]. *)
Definition sumRatings (reviews : list Review.t) : Q :=
  fold_left (fun sum r => (sum + Review.rating r)%Q) reviews 0%Q.

(** The recompute of a driver's rating when no other request runs between
    its two awaited calls, [Review.find] and, when a review was found,
    [DriverProfile.findOneAndUpdate] with the rating computed from what was
    found; [ReviewSteps] below has the two calls one by one.  The arithmetic
    is the exact one. *)
Definition updateDriverRating (driverId : ObjectId) (db : DB) : DB :=
  let reviews := Review_find_visible driverId (reviews db) in
  if (0 <? Z.of_nat (length reviews))
  then
    let avgRating := (sumRatings reviews / inject_Z (Z.of_nat (length reviews)))%Q in
    with_driverProfiles
      (alter (DriverProfile.set_rating
                (inject_Z (Math_round (avgRating * 10)) / 10)%Q)
             driverId (driverProfiles db)) db
  else db.

Module ReviewBody.
Record t := mk {
  rating : option Q;
  comment : option string;
  aspects : option Review.Aspects
}.
End ReviewBody.

(** [Review.findOne({ booking: bookingId, reviewer: user })], as a truth value. *)
Definition Review_findOne_by (bookingId user : ObjectId)
    (rs : gmap positive Review.t) : bool :=
  bool_decide
    (map_Exists (fun _ r => Review.booking r = bookingId
                            /\ Review.reviewer r = user) rs).

(** [Review.create(doc)] with the ObjectId [newId]: validation, the primary
    key and the unique index on (booking, reviewer). *)
Definition Review_create (newId : ObjectId) (doc : Review.t) (db : DB)
  : option DB :=
  if Review.validate doc
     && bool_decide (reviews db !! newId = None)
     && negb (Review_findOne_by (Review.booking doc) (Review.reviewer doc) (reviews db))
  then Some (with_reviews (<[newId := doc]> (reviews db)) db)
  else None.

Definition Review_save (id : ObjectId) (doc : Review.t) (db : DB) : option DB :=
  if Review.validate doc
  then Some (with_reviews (<[id := doc]> (reviews db)) db)
  else None.

Definition createReview (user newId bookingId : ObjectId) (body : ReviewBody.t)
    (now : Z) (db : DB) : DB * Response :=
  LET rating <- truthy_Q (ReviewBody.rating body)
    ELSE (db, json 400 (Message "Rating must be between 1 and 5")) ;;
  IF negb (Qle_bool 1 rating) || negb (Qle_bool rating 5)
    RETURN (db, json 400 (Message "Rating must be between 1 and 5")) ;;
  LET booking <- bookings db !! bookingId
    ELSE (db, json 404 (Message "Booking not found")) ;;
  IF bool_decide (Booking.status booking <> "completed")
    RETURN (db, json 400 (Message "Can only review completed rides")) ;;
  let isPassenger := bool_decide (Booking.passenger booking = user) in
  LET ride <- rides db !! Booking.ride booking
    ELSE (db, json 500 ServerError) ;;
  let isDriver := bool_decide (Ride.driver ride = user) in
  IF negb isPassenger && negb isDriver
    RETURN (db, json 403 (Message "You are not part of this booking")) ;;
  let '(reviewType, reviewee) :=
    if isPassenger
    then ("passenger-to-driver", Ride.driver ride)
    else ("driver-to-passenger", Booking.passenger booking) in
  IF Review_findOne_by bookingId user (reviews db)
    RETURN (db, json 400 (Message "You have already reviewed this ride")) ;;
  let doc :=
    Review.mk bookingId (Booking.ride booking) user reviewee reviewType rating
      (ReviewBody.comment body)
      (default Review.noAspects (ReviewBody.aspects body)) true now in
  LET db1 <- Review_create newId doc db ELSE (db, json 500 ServerError) ;;
  let db2 :=
    if bool_decide (reviewType = "passenger-to-driver")
    then updateDriverRating reviewee db1
    else db1 in
  (db2, json 201 (MessageReview "Review submitted successfully" newId doc)).

(** [(Date.now() - review.createdAt) / (1000 * 60 * 60)]. *)
Definition hoursAgo (now : Z) (review : Review.t) : Q :=
  (inject_Z (now - Review.createdAt review) / inject_Z (1000 * 60 * 60))%Q.

(** [Review.findOne({ _id: id, reviewer: user })]. *)
Definition Review_findOne_own (id user : ObjectId) (db : DB) : option Review.t :=
  match reviews db !! id with
  | Some review =>
      if bool_decide (Review.reviewer review = user) then Some review else None
  | None => None
  end.

Definition updateReview (user id : ObjectId) (body : ReviewBody.t) (now : Z)
    (db : DB) : DB * Response :=
  LET review <- Review_findOne_own id user db
    ELSE (db, json 404 (Message "Review not found")) ;;
  IF negb (Qle_bool (hoursAgo now review) 24)
    RETURN (db, json 400 (Message "Can only edit reviews within 24 hours")) ;;
  let review1 :=
    match truthy_Q (ReviewBody.rating body) with
    | Some rating => Review.set_rating rating review
    | None => review
    end in
  let review2 :=
    match ReviewBody.comment body with
    | Some comment => Review.set_comment (Some comment) review1
    | None => review1
    end in
  let review3 :=
    match ReviewBody.aspects body with
    | Some aspects => Review.set_aspects aspects review2
    | None => review2
    end in
  LET db1 <- Review_save id review3 db ELSE (db, json 500 ServerError) ;;
  let db2 :=
    if bool_decide (Review.reviewType review3 = "passenger-to-driver")
    then updateDriverRating (Review.reviewee review3) db1
    else db1 in
  (db2, json 200 (MessageReview "Review updated successfully" id review3)).

Definition deleteReview (user id : ObjectId) (now : Z) (db : DB)
  : DB * Response :=
  LET review <- Review_findOne_own id user db
    ELSE (db, json 404 (Message "Review not found")) ;;
  IF negb (Qle_bool (hoursAgo now review) 24)
    RETURN (db, json 400 (Message "Can only delete reviews within 24 hours")) ;;
  let revieweeId := Review.reviewee review in
  let reviewType := Review.reviewType review in
  let db1 := with_reviews (delete id (reviews db)) db in
  let db2 :=
    if bool_decide (reviewType = "passenger-to-driver")
    then updateDriverRating revieweeId db1
    else db1 in
  (db2, json 200 (Message "Review deleted successfully")).

(** ** The transition table as the specification words it *)

(** The linear chain of progress statuses, as pairs (current, next). *)
Definition progressChain : list (string * string) :=
  [("confirmed", "coming-for-pickup");
   ("coming-for-pickup", "picked-up");
   ("picked-up", "in-transit");
   ("in-transit", "dropped-off");
   ("dropped-off", "completed")].

(** [tgt] is an allowed next status of [cur]. *)
Definition allowedNext (cur tgt : string) : Prop := (cur, tgt) ∈ progressChain.

(** The allowed-next set of [cur]. *)
Definition allowedNextSet (cur : string) : list string :=
  (filter (fun p : string * string => p.1 = cur) progressChain).*2.

(** The two 400 bodies of updateBookingStatus. *)
Definition invalidStatusMessage : string :=
  "Invalid status. Valid options: coming-for-pickup, picked-up, in-transit, dropped-off, completed".

Definition cannotChangeMessage (cur tgt : string) : string :=
  "Cannot change status from '" +:+ cur +:+ "' to '" +:+ tgt +:+ "'".

(** The response reports the current status and the allowed-next set. *)
Definition reportsTransition (res : Response) (cur : string)
    (allowed : list string) : Prop :=
  exists message, res = json 400 (MessageTransition message cur allowed).

(** The booking document the [switch] of updateBookingStatus leaves, once
    [booking.status = status] is done. *)
Definition afterSwitch (status : string) (now : Z) (b : Booking.t) : Booking.t :=
  if bool_decide (status = "coming-for-pickup")
  then Booking.set_comingForPickupAt (Some now) b
  else if bool_decide (status = "picked-up")
  then Booking.set_pickedUpAt (Some now) b
  else if bool_decide (status = "dropped-off")
  then Booking.set_droppedOffAt (Some now) b
  else if bool_decide (status = "completed")
  then Booking.set_paymentStatus "paid" (Booking.set_completedAt (Some now) b)
  else b.

(** The five per-status timestamps of a booking. *)
Definition timestamps (b : Booking.t) : list (option Z) :=
  [Booking.confirmedAt b; Booking.comingForPickupAt b; Booking.pickedUpAt b;
   Booking.droppedOffAt b; Booking.completedAt b].

(** ** The rating aggregate as the specification words it *)

(** The ratings of the currently visible passenger-to-driver reviews of a driver. *)
Definition visibleRatings (driverId : ObjectId) (db : DB) : list Q :=
  Review.rating <$> Review_find_visible driverId (reviews db).

(** The arithmetic mean of a non-empty list of ratings. *)
Definition sumQ (l : list Q) : Q := foldr Qplus 0%Q l.

Definition mean (l : list Q) : option Q :=
  match l with
  | [] => None
  | _ => Some (sumQ l / inject_Z (Z.of_nat (length l)))%Q
  end.

(** [r] is [m] rounded to one decimal place: a whole number of tenths, at
    most half a tenth away from [m]. *)
Definition roundedTo1Decimal (m r : Q) : Prop :=
  (exists k : Z, r == inject_Z k / 10)%Q
  /\ (m - (1 # 20) <= r)%Q /\ (r <= m + (1 # 20))%Q.

Definition isRoundedMean (l : list Q) (r : Q) : Prop :=
  exists m, mean l = Some m /\ roundedTo1Decimal m r.

(** After a review change, the stored rating of driver [d] against the
    reviews of [db']: the rounded mean when a visible review remains, the
    profiles of [db] when none does. *)
Definition ratingRecomputed (d : ObjectId) (db db' : DB) : Prop :=
  (visibleRatings d db' <> [] ->
   forall p, driverProfiles db !! d = Some p ->
   exists p', driverProfiles db' !! d = Some p'
              /\ isRoundedMean (visibleRatings d db') (DriverProfile.rating p'))
  /\ (visibleRatings d db' = [] -> driverProfiles db' = driverProfiles db).

(** ** Documents the handlers build *)

(** The booking document bookRide hands to [Booking.create]; its total is
    the exact product. *)
Definition newBooking (user rideId : ObjectId) (seats : Z)
    (pickup dropoff : string) (ride : Ride.t) (body : BookRideBody.t)
  : Booking.t :=
  Booking.mk rideId user seats pickup dropoff
    (Ride.farePerSeat ride) (seats * Ride.farePerSeat ride)
    "pending" "pending"
    (default "cash" (truthy_string (BookRideBody.paymentMethod body)))
    (BookRideBody.passengerNote body) None None None None
    None None None None None.

(** The review document createReview hands to [Review.create]. *)
Definition newReview (user bookingId : ObjectId) (b : Booking.t) (r : Ride.t)
    (rating : Q) (body : ReviewBody.t) (now : Z) : Review.t :=
  let isPassenger := bool_decide (Booking.passenger b = user) in
  Review.mk bookingId (Booking.ride b) user
    (if isPassenger then Ride.driver r else Booking.passenger b)
    (if isPassenger then "passenger-to-driver" else "driver-to-passenger")
    rating (ReviewBody.comment body)
    (default Review.noAspects (ReviewBody.aspects body)) true now.

(** The update that [Booking.updateMany] of updateRideStatus applies to a
    matching booking. *)
Definition cancelledByDriver (now : Z) (b : Booking.t) : Booking.t :=
  Booking.set_cancelledAt (Some now)
    (Booking.set_cancelledBy (Some "driver") (Booking.set_status "cancelled" b)).

(** A request body of updateRide that carries [totalSeats] alone. *)
Definition onlyTotalSeats (n : Z) : UpdateRideBody.t :=
  UpdateRideBody.mk None None (Some n) None None None None.

(** ** bookRide between its awaits *)

(** A request handler runs to its next [await], hands one call to the
    database, and resumes when the call returns; between two awaits of one
    request, other requests may run.  The four awaited calls of bookRide are
    Ride.findById, Booking.findOne, Booking.create and ride.save, each one
    step against the database here; what the handler holds in between is its
    local variables, among them the [ride] document as it was read. *)
Module Await.

(** Where a bookRide request stands: before one of its awaited calls, or
    finished with its response. *)
Inductive pc :=
| AtFindRide
| AtFindExisting (rideId : ObjectId) (seatsBooked : Z)
    (pickup dropoff : string) (ride : Ride.t)
| AtCreate (rideId : ObjectId) (seatsBooked : Z)
    (pickup dropoff : string) (ride : Ride.t)
| AtSave (rideId : ObjectId) (seatsBooked : Z) (ride : Ride.t)
    (booking : Booking.t)
| Finished (res : Response).

(** [ride.save()] as Mongoose sends it: the document in hand is validated,
    then the modified paths alone are written to the stored document,
    [availableSeats] by [$set] and the pushed booking by [$push]; saving a
    document that is no longer stored throws. *)
Definition Ride_save_modified (id : ObjectId) (ride : Ride.t)
    (pushed : ObjectId) (db : DB) : option DB :=
  if Ride.validate ride
  then match rides db !! id with
       | Some stored =>
           Some (with_rides
                   (<[id := Ride.set_passengers
                              (Ride.passengers stored ++ [pushed])
                              (Ride.set_availableSeats
                                 (Ride.availableSeats ride) stored)]>
                      (rides db)) db)
       | None => None
       end
  else None.

(** One awaited call of the request, and the handler's code up to the
    next one. *)
Definition step (user newId : ObjectId) (body : BookRideBody.t) (p : pc)
    (db : DB) : DB * pc :=
  match p with
  | AtFindRide =>
      LET rideId <- BookRideBody.rideId body
        ELSE (db, Finished (json 400 (Message "Ride ID is required"))) ;;
      LET seatsBooked <- truthy_Z (BookRideBody.seatsBooked body)
        ELSE (db, Finished (json 400 (Message "At least 1 seat must be booked"))) ;;
      IF seatsBooked <? 1
        RETURN (db, Finished (json 400 (Message "At least 1 seat must be booked"))) ;;
      LET pickup <- truthy_string (BookRideBody.pickupLocation_address body)
        ELSE (db, Finished (json 400 (Message "Pickup location is required"))) ;;
      LET dropoff <- truthy_string (BookRideBody.dropoffLocation_address body)
        ELSE (db, Finished (json 400 (Message "Dropoff location is required"))) ;;
      LET ride <- rides db !! rideId
        ELSE (db, Finished (json 404 (Message "Ride not found"))) ;;
      IF bool_decide (Ride.status ride <> "scheduled")
        RETURN (db, Finished (json 400 (Message
                  "This ride is no longer available for booking"))) ;;
      IF Ride.availableSeats ride <? seatsBooked
        RETURN (db, Finished (json 400 (Message
                  ("Only " +:+ pretty (Ride.availableSeats ride)
                   +:+ " seats available")))) ;;
      (db, AtFindExisting rideId seatsBooked pickup dropoff ride)
  | AtFindExisting rideId seatsBooked pickup dropoff ride =>
      IF Booking_findOne_active rideId user (bookings db)
        RETURN (db, Finished (json 400 (Message
                  "You have already booked this ride"))) ;;
      IF bool_decide (Ride.driver ride = user)
        RETURN (db, Finished (json 400 (Message
                  "You cannot book your own ride"))) ;;
      (db, AtCreate rideId seatsBooked pickup dropoff ride)
  | AtCreate rideId seatsBooked pickup dropoff ride =>
      let doc := newBooking user rideId seatsBooked pickup dropoff ride body in
      LET db1 <- Booking_create newId doc db
        ELSE (db, Finished (json 500 ServerError)) ;;
      (db1, AtSave rideId seatsBooked ride (Booking.pre_save_new doc))
  | AtSave rideId seatsBooked ride booking =>
      let ride' :=
        Ride.set_passengers (Ride.passengers ride ++ [newId])
          (Ride.set_availableSeats (Ride.availableSeats ride - seatsBooked)
             ride) in
      LET db2 <- Ride_save_modified rideId ride' newId db
        ELSE (db, Finished (json 500 ServerError)) ;;
      (db2, Finished (json 201 (MessageBooking
                        "Booking request submitted successfully"
                        newId booking)))
  | Finished res => (db, Finished res)
  end.

(** The request run on its own: [n] steps in a row. *)
Fixpoint steps (n : nat) (user newId : ObjectId) (body : BookRideBody.t)
    (p : pc) (db : DB) : DB * pc :=
  match n with
  | O => (db, p)
  | S n => let '(db', p') := step user newId body p db in
           steps n user newId body p' db'
  end.

(** Two requests in flight, A and B, over one database. *)
Record sys := mkSys { store : DB; pcA : pc; pcB : pc }.

Inductive turn := A | B.

Record request := mkRequest {
  user : ObjectId;
  newId : ObjectId;
  body : BookRideBody.t
}.

(** The request whose turn it is makes its next step. *)
Definition turn_step (reqA reqB : request) (s : sys) (t : turn) : sys :=
  match t with
  | A => let '(db', p') := step (user reqA) (newId reqA) (body reqA)
                             (pcA s) (store s) in
         mkSys db' p' (pcB s)
  | B => let '(db', p') := step (user reqB) (newId reqB) (body reqB)
                             (pcB s) (store s) in
         mkSys db' (pcA s) p'
  end.

Definition run (reqA reqB : request) (schedule : list turn) (db : DB) : sys :=
  fold_left (turn_step reqA reqB) schedule (mkSys db AtFindRide AtFindRide).

(** The seats held on a ride: the [seatsBooked] of its bookings that are
    neither cancelled nor rejected. *)
Definition seatsHeld (rideId : ObjectId) (db : DB) : Z :=
  map_fold (fun _ b acc =>
              if bool_decide (Booking.ride b = rideId
                              /\ Booking.status b ∉ ["cancelled"; "rejected"])
              then acc + Booking.seatsBooked b else acc)
           0 (bookings db).

End Await.

(** ** The requests of the core, as the routers dispatch them *)

Inductive Request :=
| BookRide (user newId : ObjectId) (body : BookRideBody.t)
| CancelBooking (user id : ObjectId) (reason : option string)
| RespondToBooking (user id : ObjectId) (action : string)
    (driverNote : option string)
| UpdateBookingStatus (user id : ObjectId) (status : string)
| UpdateRideStatus (user id : ObjectId) (status : string)
| UpdateRide (user id : ObjectId) (updates : UpdateRideBody.t)
| CreateReview (user newId bookingId : ObjectId) (body : ReviewBody.t)
| UpdateReview (user id : ObjectId) (body : ReviewBody.t)
| DeleteReview (user id : ObjectId).

Definition handle (req : Request) (now : Z) (db : DB) : DB * Response :=
  match req with
  | BookRide user newId body => bookRide user newId body db
  | CancelBooking user id reason => cancelBooking user id reason now db
  | RespondToBooking user id action driverNote =>
      respondToBooking user id action driverNote now db
  | UpdateBookingStatus user id status =>
      updateBookingStatus user id status now db
  | UpdateRideStatus user id status => updateRideStatus user id status now db
  | UpdateRide user id updates => updateRide user id updates db
  | CreateReview user newId bookingId body =>
      createReview user newId bookingId body now db
  | UpdateReview user id body => updateReview user id body now db
  | DeleteReview user id => deleteReview user id now db
  end.

(** The ride count and the earnings of a profile. *)
Definition statsOf (p : DriverProfile.t) : Z * Z :=
  (DriverProfile.totalRides p, DriverProfile.totalEarnings p).

(** From [db] to [db'] no completion took place: every profile has the ride
    count and earnings it had, every booking the paymentStatus it had, and a
    booking that is new is pending payment. *)
Definition completionFree (db db' : DB) : Prop :=
  (forall u, statsOf <$> driverProfiles db' !! u = statsOf <$> driverProfiles db !! u)
  /\ (forall id,
        Booking.paymentStatus <$> bookings db' !! id
        = Booking.paymentStatus <$> bookings db !! id
        \/ (bookings db !! id = None
            /\ Booking.paymentStatus <$> bookings db' !! id = Some "pending")).

(** Every stored booking passes the schema. *)
Definition bookingsValid (db : DB) : Prop :=
  forall id b, bookings db !! id = Some b -> Booking.validate b = true.

(** ** Example data *)

Module Example.

Definition driver : ObjectId := 1%positive.
Definition passengerA : ObjectId := 2%positive.
Definition passengerB : ObjectId := 3%positive.
Definition rideId : ObjectId := 10%positive.
Definition bookingA : ObjectId := 100%positive.
Definition bookingB : ObjectId := 101%positive.

Definition prefs : Ride.Preferences :=
  Ride.mkPreferences false false true true "medium".

(** A scheduled ride of [driver] with [total] seats, [available] of them
    free, at 250 a seat. *)
Definition ride (total available : Z) (passengers : list ObjectId) : Ride.t :=
  Ride.mk driver 1767225600000 "09:30" total available 250 prefs None []
    "scheduled" passengers.

Definition profile : DriverProfile.t := DriverProfile.mk true 0 0 0.

(** A booking of [seats] seats on the ride by [passenger], in [status]. *)
Definition booking (passenger : ObjectId) (seats : Z) (status : string)
  : Booking.t :=
  Booking.mk rideId passenger seats "12 Canal Road" "Airport" 250 (seats * 250)
    status "pending" "cash" None None None None None
    None None None None None.

(** The ride with four free seats and no booking. *)
Definition db0 : DB :=
  mkDB {[ rideId := ride 4 4 [] ]} ∅ {[ driver := profile ]} ∅.

(** The ride with passenger A's booking of three seats in [status]. *)
Definition dbA (status : string) : DB :=
  mkDB {[ rideId := ride 4 1 [bookingA] ]}
       {[ bookingA := booking passengerA 3 status ]}
       {[ driver := profile ]} ∅.

Definition requestA : BookRideBody.t :=
  BookRideBody.mk (Some rideId) (Some 3) (Some "12 Canal Road")
    (Some "Airport") None None.

Definition requestB : BookRideBody.t :=
  BookRideBody.mk (Some rideId) (Some 2) (Some "5 Mall Road")
    (Some "Airport") None None.

(** The ride, full, with two confirmed bookings of two seats each. *)
Definition dbTwoConfirmed : DB :=
  mkDB {[ rideId := ride 4 0 [bookingA; bookingB] ]}
       (<[ bookingA := booking passengerA 2 "confirmed" ]>
          {[ bookingB := booking passengerB 2 "confirmed" ]})
       {[ driver := profile ]} ∅.

(** A visible passenger-to-driver review of the driver, the [i]-th of a
    list: each by another passenger, on another booking. *)
Definition review (i : nat) (rating : Q) : Review.t :=
  Review.mk (Pos.of_nat (100 + i)) rideId (Pos.of_nat (2 + i)) driver
    "passenger-to-driver" rating None Review.noAspects true 1767312000000.

(** The driver's profile with the stored rating [stored], and one visible
    review per element of [ratings]. *)
Definition dbReviews (stored : Q) (ratings : list Q) : DB :=
  mkDB {[ rideId := ride 4 4 [] ]} ∅
       {[ driver := DriverProfile.mk true stored 0 0 ]}
       (list_to_map (imap (fun i q => (Pos.of_nat (200 + i), review i q)) ratings)).

Definition fiveStars : ReviewBody.t := ReviewBody.mk (Some 5%Q) None None.

(** Two requests for three of the four seats, by passengers A and B. *)
Definition raceA : Await.request :=
  Await.mkRequest passengerA bookingA requestA.
Definition raceB : Await.request :=
  Await.mkRequest passengerB bookingB requestA.

(** A and B take turns, one awaited call each. *)
Definition alternating : list Await.turn :=
  [Await.A; Await.B; Await.A; Await.B; Await.A; Await.B; Await.A; Await.B].

(** A runs to its end, then B. *)
Definition oneAfterTheOther : list Await.turn :=
  [Await.A; Await.A; Await.A; Await.A; Await.B; Await.B; Await.B; Await.B].

End Example.

(** ** The rest of the ride controller: postRide and deleteRide *)

Module PostRideBody.
Record t := mk {
  origin_address : option string;
  origin_city : option string;
  destination_address : option string;
  destination_city : option string;
  stops : option (list Ride.Stop);
  departureDate : option Z;
  departureTime : option string;
  totalSeats : option Z;
  farePerSeat : option Z;
  preferences : option Ride.Preferences;
  description : option string
}.
End PostRideBody.

(** The defaults of the [preferences] sub-document. *)
Definition defaultPreferences : Ride.Preferences :=
  Ride.mkPreferences false false true true "medium".

(** The [pre("save")] hook of the ride schema on a new document. *)
Definition Ride_pre_save_new (r : Ride.t) : Ride.t :=
  Ride.set_availableSeats (Ride.totalSeats r) r.

(** [Ride.create(doc)] with the ObjectId [newId]: validation, the hook, the
    insert; [None] is a thrown error. *)
Definition Ride_create (newId : ObjectId) (doc : Ride.t) (db : DB) : option DB :=
  if Ride.validate doc && bool_decide (rides db !! newId = None)
  then Some (with_rides (<[newId := Ride_pre_save_new doc]> (rides db)) db)
  else None.

(** The ride document postRide hands to [Ride.create]. *)
Definition newRide (user : ObjectId) (departureDate : Z) (departureTime : string)
    (totalSeats farePerSeat : Z) (body : PostRideBody.t) : Ride.t :=
  Ride.mk user departureDate departureTime totalSeats totalSeats farePerSeat
    (default defaultPreferences (PostRideBody.preferences body))
    (PostRideBody.description body)
    (default [] (PostRideBody.stops body))
    "scheduled" [].

Definition postRide (user newId : ObjectId) (body : PostRideBody.t) (now : Z)
    (db : DB) : DB * Response :=
  LET _ <- truthy_string (PostRideBody.origin_address body)
    ELSE (db, json 400 (Message "Origin address and city are required")) ;;
  LET _ <- truthy_string (PostRideBody.origin_city body)
    ELSE (db, json 400 (Message "Origin address and city are required")) ;;
  LET _ <- truthy_string (PostRideBody.destination_address body)
    ELSE (db, json 400 (Message "Destination address and city are required")) ;;
  LET _ <- truthy_string (PostRideBody.destination_city body)
    ELSE (db, json 400 (Message "Destination address and city are required")) ;;
  LET departureDate <- truthy_Z (PostRideBody.departureDate body)
    ELSE (db, json 400 (Message "Departure date and time are required")) ;;
  LET departureTime <- truthy_string (PostRideBody.departureTime body)
    ELSE (db, json 400 (Message "Departure date and time are required")) ;;
  LET totalSeats <- truthy_Z (PostRideBody.totalSeats body)
    ELSE (db, json 400 (Message "At least 1 seat is required")) ;;
  IF totalSeats <? 1
    RETURN (db, json 400 (Message "At least 1 seat is required")) ;;
  LET farePerSeat <- truthy_Z (PostRideBody.farePerSeat body)
    ELSE (db, json 400 (Message "Valid fare per seat is required")) ;;
  IF farePerSeat <? 0
    RETURN (db, json 400 (Message "Valid fare per seat is required")) ;;
  IF departureDate <? now
    RETURN (db, json 400 (Message "Departure date must be in the future")) ;;
  LET driverProfile <- driverProfiles db !! user
    ELSE (db, json 400 (Message "Driver profile not found")) ;;
  IF negb (DriverProfile.isApproved driverProfile)
    RETURN (db, json 403 (Message "Your driver account is pending approval")) ;;
  let doc := newRide user departureDate departureTime totalSeats farePerSeat body in
  LET db1 <- Ride_create newId doc db ELSE (db, json 500 ServerError) ;;
  (db1, json 201 (MessageRide "Ride posted successfully" newId
                    (Ride_pre_save_new doc))).

(** [Booking.exists({ ride: id })]. *)
Definition Booking_exists_any (rideId : ObjectId)
    (bs : gmap positive Booking.t) : bool :=
  bool_decide (map_Exists (fun _ b => Booking.ride b = rideId) bs).

Definition deleteRide (user id : ObjectId) (db : DB) : DB * Response :=
  LET ride <- Ride_findOne_owned id user db
    ELSE (db, json 404 (Message "Ride not found")) ;;
  IF Booking_exists_any id (bookings db)
    RETURN (db, json 400 (Message
              "Cannot delete ride with bookings. Cancel it instead.")) ;;
  (with_rides (delete id (rides db)) db,
   json 200 (Message "Ride deleted successfully")).

(** ** canReviewBooking *)

(** The body of canReviewBooking: the [canReview] flag with the fields that
    come with it, or the 500 of the [catch] block. *)
Inductive CanReviewResponse :=
| CanReview (code : Z) (canReview : bool) (message : option string)
    (reviewType : option string) (review : option Review.t)
| CanReviewError.

(** [Review.findOne({ booking: bookingId, reviewer: user })]: the unique
    index on (booking, reviewer) leaves at most one such review. *)
Definition Review_findOne_of (bookingId user : ObjectId)
    (rs : gmap positive Review.t) : option Review.t :=
  head (map_to_list
          (filter (fun kr : positive * Review.t =>
                     Review.booking kr.2 = bookingId
                     /\ Review.reviewer kr.2 = user) rs)).*2.

Definition canReviewBooking (user bookingId : ObjectId) (db : DB)
  : CanReviewResponse :=
  LET booking <- bookings db !! bookingId
    ELSE CanReview 404 false (Some "Booking not found") None None ;;
  let isPassenger := bool_decide (Booking.passenger booking = user) in
  LET ride <- rides db !! Booking.ride booking ELSE CanReviewError ;;
  let isDriver := bool_decide (Ride.driver ride = user) in
  IF negb isPassenger && negb isDriver
    RETURN CanReview 200 false (Some "Not part of this booking") None None ;;
  IF bool_decide (Booking.status booking <> "completed")
    RETURN CanReview 200 false (Some "Ride not completed yet") None None ;;
  match Review_findOne_of bookingId user (reviews db) with
  | Some existingReview =>
      CanReview 200 false (Some "Already reviewed") None (Some existingReview)
  | None =>
      CanReview 200 true None
        (Some (if isPassenger then "passenger-to-driver"
               else "driver-to-passenger")) None
  end.

(** ** The role middleware *)

(** What a middleware does with a request: hand it on, or answer it. *)
Inductive Middleware :=
| next
| respond (res : Response).

(** [requireRole(...roles)], on [req.user] reduced to its roles; [None] is
    a request with no user. *)
Definition requireRole (roles : list string) (user : option (list string))
  : Middleware :=
  match user with
  | None => respond (json 401 (Message "Not authorized"))
  | Some userRoles =>
      let hasRole := existsb (fun role => includes userRoles role) roles in
      if negb hasRole
      then respond (json 403 (Message
                      ("Access denied. Required role: "
                       +:+ String.concat " or " roles)))
      else next
  end.

(** [requireAllRoles(...roles)]. *)
Definition requireAllRoles (roles : list string) (user : option (list string))
  : Middleware :=
  match user with
  | None => respond (json 401 (Message "Not authorized"))
  | Some userRoles =>
      let hasAllRoles := forallb (fun role => includes userRoles role) roles in
      if negb hasAllRoles
      then respond (json 403 (Message
                      ("Access denied. Required roles: "
                       +:+ String.concat " and " roles)))
      else next
  end.

(** ** Every write request of the core *)

Inductive Operation :=
| Core (req : Request)
| PostRide (user newId : ObjectId) (body : PostRideBody.t)
| DeleteRide (user id : ObjectId).

Definition perform (op : Operation) (now : Z) (db : DB) : DB * Response :=
  match op with
  | Core req => handle req now db
  | PostRide user newId body => postRide user newId body now db
  | DeleteRide user id => deleteRide user id db
  end.

(** ** What a request may do to the stored bookings and rides *)

(** The status graph of a booking: the driver's answer, the passenger's or
    the ride's cancellation, and the progress chain. *)
Definition statusGraph : list (string * string) :=
  [("pending", "confirmed"); ("pending", "rejected"); ("pending", "cancelled");
   ("confirmed", "cancelled")] ++ progressChain.

Definition terminalStatuses : list string := ["completed"; "cancelled"; "rejected"].

(** A booking that holds seats: neither cancelled nor rejected. *)
Definition active (b : Booking.t) : Prop :=
  Booking.status b ∉ ["cancelled"; "rejected"].

(** The paths of a booking that are written at creation. *)
Definition snapshot (b : Booking.t)
  : ObjectId * ObjectId * Z * string * string * Z * Z * string * option string :=
  (Booking.ride b, Booking.passenger b, Booking.seatsBooked b,
   Booking.pickupLocation_address b, Booking.dropoffLocation_address b,
   Booking.farePerSeat b, Booking.totalFare b, Booking.paymentMethod b,
   Booking.passengerNote b).

(** From [b] to [b'], one stored booking across a request. *)
Definition bookingStep (b b' : Booking.t) : Prop :=
  snapshot b' = snapshot b
  /\ (Booking.status b' = Booking.status b
      \/ (Booking.status b, Booking.status b') ∈ statusGraph)
  /\ (Booking.status b' = Booking.status b -> b' = b).

(** From the bookings [bs] to [bs'] across a request: every booking is kept
    and makes a [bookingStep]; a new booking is pending, with its fare
    computed, for a passenger who held no seat on that ride; at most one is
    new. *)
Definition bookingsEvolve (bs bs' : gmap positive Booking.t) : Prop :=
  (forall id b, bs !! id = Some b ->
     exists b', bs' !! id = Some b' /\ bookingStep b b')
  /\ (forall id b', bs' !! id = Some b' -> bs !! id = None ->
        Booking.status b' = "pending"
        /\ Booking.paymentStatus b' = "pending"
        /\ 1 <= Booking.seatsBooked b'
        /\ Booking.totalFare b' = Booking.seatsBooked b' * Booking.farePerSeat b'
        /\ (forall j bj, bs !! j = Some bj ->
              Booking.ride bj = Booking.ride b' ->
              Booking.passenger bj = Booking.passenger b' -> ~ active bj)
        /\ (forall id2, is_Some (bs' !! id2) -> bs !! id2 = None -> id2 = id)).

(** At most one booking of a passenger on a ride holds seats. *)
Definition oneActiveBooking (db : DB) : Prop :=
  forall i j bi bj,
    bookings db !! i = Some bi -> bookings db !! j = Some bj ->
    Booking.ride bi = Booking.ride bj ->
    Booking.passenger bi = Booking.passenger bj ->
    active bi -> active bj -> i = j.

(** Every booking is on a stored ride. *)
Definition bookingsOnRides (db : DB) : Prop :=
  forall id b, bookings db !! id = Some b -> is_Some (rides db !! Booking.ride b).

(** No ride has a negative number of free seats. *)
Definition seatsNonNegative (db : DB) : Prop :=
  forall id r, rides db !! id = Some r -> 0 <= Ride.availableSeats r.

(** From [r] to [r'], one stored ride across a request, [bs] being the
    bookings before it: the driver stays, and the free seats stay, or go
    down by a number of seats that were free, or go up by the seats of a
    stored booking, or are set to the ride's seats. *)
Definition rideStep (bs : gmap positive Booking.t) (r r' : Ride.t) : Prop :=
  Ride.driver r' = Ride.driver r
  /\ (Ride.availableSeats r' = Ride.availableSeats r
      \/ (exists n, 1 <= n <= Ride.availableSeats r
                    /\ Ride.availableSeats r' = Ride.availableSeats r - n)
      \/ (exists id b, bs !! id = Some b
                       /\ Ride.availableSeats r'
                          = Ride.availableSeats r + Booking.seatsBooked b)
      \/ (Ride.availableSeats r' = Ride.totalSeats r'
          /\ 1 <= Ride.totalSeats r')).

(** From the rides [rs] to [rs'] across a request: a ride makes a
    [rideStep], or is removed while no booking is on it; a new ride is
    scheduled with all its seats free and no passenger. *)
Definition ridesEvolve (bs : gmap positive Booking.t)
    (rs rs' : gmap positive Ride.t) : Prop :=
  (forall id r, rs !! id = Some r ->
     (exists r', rs' !! id = Some r' /\ rideStep bs r r')
     \/ (rs' !! id = None
         /\ forall j b, bs !! j = Some b -> Booking.ride b <> id))
  /\ (forall id r', rs' !! id = Some r' -> rs !! id = None ->
        Ride.availableSeats r' = Ride.totalSeats r'
        /\ 1 <= Ride.totalSeats r' <= 8
        /\ Ride.status r' = "scheduled"
        /\ Ride.passengers r' = []).

(** ** The driver's answer, repeated *)

(** The same answer of the driver, sent [k] times. *)
Definition respondRepeatedly (user id : ObjectId) (action : string)
    (driverNote : option string) (now : Z) (k : nat) (db : DB) : DB :=
  Nat.iter k (fun db => (respondToBooking user id action driverNote now db).1) db.

(** ** Sequences of requests *)

(** The requests [ops], each with the time it is served at, one after the
    other. *)
Definition performAll (ops : list (Operation * Z)) (db : DB) : DB :=
  foldl (fun db op => (perform op.1 op.2 db).1) db ops.

(** One edge of the status graph. *)
Definition statusEdge (s s' : string) : Prop := (s, s') ∈ statusGraph.

(** ** Invariants of the stored reviews *)

(** Every stored review passes the schema. *)
Definition reviewsValid (db : DB) : Prop :=
  forall id r, reviews db !! id = Some r -> Review.validate r = true.

(** No two reviews of one booking by one reviewer. *)
Definition oneReviewPerBooking (db : DB) : Prop :=
  forall i j ri rj,
    reviews db !! i = Some ri -> reviews db !! j = Some rj ->
    Review.booking ri = Review.booking rj ->
    Review.reviewer ri = Review.reviewer rj -> i = j.

(** The paths of a review that updateReview does not assign. *)
Definition reviewIdentity (r : Review.t)
  : ObjectId * ObjectId * ObjectId * ObjectId * string * bool * Z :=
  (Review.booking r, Review.ride r, Review.reviewer r, Review.reviewee r,
   Review.reviewType r, Review.isVisible r, Review.createdAt r).

(** ** getDriverHistory *)

(** [rides.map((r) => r._id)] of [Ride.find({ driver: user })]. *)
Definition Ride_ids_of (user : ObjectId) (rs : gmap positive Ride.t)
  : gset positive :=
  dom (filter (fun kr : positive * Ride.t => Ride.driver kr.2 = user) rs).

(** [Booking.aggregate([{ $match: { ride: { $in: rideIds } } },
    { $group: { _id: "$status", count: { $sum: 1 },
                totalEarnings: { $sum: "$totalFare" } } }])]:
    per status, the count and the summed fare of the matched bookings, the
    sums being the exact ones. *)
Definition Booking_aggregate_byStatus (rideIds : gset positive)
    (bs : gmap positive Booking.t) : gmap string (Z * Z) :=
  map_fold
    (fun _ b stats =>
       if decide (Booking.ride b ∈ rideIds)
       then let g := default (0, 0) (stats !! Booking.status b) in
            <[Booking.status b := (g.1 + 1, g.2 + Booking.totalFare b)]> stats
       else stats)
    ∅ bs.

Module DriverHistory.
Record t := mk {
  driverProfile : DriverProfile.t;
  completedBookings : Z;
  totalEarnings : Z;
  statusBreakdown : gmap string (Z * Z)
}.
End DriverHistory.

(** The profile and the booking statistics of the response; [None] is the
    404 for a user without a driver profile.  The five most recent bookings
    and the ride counts of the response are left out. *)
Definition getDriverHistory (user : ObjectId) (db : DB) : option DriverHistory.t :=
  match driverProfiles db !! user with
  | None => None
  | Some driverProfile =>
      let rideIds := Ride_ids_of user (rides db) in
      let stats := Booking_aggregate_byStatus rideIds (bookings db) in
      let completedStats := default (0, 0) (stats !! "completed") in
      Some (DriverHistory.mk driverProfile completedStats.1 completedStats.2 stats)
  end.

(** The two counters of the profile are the two statistics of the completed
    bookings. *)
Definition countersAgree (user : ObjectId) (db : DB) : Prop :=
  forall h, getDriverHistory user db = Some h ->
    DriverProfile.totalRides (DriverHistory.driverProfile h)
    = DriverHistory.completedBookings h
    /\ DriverProfile.totalEarnings (DriverHistory.driverProfile h)
       = DriverHistory.totalEarnings h.

(** The sum of a weight over the stored bookings. *)
Definition sumOver (w : Booking.t -> Z) (bs : gmap positive Booking.t) : Z :=
  map_fold (fun _ b acc => acc + w b) 0 bs.

(** The weights of a booking in the group [s] of the aggregate. *)
Definition countIn (rideIds : gset positive) (s : string) (b : Booking.t) : Z :=
  if decide (Booking.ride b ∈ rideIds /\ Booking.status b = s) then 1 else 0.
Definition fareIn (rideIds : gset positive) (s : string) (b : Booking.t) : Z :=
  if decide (Booking.ride b ∈ rideIds /\ Booking.status b = s)
  then Booking.totalFare b else 0.

(** ** The seats of a ride: free, and held by bookings *)



(** ** getActiveBookings *)

(** The [activeStatuses] of getActiveBookings. *)
Definition activeStatuses : list string :=
  ["confirmed"; "coming-for-pickup"; "picked-up"; "in-transit"].

Module ActiveBookings.
Record t := mk {
  asPassenger : gmap positive Booking.t;
  asDriver : gmap positive Booking.t
}.
End ActiveBookings.

(** The two lists of the response, each as the set of the bookings found,
    by id; [roles] is [req.user.roles].  Populated references are not
    expanded. *)
Definition getActiveBookings (user : ObjectId) (roles : list string) (db : DB)
  : ActiveBookings.t :=
  let passengerBookings :=
    filter (fun kb : positive * Booking.t =>
              Booking.passenger kb.2 = user
              /\ Booking.status kb.2 ∈ activeStatuses) (bookings db) in
  let driverBookings :=
    if includes roles "driver"
    then
      let rideIds := Ride_ids_of user (rides db) in
      filter (fun kb : positive * Booking.t =>
                Booking.ride kb.2 ∈ rideIds
                /\ Booking.status kb.2 ∈ activeStatuses) (bookings db)
    else ∅ in
  ActiveBookings.mk passengerBookings driverBookings.

(** No booking is on a ride of its own passenger. *)
Definition noOwnRideBooking (db : DB) : Prop :=
  forall id b r,
    bookings db !! id = Some b -> rides db !! Booking.ride b = Some r ->
    Ride.driver r <> Booking.passenger b.

(** ** cancelBooking and updateBookingStatus between their awaits *)

(** [booking.save()] as Mongoose sends it: the document in hand, [doc], is
    validated, then the paths the handler assigned, [assign], are written to
    the stored document; saving a document that is no longer stored
    throws. *)
Definition Booking_save_modified (id : ObjectId) (doc : Booking.t)
    (assign : Booking.t -> Booking.t) (db : DB) : option DB :=
  if Booking.validate doc
  then match bookings db !! id with
       | Some stored =>
           Some (with_bookings (<[id := assign stored]> (bookings db)) db)
       | None => None
       end
  else None.

(** Two requests in flight over one database, A and B, each with the step
    function of its handler. *)
Module Race.

Record sys (pcA pcB : Type) := mkSys { store : DB; atA : pcA; atB : pcB }.
Arguments mkSys {pcA pcB}.
Arguments store {pcA pcB}.
Arguments atA {pcA pcB}.
Arguments atB {pcA pcB}.

Definition turn_step {pcA pcB : Type} (stepA : pcA -> DB -> DB * pcA)
    (stepB : pcB -> DB -> DB * pcB) (s : sys pcA pcB) (t : Await.turn)
  : sys pcA pcB :=
  match t with
  | Await.A => let '(db', p') := stepA (atA s) (store s) in mkSys db' p' (atB s)
  | Await.B => let '(db', p') := stepB (atB s) (store s) in mkSys db' (atA s) p'
  end.

Definition run {pcA pcB : Type} (stepA : pcA -> DB -> DB * pcA)
    (stepB : pcB -> DB -> DB * pcB) (startA : pcA) (startB : pcB)
    (schedule : list Await.turn) (db : DB) : sys pcA pcB :=
  fold_left (turn_step stepA stepB) schedule (mkSys db startA startB).

End Race.

(** The awaited calls of cancelBooking: Booking.findOne, booking.save and
    Ride.findByIdAndUpdate. *)
Module CancelSteps.

Inductive pc :=
| AtFind
| AtSave (booking : Booking.t)
| AtRestore (booking : Booking.t)
| Finished (res : Response).

(** The assignments of the handler to the booking it found. *)
Definition assign (reason : option string) (now : Z) (b : Booking.t)
  : Booking.t :=
  Booking.set_cancelledAt (Some now)
    (Booking.set_cancellationReason reason
       (Booking.set_cancelledBy (Some "passenger")
          (Booking.set_status "cancelled" b))).

Definition step (user id : ObjectId) (reason : option string) (now : Z)
    (p : pc) (db : DB) : DB * pc :=
  match p with
  | AtFind =>
      LET booking <- bookings db !! id
        ELSE (db, Finished (json 404 (Message "Booking not found"))) ;;
      IF bool_decide (Booking.passenger booking <> user)
        RETURN (db, Finished (json 404 (Message "Booking not found"))) ;;
      IF negb (includes ["pending"; "confirmed"] (Booking.status booking))
        RETURN (db, Finished (json 400 (Message
                  "Cannot cancel booking in current status"))) ;;
      (db, AtSave booking)
  | AtSave booking =>
      LET db1 <- Booking_save_modified id (assign reason now booking)
                   (assign reason now) db
        ELSE (db, Finished (json 500 ServerError)) ;;
      (db1, AtRestore (assign reason now booking))
  | AtRestore booking' =>
      (Ride_restoreSeats (Booking.ride booking') (Booking.seatsBooked booking')
         id db,
       Finished (json 200 (MessageBooking "Booking cancelled successfully"
                             id booking')))
  | Finished res => (db, Finished res)
  end.

(** The request run on its own: [n] steps in a row. *)
Fixpoint steps (n : nat) (user id : ObjectId) (reason : option string)
    (now : Z) (p : pc) (db : DB) : DB * pc :=
  match n with
  | O => (db, p)
  | S n => let '(db', p') := step user id reason now p db in
           steps n user id reason now p' db'
  end.

End CancelSteps.

(** The awaited calls of updateBookingStatus: Booking.findById with its
    populate, DriverProfile.findOneAndUpdate when the target is completed,
    and booking.save. *)
Module StatusSteps.

Inductive pc :=
| AtFind
| AtInc (booking : Booking.t) (fare : Z)
| AtSave (booking : Booking.t)
| Finished (res : Response).

Definition step (user id : ObjectId) (status : string) (now : Z)
    (p : pc) (db : DB) : DB * pc :=
  match p with
  | AtFind =>
      IF negb (includes validStatuses status)
        RETURN (db, Finished (json 400 (Message
                  ("Invalid status. Valid options: "
                   +:+ String.concat ", " validStatuses)))) ;;
      LET booking <- bookings db !! id
        ELSE (db, Finished (json 404 (Message "Booking not found"))) ;;
      LET ride <- rides db !! Booking.ride booking
        ELSE (db, Finished (json 500 ServerError)) ;;
      IF bool_decide (Ride.driver ride <> user)
        RETURN (db, Finished (json 403 (Message "Not authorized"))) ;;
      let allowedNextStatuses := statusFlow !! Booking.status booking in
      IF negb (includes (default [] allowedNextStatuses) status)
        RETURN (db, Finished (json 400 (MessageTransition
                  ("Cannot change status from '" +:+ Booking.status booking
                   +:+ "' to '" +:+ status +:+ "'")
                  (Booking.status booking)
                  (default [] allowedNextStatuses)))) ;;
      let booking' := afterSwitch status now (Booking.set_status status booking) in
      if bool_decide (status = "completed")
      then (db, AtInc booking' (Booking.totalFare booking))
      else (db, AtSave booking')
  | AtInc booking' fare =>
      (DriverProfile_incStats user fare db, AtSave booking')
  | AtSave booking' =>
      LET db1 <- Booking_save_modified id booking'
                   (fun b => afterSwitch status now (Booking.set_status status b))
                   db
        ELSE (db, Finished (json 500 ServerError)) ;;
      (db1, Finished (json 200 (MessageBooking
                        ("Booking status updated to '" +:+ status +:+ "'")
                        id booking')))
  | Finished res => (db, Finished res)
  end.

Fixpoint steps (n : nat) (user id : ObjectId) (status : string) (now : Z)
    (p : pc) (db : DB) : DB * pc :=
  match n with
  | O => (db, p)
  | S n => let '(db', p') := step user id status now p db in
           steps n user id status now p' db'
  end.

End StatusSteps.


(** ** createReview between its awaits *)

(** The awaited calls of createReview: Booking.findById with its populate,
    Review.findOne, Review.create, the two of updateDriverRating
    (Review.find, then DriverProfile.findOneAndUpdate with the rating
    computed from what Review.find returned), and Review.findById with its
    populates.  The last one answers with the review as it is stored then;
    a review no longer stored is the body without a review. *)
Module ReviewSteps.

Inductive pc :=
| AtFindBooking
| AtFindExisting (doc : Review.t)
| AtCreate (doc : Review.t)
| AtFindReviews (doc : Review.t)
| AtUpdateProfile (doc : Review.t) (rating : Q)
| AtPopulate (doc : Review.t)
| Finished (res : Response).

Definition step (user newId bookingId : ObjectId) (body : ReviewBody.t)
    (now : Z) (p : pc) (db : DB) : DB * pc :=
  match p with
  | AtFindBooking =>
      LET rating <- truthy_Q (ReviewBody.rating body)
        ELSE (db, Finished (json 400 (Message "Rating must be between 1 and 5"))) ;;
      IF negb (Qle_bool 1 rating) || negb (Qle_bool rating 5)
        RETURN (db, Finished (json 400 (Message "Rating must be between 1 and 5"))) ;;
      LET booking <- bookings db !! bookingId
        ELSE (db, Finished (json 404 (Message "Booking not found"))) ;;
      IF bool_decide (Booking.status booking <> "completed")
        RETURN (db, Finished (json 400 (Message "Can only review completed rides"))) ;;
      let isPassenger := bool_decide (Booking.passenger booking = user) in
      LET ride <- rides db !! Booking.ride booking
        ELSE (db, Finished (json 500 ServerError)) ;;
      let isDriver := bool_decide (Ride.driver ride = user) in
      IF negb isPassenger && negb isDriver
        RETURN (db, Finished (json 403 (Message "You are not part of this booking"))) ;;
      let '(reviewType, reviewee) :=
        if isPassenger
        then ("passenger-to-driver", Ride.driver ride)
        else ("driver-to-passenger", Booking.passenger booking) in
      (db, AtFindExisting
             (Review.mk bookingId (Booking.ride booking) user reviewee reviewType
                rating (ReviewBody.comment body)
                (default Review.noAspects (ReviewBody.aspects body)) true now))
  | AtFindExisting doc =>
      IF Review_findOne_by bookingId user (reviews db)
        RETURN (db, Finished (json 400 (Message
                  "You have already reviewed this ride"))) ;;
      (db, AtCreate doc)
  | AtCreate doc =>
      LET db1 <- Review_create newId doc db
        ELSE (db, Finished (json 500 ServerError)) ;;
      if bool_decide (Review.reviewType doc = "passenger-to-driver")
      then (db1, AtFindReviews doc)
      else (db1, AtPopulate doc)
  | AtFindReviews doc =>
      let reviews := Review_find_visible (Review.reviewee doc) (reviews db) in
      if (0 <? Z.of_nat (length reviews))
      then
        let avgRating :=
          (sumRatings reviews / inject_Z (Z.of_nat (length reviews)))%Q in
        (db, AtUpdateProfile doc (inject_Z (Math_round (avgRating * 10)) / 10)%Q)
      else (db, AtPopulate doc)
  | AtUpdateProfile doc rating =>
      (with_driverProfiles
         (alter (DriverProfile.set_rating rating) (Review.reviewee doc)
            (driverProfiles db)) db,
       AtPopulate doc)
  | AtPopulate doc =>
      match reviews db !! newId with
      | Some populatedReview =>
          (db, Finished (json 201 (MessageReview "Review submitted successfully"
                                     newId populatedReview)))
      | None => (db, Finished (json 201 (Message "Review submitted successfully")))
      end
  | Finished res => (db, Finished res)
  end.

(** The request run on its own: [n] steps in a row. *)
Fixpoint steps (n : nat) (user newId bookingId : ObjectId)
    (body : ReviewBody.t) (now : Z) (p : pc) (db : DB) : DB * pc :=
  match n with
  | O => (db, p)
  | S n => let '(db', p') := step user newId bookingId body now p db in
           steps n user newId bookingId body now p' db'
  end.

End ReviewSteps.

(** ** Example requests *)

Module Scenario.

(** The driver's answer and the five progress steps of passenger A's
    booking, each with its time. *)
Definition lifecycle : list (Operation * Z) :=
  [(Core (RespondToBooking Example.driver Example.bookingA "confirm" None),
    1767225700000);
   (Core (UpdateBookingStatus Example.driver Example.bookingA "coming-for-pickup"),
    1767225800000);
   (Core (UpdateBookingStatus Example.driver Example.bookingA "picked-up"),
    1767225900000);
   (Core (UpdateBookingStatus Example.driver Example.bookingA "in-transit"),
    1767226000000);
   (Core (UpdateBookingStatus Example.driver Example.bookingA "dropped-off"),
    1767226100000);
   (Core (UpdateBookingStatus Example.driver Example.bookingA "completed"),
    1767226200000)].

(** Requests against a booking that is cancelled. *)
Definition afterCancellation : list (Operation * Z) :=
  [(Core (RespondToBooking Example.driver Example.bookingA "confirm" None),
    1767225700000);
   (Core (UpdateBookingStatus Example.driver Example.bookingA "completed"),
    1767225800000);
   (Core (CancelBooking Example.passengerA Example.bookingA None), 1767225900000);
   (DeleteRide Example.driver Example.rideId, 1767226000000)].

(** Passenger A books three seats, twice, then passenger B two. *)
Definition bookings : list (Operation * Z) :=
  [(Core (BookRide Example.passengerA Example.bookingA Example.requestA),
    1767225700000);
   (Core (BookRide Example.passengerA Example.bookingB Example.requestA),
    1767225800000);
   (Core (BookRide Example.passengerB Example.bookingB Example.requestB),
    1767225900000)].

(** Passenger A reviews the completed booking, twice. *)
Definition reviewing : list (Operation * Z) :=
  [(Core (CreateReview Example.passengerA 200 Example.bookingA Example.fiveStars),
    1767312000000);
   (Core (CreateReview Example.passengerA 201 Example.bookingA Example.fiveStars),
    1767312100000)].

(** A driver note of 201 characters. *)
Definition longNote : string := String.concat "" (replicate 201 "x").

(** A ride of three seats at 400 a seat. *)
Definition rideBody : PostRideBody.t :=
  PostRideBody.mk (Some "12 Canal Road") (Some "Lahore") (Some "Airport")
    (Some "Islamabad") None (Some 1767225600000) (Some "09:30") (Some 3)
    (Some 400) None None.

(** One five-star review of the driver, by passenger A. *)
Definition dbOneReview : DB := Example.dbReviews 0 [5%Q].

(** The ride after two passengers were driven: two completed bookings of
    two seats each. *)
Definition dbTwoCompleted : DB :=
  mkDB {[ Example.rideId := Example.ride 4 0 [Example.bookingA; Example.bookingB] ]}
       (<[ Example.bookingA := Example.booking Example.passengerA 2 "completed" ]>
          {[ Example.bookingB := Example.booking Example.passengerB 2 "completed" ]})
       {[ Example.driver := Example.profile ]} ∅.

Definition oneStar : ReviewBody.t := ReviewBody.mk (Some 1%Q) None None.

(** Two createReview requests, A and B: A runs up to its Review.find, then B
    up to its write of the rating, then A writes the rating it computed
    before B's review was stored, and both answer. *)
Definition overtaking : list Await.turn :=
  [Await.A; Await.A; Await.A; Await.A;
   Await.B; Await.B; Await.B; Await.B; Await.B;
   Await.A; Await.A; Await.B].

(** A runs its six awaited calls, then B. *)
Definition inTurn : list Await.turn :=
  [Await.A; Await.A; Await.A; Await.A; Await.A; Await.A;
   Await.B; Await.B; Await.B; Await.B; Await.B; Await.B].

End Scenario.

(** ** The numbers of the code *)

(** A number of the code is an IEEE 754 double.  Seat counts, fares and
    counters are whole numbers here; a double holds a whole number exactly
    when it is safe, and a sum or a product of whole numbers is exact, in any
    order, when its result is safe. *)

(** [Number.MAX_SAFE_INTEGER], 2^53 - 1. *)
Definition Number_MAX_SAFE_INTEGER : Z := 2 ^ 53 - 1.

(** [Number.isSafeInteger] of a whole number. *)
Definition Number_isSafeInteger (z : Z) : bool :=
  Z.abs z <=? Number_MAX_SAFE_INTEGER.

(** [Number.isInteger] of a rating. *)
Definition Number_isInteger (q : Q) : bool :=
  Qnum q mod Z.pos (Qden q) =? 0.

(** Ratings in whole stars. *)
Definition wholeStars (ratings : list Q) : bool :=
  forallb Number_isInteger ratings.

(** The amounts of a database are safe: the number of bookings, the fares of
    all bookings added up without their signs, the fare of every ride and
    the two counters of every profile.  Every sum of stored fares, in any
    order, is then exact, and so is the increment of a counter that is safe
    afterwards. *)
Definition amountsSafe (db : DB) : bool :=
  Number_isSafeInteger (Z.of_nat (size (bookings db)))
  && Number_isSafeInteger
       (sumOver (fun b => Z.abs (Booking.totalFare b)) (bookings db))
  && map_fold (fun _ r ok => ok && Number_isSafeInteger (Ride.farePerSeat r))
       true (rides db)
  && map_fold (fun _ p ok =>
                 ok && Number_isSafeInteger (DriverProfile.totalRides p)
                 && Number_isSafeInteger (DriverProfile.totalEarnings p))
       true (driverProfiles db).

(** The databases that the requests [ops], served one after the other, pass
    through, the first and the last included. *)
Fixpoint states (ops : list (Operation * Z)) (db : DB) : list DB :=
  db :: match ops with
        | [] => []
        | op :: ops => states ops (perform op.1 op.2 db).1
        end.

(** ** The rating in binary64 *)

(** The arithmetic of updateDriverRating on doubles, to compare with the
    exact arithmetic of [updateDriverRating] above. *)
Module Double.

(** The tenths that the exact arithmetic stores for [count] ratings that add
    up to [sum]. *)
Definition exactTenths (count sum : Z) : Z :=
  Math_round ((sum # Z.to_pos count) * 10)%Q.

(** A whole number from 0 to 2^62 as a double. *)
Definition ofZ (z : Z) : float := PrimFloat.of_uint63 (Uint63.of_Z z).

(** [Math.floor] of a double from 0 to 2^51: adding and subtracting 2^52
    rounds to a whole number, which is the floor or the one above it. *)
Definition Math_floor (x : float) : float :=
  let two52 := ofZ (2 ^ 52) in
  let r := PrimFloat.sub (PrimFloat.add x two52) two52 in
  if PrimFloat.ltb x r then PrimFloat.sub r (ofZ 1) else r.

(** [Math.round] of a double from 0 to 2^51: the nearest whole number, a
    half rounding up. *)
Definition Math_round (x : float) : float :=
  let f := Math_floor x in
  if PrimFloat.leb (PrimFloat.div (ofZ 1) (ofZ 2)) (PrimFloat.sub x f)
  then PrimFloat.add f (ofZ 1)
  else f.

(** [Math.round(sum / length * 10) / 10]. *)
Definition tenths (sum length : float) : float :=
  PrimFloat.div
    (Math_round (PrimFloat.mul (PrimFloat.div sum length) (ofZ 10)))
    (ofZ 10).

(** The rating updateDriverRating stores for the ratings of the reviews it
    found, at least one. *)
Definition rating (ratings : list float) : float :=
  tenths (fold_left PrimFloat.add ratings (ofZ 0))
    (ofZ (Z.of_nat (length ratings))).

(** The decimal [n / 10] as a double: the nearest one. *)
Definition decimal (n : Z) : float := PrimFloat.div (ofZ n) (ofZ 10).

(** On [count] reviews in whole stars that add up to [sum], the double that
    is stored is the one nearest to the tenths of the exact arithmetic. *)
Definition agreesOn (count sum : Z) : bool :=
  PrimFloat.eqb (tenths (ofZ sum) (ofZ count)) (decimal (exactTenths count sum)).

(** [agreesOn] for every number of reviews from 1 to [n] and every sum of
    that many ratings from 1 to 5. *)
Definition agreesUpTo (n : nat) : bool :=
  forallb (fun count =>
             forallb (fun k => agreesOn count (count + Z.of_nat k))
               (seq 0 (Z.to_nat (4 * count + 1))))
    (Z.of_nat <$> seq 1 n).

End Double.

(** * Properties *)

(** ** Membership tests and the transition table *)

Lemma includes_true l s : includes l s = true <-> s ∈ l.
Proof. unfold includes. apply bool_decide_eq_true. Qed.

Lemma includes_false l s : includes l s = false <-> s ∉ l.
Proof. unfold includes. apply bool_decide_eq_false. Qed.

Lemma statusFlow_lookup cur :
  statusFlow !! cur =
    if decide (cur = "confirmed") then Some ["coming-for-pickup"]
    else if decide (cur = "coming-for-pickup") then Some ["picked-up"]
    else if decide (cur = "picked-up") then Some ["in-transit"]
    else if decide (cur = "in-transit") then Some ["dropped-off"]
    else if decide (cur = "dropped-off") then Some ["completed"]
    else None.
Proof.
  unfold statusFlow. cbn [list_to_map foldr uncurry fst snd].
  repeat (rewrite lookup_insert; case_decide;
          [subst; rewrite decide_True by done; done
          |rewrite decide_False by done]).
  by rewrite lookup_empty.
Qed.

Lemma allowedNextSet_statusFlow cur :
  default [] (statusFlow !! cur) = allowedNextSet cur.
Proof.
  rewrite statusFlow_lookup. unfold allowedNextSet, progressChain.
  repeat (case_decide; [subst; reflexivity|]).
  rewrite !filter_cons. cbn [fst].
  repeat (rewrite decide_False by congruence). done.
Qed.

Lemma allowedNext_statusFlow cur tgt :
  allowedNext cur tgt <-> statusFlow !! cur = Some [tgt].
Proof.
  rewrite statusFlow_lookup. unfold allowedNext, progressChain. split.
  - intros H.
    repeat (apply elem_of_cons in H as [H|H]; [simplify_eq; reflexivity|]).
    by apply elem_of_nil in H.
  - intros H. repeat (case_decide; [simplify_eq; set_solver|]). done.
Qed.

Lemma allowedNext_unique cur t1 t2 :
  allowedNext cur t1 -> allowedNext cur t2 -> t1 = t2.
Proof. rewrite !allowedNext_statusFlow. congruence. Qed.

Lemma allowedNext_set cur tgt :
  allowedNext cur tgt -> allowedNextSet cur = [tgt].
Proof.
  intros H%allowedNext_statusFlow.
  by rewrite <- allowedNextSet_statusFlow, H.
Qed.

Lemma allowedNext_includes cur tgt :
  includes (default [] (statusFlow !! cur)) tgt = true <-> allowedNext cur tgt.
Proof.
  rewrite includes_true, allowedNext_statusFlow, statusFlow_lookup.
  repeat (case_decide;
          [simpl; rewrite list_elem_of_singleton; split; congruence|]).
  simpl. split; [by intros ?%elem_of_nil|done].
Qed.

Lemma allowedNext_valid cur tgt : allowedNext cur tgt -> tgt ∈ validStatuses.
Proof.
  unfold allowedNext, progressChain, validStatuses. intros H.
  repeat (apply elem_of_cons in H as [H|H]; [simplify_eq; set_solver|]).
  by apply elem_of_nil in H.
Qed.

(** A status outside the chain's five sources has no successor. *)
Lemma no_successor cur tgt :
  cur ∈ ["pending"; "completed"; "cancelled"; "rejected"] ->
  ~ allowedNext cur tgt.
Proof.
  intros Hc H. unfold allowedNext, progressChain in H.
  repeat (apply elem_of_cons in H as [H|H];
          [simplify_eq;
           repeat (apply elem_of_cons in Hc as [Hc|Hc]; [discriminate|]);
           by apply elem_of_nil in Hc|]).
  by apply elem_of_nil in H.
Qed.

(** ** updateBookingStatus *)

Ltac split_validate H :=
  unfold Booking.validate in H |- *; cbn in H |- *;
  rewrite ?andb_true_iff in H; destruct_and? H;
  repeat match goal with
         | E : ?x = true |- context [?x] => rewrite E
         end.

Ltac decide_strings :=
  repeat (first [rewrite bool_decide_eq_true_2 by reflexivity
                |rewrite bool_decide_eq_false_2 by discriminate]).

(** A request the table refuses changes nothing; its body depends on whether
    the target is one of the five progress statuses. *)
Lemma updateBookingStatus_rejected user id status now db b r :
  bookings db !! id = Some b ->
  rides db !! Booking.ride b = Some r ->
  Ride.driver r = user ->
  ~ allowedNext (Booking.status b) status ->
  updateBookingStatus user id status now db =
    (db, if includes validStatuses status
         then json 400 (MessageTransition
                          (cannotChangeMessage (Booking.status b) status)
                          (Booking.status b) (allowedNextSet (Booking.status b)))
         else json 400 (Message invalidStatusMessage)).
Proof.
  intros Hb Hr Hu Hn. unfold updateBookingStatus.
  destruct (includes validStatuses status) eqn:Hv; [|reflexivity].
  cbn [negb]. rewrite Hb, Hr.
  rewrite bool_decide_eq_false_2 by (intros ?; congruence).
  destruct (includes (default [] (statusFlow !! Booking.status b)) status) eqn:Hi.
  - apply allowedNext_includes in Hi. contradiction.
  - cbn [negb]. by rewrite allowedNextSet_statusFlow.
Qed.

(** A request the table allows goes through the [switch] and is saved. *)
Lemma updateBookingStatus_allowed user id status now db b r :
  bookings db !! id = Some b ->
  rides db !! Booking.ride b = Some r ->
  Ride.driver r = user ->
  allowedNext (Booking.status b) status ->
  let b' := afterSwitch status now (Booking.set_status status b) in
  let db1 := if bool_decide (status = "completed")
             then DriverProfile_incStats user (Booking.totalFare b) db
             else db in
  updateBookingStatus user id status now db =
    if Booking.validate b'
    then (with_bookings (<[id := b']> (bookings db1)) db1,
          json 200 (MessageBooking
                      ("Booking status updated to '" +:+ status +:+ "'") id b'))
    else (db1, json 500 ServerError).
Proof.
  intros Hb Hr Hu Hn. unfold updateBookingStatus.
  rewrite (proj2 (includes_true _ _) (allowedNext_valid _ _ Hn)).
  cbn [negb]. rewrite Hb, Hr.
  rewrite bool_decide_eq_false_2 by (intros ?; congruence).
  rewrite (proj2 (allowedNext_includes _ _) Hn). cbn [negb].
  pose proof (allowedNext_valid _ _ Hn) as Hv. unfold validStatuses in Hv.
  repeat (apply elem_of_cons in Hv as [Hv|Hv]; [subst status|]);
    [..|by apply elem_of_nil in Hv].
  all: unfold afterSwitch; cbn zeta beta; decide_strings.
  all: unfold Booking_save, DriverProfile_incStats.
  all: match goal with |- context [Booking.validate ?x] =>
         destruct (Booking.validate x) end; reflexivity.
Qed.

(** The document of an allowed transition passes validation when the stored
    one does. *)
Lemma validate_afterSwitch status now b :
  status ∈ validStatuses ->
  Booking.validate b = true ->
  Booking.validate (afterSwitch status now (Booking.set_status status b)) = true.
Proof.
  intros Hv Hval. unfold validStatuses in Hv.
  repeat (apply elem_of_cons in Hv as [Hv|Hv]; [subst status|]);
    [..|by apply elem_of_nil in Hv].
  all: unfold afterSwitch; decide_strings.
  all: destruct b; split_validate Hval; reflexivity.
Qed.

(** What a 200 of updateBookingStatus implies. *)
Lemma updateBookingStatus_200_inv user id status now db :
  code (updateBookingStatus user id status now db).2 = 200 ->
  exists b r,
    bookings db !! id = Some b
    /\ rides db !! Booking.ride b = Some r
    /\ Ride.driver r = user
    /\ allowedNext (Booking.status b) status
    /\ Booking.validate (afterSwitch status now (Booking.set_status status b)) = true.
Proof.
  intros H.
  assert (exists b r, bookings db !! id = Some b
                      /\ rides db !! Booking.ride b = Some r
                      /\ Ride.driver r = user
                      /\ allowedNext (Booking.status b) status)
    as (b & r & Hb & Hr & Hu & Hn).
  { revert H. unfold updateBookingStatus.
    destruct (includes validStatuses status); [|discriminate].
    destruct (bookings db !! id) as [b|] eqn:Hb; [|discriminate].
    destruct (rides db !! Booking.ride b) as [r|] eqn:Hr; [|discriminate].
    cbn [negb]. case_bool_decide as Hd; [discriminate|].
    destruct (includes (default [] (statusFlow !! Booking.status b)) status)
      eqn:Hi; [|discriminate].
    intros _. exists b, r. split_and!; try done.
    by apply allowedNext_includes. }
  exists b, r. split_and!; try done.
  rewrite (updateBookingStatus_allowed _ _ _ now _ _ _ Hb Hr Hu Hn) in H.
  cbn zeta in H.
  destruct (Booking.validate _); [done|discriminate].
Qed.

(** C1 (amended).  For a booking [b] on a ride owned by the calling driver,
    whatever the requested target [status]: updateBookingStatus answers 200
    only when [status] is the single allowed next status of [b]'s current
    status in the chain confirmed, coming-for-pickup, picked-up, in-transit,
    dropped-off, completed.  A target that is not the allowed next one leaves
    the database, and so the booking's status, unchanged and is answered with
    a 400: when the target is one of the five progress statuses the body
    reports the current status and the allowed-next set; when it is not (for
    instance the backward targets pending and confirmed, or cancelled) the
    body is the invalid-status message, with no current status and no
    allowed-next set.  From pending, completed, cancelled and rejected the
    allowed-next set is empty and every target is refused.  An allowed target
    on a schema-valid booking is answered with 200 and stored. *)
Theorem updateBookingStatus_transition_check user id status now db b r :
  bookings db !! id = Some b ->
  rides db !! Booking.ride b = Some r ->
  Ride.driver r = user ->
  let out := updateBookingStatus user id status now db in
  (code out.2 = 200 ->
     allowedNext (Booking.status b) status
     /\ allowedNextSet (Booking.status b) = [status])
  /\ (~ allowedNext (Booking.status b) status ->
      out.1 = db
      /\ (status ∈ validStatuses ->
          out.2 = json 400 (MessageTransition
                              (cannotChangeMessage (Booking.status b) status)
                              (Booking.status b)
                              (allowedNextSet (Booking.status b))))
      /\ (status ∉ validStatuses ->
          out.2 = json 400 (Message invalidStatusMessage)))
  /\ (Booking.status b ∈ ["pending"; "completed"; "cancelled"; "rejected"] ->
      allowedNextSet (Booking.status b) = [] /\ out.1 = db /\ code out.2 = 400)
  /\ (allowedNext (Booking.status b) status ->
      Booking.validate b = true ->
      code out.2 = 200
      /\ Booking.status <$> bookings out.1 !! id = Some status).
Proof.
  intros Hb Hr Hu out.
  assert (~ allowedNext (Booking.status b) status ->
          out = (db, if includes validStatuses status
                     then json 400 (MessageTransition
                                      (cannotChangeMessage (Booking.status b) status)
                                      (Booking.status b)
                                      (allowedNextSet (Booking.status b)))
                     else json 400 (Message invalidStatusMessage))) as Hrej.
  { intros Hn. by apply updateBookingStatus_rejected with r. }
  split_and!.
  - intros H200.
    destruct (updateBookingStatus_200_inv _ _ _ _ _ H200)
      as (b0 & r0 & Hb0 & _ & _ & Hn & _).
    assert (b0 = b) as -> by congruence.
    split; [done|by apply allowedNext_set].
  - intros Hn. rewrite (Hrej Hn). split_and!; [done|..].
    + intros Hv%includes_true. cbn [snd]. by rewrite Hv.
    + intros Hv%includes_false. cbn [snd]. by rewrite Hv.
  - intros Hc.
    assert (~ allowedNext (Booking.status b) status) as Hn
      by by apply no_successor.
    rewrite (Hrej Hn). split_and!; [|done|by destruct (includes _ _)].
    rewrite <- allowedNextSet_statusFlow, statusFlow_lookup.
    repeat (case_decide as Hd;
            [rewrite Hd in Hc;
             repeat (apply elem_of_cons in Hc as [Hc|Hc]; [discriminate|]);
             by apply elem_of_nil in Hc|clear Hd]).
    done.
  - intros Hn Hval. subst out.
    rewrite (updateBookingStatus_allowed _ _ _ now _ _ _ Hb Hr Hu Hn).
    cbn zeta.
    rewrite validate_afterSwitch by eauto using allowedNext_valid.
    split; [done|]. cbn [fst with_bookings bookings].
    rewrite lookup_insert_eq. cbn [fmap option_fmap option_map]. f_equal.
    pose proof (allowedNext_valid _ _ Hn) as Hv. unfold validStatuses in Hv.
    repeat (apply elem_of_cons in Hv as [Hv|Hv]; [subst status|]);
      [..|by apply elem_of_nil in Hv].
    all: unfold afterSwitch; decide_strings; by destruct b.
Qed.

(** The check of C1 on the example: passenger A's booking, confirmed, asked
    to move to coming-for-pickup by the ride's driver. *)
Lemma updateBookingStatus_transition_check_witness :
  let out := updateBookingStatus Example.driver Example.bookingA
               "coming-for-pickup" 1767225700000 (Example.dbA "confirmed") in
  code out.2 = 200
  /\ Booking.status <$> bookings out.1 !! Example.bookingA
     = Some "coming-for-pickup".
Proof.
  refine (proj2 (proj2 (proj2
    (updateBookingStatus_transition_check Example.driver Example.bookingA
       "coming-for-pickup" 1767225700000 (Example.dbA "confirmed")
       (Example.booking Example.passengerA 3 "confirmed")
       (Example.ride 4 1 [Example.bookingA]) _ _ _))) _ _);
    [reflexivity| reflexivity | reflexivity | | reflexivity].
  unfold allowedNext, progressChain. constructor.
Defined.

(** C1 as stated fails: the backward target confirmed, requested for a
    booking that is coming-for-pickup, is refused without reporting the
    current status or the allowed-next set. *)
Lemma updateBookingStatus_backward_target_unreported :
  let db := Example.dbA "coming-for-pickup" in
  let out := updateBookingStatus Example.driver Example.bookingA
               "confirmed" 1767225700000 db in
  (Booking.status <$> bookings db !! Example.bookingA) = Some "coming-for-pickup"
  /\ ~ allowedNext "coming-for-pickup" "confirmed"
  /\ out = (db, json 400 (Message invalidStatusMessage))
  /\ (forall cur allowed, ~ reportsTransition out.2 cur allowed).
Proof.
  cbv zeta. split_and!.
  - reflexivity.
  - intros H. unfold allowedNext, progressChain in H.
    repeat (apply elem_of_cons in H as [H|H]; [discriminate|]).
    by apply elem_of_nil in H.
  - reflexivity.
  - intros cur allowed [message H]. vm_compute in H. discriminate.
Qed.

(** The database a 200 of updateBookingStatus leaves. *)
Lemma updateBookingStatus_200_result user id status now db :
  let out := updateBookingStatus user id status now db in
  code out.2 = 200 ->
  exists b r,
    bookings db !! id = Some b
    /\ rides db !! Booking.ride b = Some r
    /\ Ride.driver r = user
    /\ allowedNext (Booking.status b) status
    /\ let b' := afterSwitch status now (Booking.set_status status b) in
       let db1 := if bool_decide (status = "completed")
                  then DriverProfile_incStats user (Booking.totalFare b) db
                  else db in
       out.1 = with_bookings (<[id := b']> (bookings db1)) db1.
Proof.
  intros out H200.
  destruct (updateBookingStatus_200_inv _ _ _ _ _ H200)
    as (b & r & Hb & Hr & Hu & Hn & Hval).
  exists b, r. split_and!; try done. cbn zeta. subst out.
  rewrite (updateBookingStatus_allowed _ _ _ now _ _ _ Hb Hr Hu Hn).
  cbn zeta. by rewrite Hval.
Qed.

Ltac each_progress_status Hn :=
  let Hv := fresh "Hv" in
  pose proof (allowedNext_valid _ _ Hn) as Hv; unfold validStatuses in Hv;
  repeat (apply elem_of_cons in Hv as [Hv|Hv]; [subst|]);
  [..|by apply elem_of_nil in Hv].

(** C6 (amended).  Every successful progress transition stores the new
    status, and four of the five stamp the timestamp of the new status with
    the time of the request: coming-for-pickup, picked-up, dropped-off and
    completed.  The transition to in-transit stamps nothing: the booking
    schema has no in-transit timestamp, and the five timestamps it has keep
    their values. *)
Theorem updateBookingStatus_timestamps user id status now db :
  let out := updateBookingStatus user id status now db in
  code out.2 = 200 ->
  exists b b',
    bookings db !! id = Some b
    /\ bookings out.1 !! id = Some b'
    /\ allowedNext (Booking.status b) status
    /\ Booking.status b' = status
    /\ (status = "coming-for-pickup" -> Booking.comingForPickupAt b' = Some now)
    /\ (status = "picked-up" -> Booking.pickedUpAt b' = Some now)
    /\ (status = "dropped-off" -> Booking.droppedOffAt b' = Some now)
    /\ (status = "completed" -> Booking.completedAt b' = Some now)
    /\ (status = "in-transit" -> timestamps b' = timestamps b).
Proof.
  intros out H200.
  destruct (updateBookingStatus_200_result _ _ _ _ _ H200)
    as (b & r & Hb & Hr & Hu & Hn & Hout).
  exists b, (afterSwitch status now (Booking.set_status status b)).
  split_and!; try done.
  - fold out in Hout. rewrite Hout. cbn [with_bookings bookings].
    apply lookup_insert_eq.
  - each_progress_status Hn; unfold afterSwitch; decide_strings; by destruct b.
  - intros ->. unfold afterSwitch; decide_strings; by destruct b.
  - intros ->. unfold afterSwitch; decide_strings; by destruct b.
  - intros ->. unfold afterSwitch; decide_strings; by destruct b.
  - intros ->. unfold afterSwitch; decide_strings; by destruct b.
  - intros ->. unfold afterSwitch; decide_strings; by destruct b.
Qed.

(** The timestamps of C6 on the example: the confirmed booking moves to
    coming-for-pickup. *)
Lemma updateBookingStatus_timestamps_witness :
  let out := updateBookingStatus Example.driver Example.bookingA
               "coming-for-pickup" 1767225700000 (Example.dbA "confirmed") in
  exists b b',
    bookings (Example.dbA "confirmed") !! Example.bookingA = Some b
    /\ bookings out.1 !! Example.bookingA = Some b'
    /\ allowedNext (Booking.status b) "coming-for-pickup"
    /\ Booking.status b' = "coming-for-pickup"
    /\ ("coming-for-pickup" = "coming-for-pickup" ->
        Booking.comingForPickupAt b' = Some 1767225700000)
    /\ ("coming-for-pickup" = "picked-up" ->
        Booking.pickedUpAt b' = Some 1767225700000)
    /\ ("coming-for-pickup" = "dropped-off" ->
        Booking.droppedOffAt b' = Some 1767225700000)
    /\ ("coming-for-pickup" = "completed" ->
        Booking.completedAt b' = Some 1767225700000)
    /\ ("coming-for-pickup" = "in-transit" -> timestamps b' = timestamps b).
Proof.
  apply (updateBookingStatus_timestamps Example.driver Example.bookingA
           "coming-for-pickup" 1767225700000 (Example.dbA "confirmed")).
  reflexivity.
Defined.

(** C6 as stated fails: the picked-up booking moves to in-transit at time
    1767225700000 and no timestamp of the booking records it. *)
Lemma updateBookingStatus_in_transit_unstamped :
  let b := Example.booking Example.passengerA 3 "picked-up" in
  let out := updateBookingStatus Example.driver Example.bookingA
               "in-transit" 1767225700000 (Example.dbA "picked-up") in
  code out.2 = 200
  /\ bookings out.1 !! Example.bookingA = Some (Booking.set_status "in-transit" b)
  /\ timestamps (Booking.set_status "in-transit" b) = timestamps b
  /\ Some 1767225700000 ∉ timestamps (Booking.set_status "in-transit" b).
Proof.
  cbv zeta. split_and!; try reflexivity.
  cbn. intros H.
  repeat (apply elem_of_cons in H as [H|H]; [discriminate|]).
  by apply elem_of_nil in H.
Qed.

(** What a 200 of updateBookingStatus does to the payment status and to the
    driver profiles. *)
Lemma updateBookingStatus_completion user id status now db :
  let out := updateBookingStatus user id status now db in
  code out.2 = 200 ->
  exists b b' r,
    bookings db !! id = Some b
    /\ bookings out.1 !! id = Some b'
    /\ rides db !! Booking.ride b = Some r /\ Ride.driver r = user
    /\ (status = "completed" ->
        Booking.paymentStatus b' = "paid"
        /\ (forall p, driverProfiles db !! user = Some p ->
              driverProfiles out.1 !! user
              = Some (DriverProfile.mk (DriverProfile.isApproved p)
                        (DriverProfile.rating p)
                        (DriverProfile.totalRides p + 1)
                        (DriverProfile.totalEarnings p + Booking.totalFare b)))
        /\ (forall u, u <> user ->
              driverProfiles out.1 !! u = driverProfiles db !! u)
        /\ (forall now2,
              updateBookingStatus user id "completed" now2 out.1
              = (out.1, json 400 (MessageTransition
                                    (cannotChangeMessage "completed" "completed")
                                    "completed" []))))
    /\ (status <> "completed" ->
        Booking.paymentStatus b' = Booking.paymentStatus b
        /\ driverProfiles out.1 = driverProfiles db).
Proof.
  intros out H200.
  destruct (updateBookingStatus_200_result _ _ _ _ _ H200)
    as (b & r & Hb & Hr & Hu & Hn & Hout).
  fold out in Hout. cbn zeta in Hout.
  exists b, (afterSwitch status now (Booking.set_status status b)), r.
  split_and!; try done.
  - rewrite Hout. cbn [with_bookings bookings]. apply lookup_insert_eq.
  - intros ->. rewrite bool_decide_eq_true_2 in Hout by done.
    split_and!.
    + unfold afterSwitch; decide_strings; by destruct b.
    + intros p Hp. rewrite Hout.
      cbn [with_bookings DriverProfile_incStats with_driverProfiles driverProfiles].
      rewrite lookup_alter_eq, Hp. by destruct p.
    + intros u Hne. rewrite Hout.
      cbn [with_bookings DriverProfile_incStats with_driverProfiles driverProfiles].
      by rewrite lookup_alter_ne.
    + intros now2.
      set (b' := afterSwitch "completed" now (Booking.set_status "completed" b)).
      assert (Booking.status b' = "completed") as Hst
        by (unfold b', afterSwitch; decide_strings; by destruct b).
      assert (Booking.ride b' = Booking.ride b) as Hri
        by (unfold b', afterSwitch; decide_strings; by destruct b).
      rewrite (updateBookingStatus_rejected user id "completed" now2 out.1 b' r).
      * rewrite Hst. reflexivity.
      * rewrite Hout. cbn [with_bookings bookings]. apply lookup_insert_eq.
      * rewrite Hri, Hout. exact Hr.
      * exact Hu.
      * rewrite Hst. apply no_successor.
        apply list_elem_of_further, list_elem_of_here.
  - intros Hne. rewrite bool_decide_eq_false_2 in Hout by done. split.
    + each_progress_status Hn; try done;
        unfold afterSwitch; decide_strings; by destruct b.
    + by rewrite Hout.
Qed.

(** ** bookRide and respondToBooking *)

Lemma truthy_string_Some s : s <> "" -> truthy_string (Some s) = Some s.
Proof.
  intros H. unfold truthy_string. destruct (String.eqb_spec s ""); done.
Qed.

Lemma truthy_string_inv o s :
  truthy_string o = Some s -> o = Some s /\ String.eqb s "" = false.
Proof.
  destruct o as [s'|]; [|discriminate]. cbn.
  destruct (String.eqb s' "") eqn:E; [discriminate|]. by intros [= ->].
Qed.

Lemma bookRide_created user newId body db rideId seats pickup dropoff ride :
  BookRideBody.rideId body = Some rideId ->
  BookRideBody.seatsBooked body = Some seats ->
  truthy_string (BookRideBody.pickupLocation_address body) = Some pickup ->
  truthy_string (BookRideBody.dropoffLocation_address body) = Some dropoff ->
  includes Booking.paymentMethod_enum
    (default "cash" (truthy_string (BookRideBody.paymentMethod body))) = true ->
  maxlength 200 (BookRideBody.passengerNote body) = true ->
  rides db !! rideId = Some ride ->
  Ride.status ride = "scheduled" ->
  Ride.validate ride = true ->
  1 <= seats <= Ride.availableSeats ride ->
  Booking_findOne_active rideId user (bookings db) = false ->
  Ride.driver ride <> user ->
  bookings db !! newId = None ->
  let doc := newBooking user rideId seats pickup dropoff ride body in
  let ride' :=
    Ride.set_passengers (Ride.passengers ride ++ [newId])
      (Ride.set_availableSeats (Ride.availableSeats ride - seats) ride) in
  bookRide user newId body db =
    (with_rides (<[rideId := ride']> (rides db))
       (with_bookings (<[newId := doc]> (bookings db)) db),
     json 201 (MessageBooking "Booking request submitted successfully" newId doc)).
Proof.
  intros Hid Hseats Hpick Hdrop Hpm Hnote Hride Hst Hval Hrange Hact Hdrv Hfresh.
  unfold bookRide. rewrite Hid, Hseats. cbn [truthy_Z].
  replace (seats =? 0) with false by lia.
  replace (seats <? 1) with false by lia.
  rewrite Hpick, Hdrop, Hride.
  rewrite bool_decide_eq_false_2 by (rewrite Hst; intros ?; done).
  replace (Ride.availableSeats ride <? seats) with false by lia.
  rewrite Hact. rewrite bool_decide_eq_false_2 by done.
  unfold Booking_create.
  assert (Booking.validate (newBooking user rideId seats pickup dropoff ride body) = true) as Hv.
  { unfold Booking.validate, newBooking. cbn.
    rewrite Hpm, Hnote.
    replace (1 <=? seats) with true by lia.
    apply truthy_string_inv in Hpick as [_ ->].
    apply truthy_string_inv in Hdrop as [_ ->].
    reflexivity. }
  unfold newBooking in Hv |- *. cbn zeta.
  rewrite Hv. cbn [andb]. rewrite bool_decide_eq_true_2 by done.
  unfold Ride_save.
  assert (Ride.validate
            (Ride.set_passengers (Ride.passengers ride ++ [newId])
               (Ride.set_availableSeats (Ride.availableSeats ride - seats) ride))
          = true) as Hv'.
  { destruct ride. exact Hval. }
  rewrite Hv'. reflexivity.
Qed.

Lemma bookRide_insufficient user newId body db rideId seats pickup dropoff ride :
  BookRideBody.rideId body = Some rideId ->
  BookRideBody.seatsBooked body = Some seats ->
  truthy_string (BookRideBody.pickupLocation_address body) = Some pickup ->
  truthy_string (BookRideBody.dropoffLocation_address body) = Some dropoff ->
  rides db !! rideId = Some ride ->
  Ride.status ride = "scheduled" ->
  1 <= seats ->
  Ride.availableSeats ride < seats ->
  bookRide user newId body db =
    (db, json 400 (Message ("Only " +:+ pretty (Ride.availableSeats ride)
                            +:+ " seats available"))).
Proof.
  intros Hid Hseats Hpick Hdrop Hride Hst Hpos Hlt.
  unfold bookRide. rewrite Hid, Hseats. cbn [truthy_Z].
  replace (seats =? 0) with false by lia.
  replace (seats <? 1) with false by lia.
  rewrite Hpick, Hdrop, Hride.
  rewrite bool_decide_eq_false_2 by (rewrite Hst; intros ?; done).
  by replace (Ride.availableSeats ride <? seats) with true by lia.
Qed.

Lemma respondToBooking_reject user id driverNote now db b r :
  bookings db !! id = Some b ->
  rides db !! Booking.ride b = Some r ->
  Ride.driver r = user ->
  Booking.status b = "pending" ->
  let b1 := Booking.set_status "rejected" b in
  let b2 := match truthy_string driverNote with
            | Some note => Booking.set_driverNote (Some note) b1
            | None => b1
            end in
  let db1 := Ride_restoreSeats (Booking.ride b) (Booking.seatsBooked b) id db in
  respondToBooking user id "reject" driverNote now db =
    if Booking.validate b2
    then (with_bookings (<[id := b2]> (bookings db1)) db1,
          json 200 (MessageBooking "Booking rejected successfully" id b2))
    else (db1, json 500 ServerError).
Proof.
  intros Hb Hr Hu Hst. unfold respondToBooking.
  replace (includes ["confirm"; "reject"] "reject") with true by reflexivity.
  cbn [negb]. rewrite Hb, Hr.
  rewrite bool_decide_eq_false_2 by (intros ?; congruence).
  rewrite bool_decide_eq_false_2 by (intros ?; congruence).
  decide_strings. cbn zeta beta iota. unfold Booking_save.
  destruct (Booking.validate _); reflexivity.
Qed.

(** C2.  On a scheduled ride with totalSeats 4 and availableSeats 4,
    passenger A's request for 3 seats is accepted and leaves availableSeats
    at 1; a following request for 2 seats, by passenger B, is refused with
    the 400 that reports the one seat available, and leaves the database as
    it is: availableSeats stays 1 and no booking is created; the driver's
    rejection of A's booking then brings availableSeats back to 4. *)
Theorem seat_scenario db rideId ride driver userA userB idA idB bodyA bodyB
    pickupA dropoffA pickupB dropoffB driverNote now :
  rides db !! rideId = Some ride ->
  Ride.totalSeats ride = 4 ->
  Ride.availableSeats ride = 4 ->
  Ride.status ride = "scheduled" ->
  Ride.validate ride = true ->
  Ride.driver ride = driver ->
  userA <> driver ->
  Booking_findOne_active rideId userA (bookings db) = false ->
  bookings db !! idA = None ->
  BookRideBody.rideId bodyA = Some rideId ->
  BookRideBody.seatsBooked bodyA = Some 3 ->
  truthy_string (BookRideBody.pickupLocation_address bodyA) = Some pickupA ->
  truthy_string (BookRideBody.dropoffLocation_address bodyA) = Some dropoffA ->
  includes Booking.paymentMethod_enum
    (default "cash" (truthy_string (BookRideBody.paymentMethod bodyA))) = true ->
  maxlength 200 (BookRideBody.passengerNote bodyA) = true ->
  BookRideBody.rideId bodyB = Some rideId ->
  BookRideBody.seatsBooked bodyB = Some 2 ->
  truthy_string (BookRideBody.pickupLocation_address bodyB) = Some pickupB ->
  truthy_string (BookRideBody.dropoffLocation_address bodyB) = Some dropoffB ->
  maxlength 200 driverNote = true ->
  let stepA := bookRide userA idA bodyA db in
  let stepB := bookRide userB idB bodyB stepA.1 in
  let stepR := respondToBooking driver idA "reject" driverNote now stepB.1 in
  code stepA.2 = 201
  /\ Ride.availableSeats <$> rides stepA.1 !! rideId = Some 1
  /\ (exists a, bookings stepA.1 !! idA = Some a
                /\ Booking.passenger a = userA /\ Booking.seatsBooked a = 3
                /\ Booking.status a = "pending")
  /\ stepB = (stepA.1, json 400 (Message "Only 1 seats available"))
  /\ code stepR.2 = 200
  /\ Ride.availableSeats <$> rides stepR.1 !! rideId = Some 4
  /\ Booking.status <$> bookings stepR.1 !! idA = Some "rejected".
Proof.
  intros Hride Htot Hav Hst Hval Hdrv HA Hact Hfresh
         HidA HseatsA HpA HdA HpmA HnoteA HidB HseatsB HpB HdB Hnote.
  intros stepA.
  assert (stepA =
    (with_rides
       (<[rideId := Ride.set_passengers (Ride.passengers ride ++ [idA])
                      (Ride.set_availableSeats (Ride.availableSeats ride - 3) ride)]>
          (rides db))
       (with_bookings
          (<[idA := newBooking userA rideId 3 pickupA dropoffA ride bodyA]>
             (bookings db)) db),
     json 201 (MessageBooking "Booking request submitted successfully" idA
                 (newBooking userA rideId 3 pickupA dropoffA ride bodyA)))) as HA1.
  { apply bookRide_created; try done; [lia|congruence]. }
  set (rideA := Ride.set_passengers (Ride.passengers ride ++ [idA])
                  (Ride.set_availableSeats (Ride.availableSeats ride - 3) ride)) in *.
  assert (Ride.availableSeats rideA = 1) as HavA by (subst rideA; destruct ride; cbn in *; lia).
  assert (Ride.status rideA = "scheduled") as HstA by (subst rideA; by destruct ride).
  assert (Ride.driver rideA = driver) as HdrvA by (subst rideA; by destruct ride).
  assert (rides stepA.1 !! rideId = Some rideA) as HrA.
  { rewrite HA1. cbn. apply lookup_insert_eq. }
  assert (bookings stepA.1 !! idA
          = Some (newBooking userA rideId 3 pickupA dropoffA ride bodyA)) as HbA.
  { rewrite HA1. cbn. apply lookup_insert_eq. }
  intros stepB.
  assert (stepB = (stepA.1, json 400 (Message "Only 1 seats available"))) as HB1.
  { subst stepB.
    rewrite (bookRide_insufficient userB idB bodyB stepA.1 rideId 2 pickupB
               dropoffB rideA); try done; [|lia].
    by rewrite HavA. }
  intros stepR. subst stepR. rewrite HB1. cbn [fst].
  rewrite (respondToBooking_reject driver idA driverNote now stepA.1
             (newBooking userA rideId 3 pickupA dropoffA ride bodyA) rideA);
    try done.
  cbn zeta.
  assert (Booking.validate
            match truthy_string driverNote with
            | Some note =>
                Booking.set_driverNote (Some note)
                  (Booking.set_status "rejected"
                     (newBooking userA rideId 3 pickupA dropoffA ride bodyA))
            | None =>
                Booking.set_status "rejected"
                  (newBooking userA rideId 3 pickupA dropoffA ride bodyA)
            end = true) as Hv.
  { apply truthy_string_inv in HpA as [_ HpA], HdA as [_ HdA].
    destruct (truthy_string driverNote) as [note|] eqn:Hn.
    - apply truthy_string_inv in Hn as [-> _].
      unfold Booking.validate, newBooking. cbn -[maxlength].
      by rewrite HpA, HdA, HpmA, HnoteA, Hnote.
    - unfold Booking.validate, newBooking. cbn -[maxlength].
      by rewrite HpA, HdA, HpmA, HnoteA. }
  rewrite Hv.
  split_and!.
  - by rewrite HA1.
  - by rewrite HrA, <- HavA.
  - eexists. split; [exact HbA|done].
  - done.
  - done.
  - cbn [fst with_bookings rides Ride_restoreSeats with_rides newBooking Booking.ride Booking.seatsBooked].
    rewrite lookup_alter_eq, HrA. cbn. f_equal. subst rideA. destruct ride; cbn in *; lia.
  - cbn [fst with_bookings bookings]. rewrite lookup_insert_eq. cbn.
    by destruct (truthy_string driverNote).
Qed.

(** The scenario of C2 on the example ride. *)
Lemma seat_scenario_witness :
  let stepA := bookRide Example.passengerA Example.bookingA Example.requestA
                 Example.db0 in
  let stepB := bookRide Example.passengerB Example.bookingB Example.requestB
                 stepA.1 in
  let stepR := respondToBooking Example.driver Example.bookingA "reject" None
                 1767225700000 stepB.1 in
  code stepA.2 = 201
  /\ Ride.availableSeats <$> rides stepA.1 !! Example.rideId = Some 1
  /\ (exists a, bookings stepA.1 !! Example.bookingA = Some a
                /\ Booking.passenger a = Example.passengerA
                /\ Booking.seatsBooked a = 3
                /\ Booking.status a = "pending")
  /\ stepB = (stepA.1, json 400 (Message "Only 1 seats available"))
  /\ code stepR.2 = 200
  /\ Ride.availableSeats <$> rides stepR.1 !! Example.rideId = Some 4
  /\ Booking.status <$> bookings stepR.1 !! Example.bookingA = Some "rejected".
Proof.
  apply (seat_scenario Example.db0 Example.rideId (Example.ride 4 4 [])
           Example.driver Example.passengerA Example.passengerB
           Example.bookingA Example.bookingB Example.requestA Example.requestB
           "12 Canal Road" "Airport" "5 Mall Road" "Airport" None 1767225700000);
    try reflexivity.
  discriminate.
Defined.

(** ** updateRideStatus and updateRide *)

Lemma Ride_findOne_owned_Some id user db ride :
  rides db !! id = Some ride -> Ride.driver ride = user ->
  Ride_findOne_owned id user db = Some ride.
Proof.
  intros H1 H2. unfold Ride_findOne_owned. rewrite H1.
  by rewrite bool_decide_eq_true_2.
Qed.

Lemma Ride_validate_set_status s r :
  s ∈ Ride.status_enum -> Ride.validate r = true ->
  Ride.validate (Ride.set_status s r) = true.
Proof.
  intros Hs%includes_true. destruct r. unfold Ride.validate. cbn -[includes maxlength].
  rewrite !andb_true_iff. intros H. destruct_and? H. by split_and!.
Qed.

Lemma Booking_cancelMany_lookup rideId now bs bid :
  Booking_cancelMany rideId now bs !! bid =
    (fun b => if bool_decide (Booking.ride b = rideId
                              /\ Booking.status b ∈ ["pending"; "confirmed"])
              then cancelledByDriver now b else b) <$> bs !! bid.
Proof. unfold Booking_cancelMany. by rewrite lookup_fmap. Qed.

(** C4.  When the ride's driver sets the ride's status to cancelled, the one
    request answers 200, stores the status, and turns every booking on the
    ride that is pending or confirmed into a cancelled booking with
    cancelledBy = driver, whoever its passenger is, stamped with the time of
    the request; every other booking is left as it is, none is added or
    removed, and the ride's availableSeats keeps its value. *)
Theorem updateRideStatus_cancel_cascade user id now db ride :
  rides db !! id = Some ride ->
  Ride.driver ride = user ->
  Ride.validate ride = true ->
  let out := updateRideStatus user id "cancelled" now db in
  code out.2 = 200
  /\ rides out.1 = <[id := Ride.set_status "cancelled" ride]> (rides db)
  /\ Ride.availableSeats <$> rides out.1 !! id = Some (Ride.availableSeats ride)
  /\ (forall bid b,
        bookings db !! bid = Some b ->
        Booking.ride b = id ->
        Booking.status b ∈ ["pending"; "confirmed"] ->
        exists b', bookings out.1 !! bid = Some b'
                   /\ b' = cancelledByDriver now b
                   /\ Booking.status b' = "cancelled"
                   /\ Booking.cancelledBy b' = Some "driver")
  /\ (forall bid b,
        bookings db !! bid = Some b ->
        ~ (Booking.ride b = id /\ Booking.status b ∈ ["pending"; "confirmed"]) ->
        bookings out.1 !! bid = Some b)
  /\ dom (bookings out.1) = dom (bookings db).
Proof.
  intros Hr Hu Hval out.
  assert (out = (with_bookings (Booking_cancelMany id now (bookings db))
                   (with_rides (<[id := Ride.set_status "cancelled" ride]> (rides db)) db),
                 json 200 (MessageRide "Ride status updated" id
                             (Ride.set_status "cancelled" ride)))) as ->.
  { subst out. unfold updateRideStatus.
    replace (includes rideStatuses "cancelled") with true by reflexivity.
    cbn [negb]. rewrite (Ride_findOne_owned_Some _ _ _ _ Hr Hu).
    unfold Ride_save. rewrite Ride_validate_set_status; [|set_solver|done].
    by decide_strings. }
  cbn [fst snd code with_bookings with_rides rides bookings].
  split_and!; try done.
  - rewrite lookup_insert_eq. by destruct ride.
  - intros bid b Hb Hri Hst. eexists. split_and!; [|reflexivity|..].
    + rewrite Booking_cancelMany_lookup, Hb. cbn.
      by rewrite bool_decide_eq_true_2.
    + by destruct b.
    + by destruct b.
  - intros bid b Hb Hn. rewrite Booking_cancelMany_lookup, Hb. cbn.
    by rewrite bool_decide_eq_false_2.
  - unfold Booking_cancelMany. apply dom_fmap_L.
Qed.

Lemma Ride_validate_set_availableSeats n r :
  Ride.validate (Ride.set_availableSeats n r) = Ride.validate r.
Proof. by destruct r. Qed.

Lemma totalSeats_set_availableSeats n r :
  Ride.totalSeats (Ride.set_availableSeats n r) = Ride.totalSeats r.
Proof. by destruct r. Qed.

Lemma availableSeats_set_availableSeats n r :
  Ride.availableSeats (Ride.set_availableSeats n r) = n.
Proof. by destruct r. Qed.

Lemma totalSeats_applyAllowedUpdates updates ride n :
  UpdateRideBody.totalSeats updates = Some n ->
  Ride.totalSeats (applyAllowedUpdates updates ride) = n.
Proof.
  intros H. unfold applyAllowedUpdates. rewrite H.
  destruct updates as [dd dt ts f pr de st]; cbn.
  destruct dd, dt, f, pr, de, st, ride; reflexivity.
Qed.

Lemma Ride_validate_totalSeats r :
  Ride.validate r = true -> 1 <= Ride.totalSeats r <= 8.
Proof.
  unfold Ride.validate. rewrite !andb_true_iff. intros H. destruct_and? H. lia.
Qed.

(** What updateRide does once the ride is found and the guard passes. *)
Lemma updateRide_guard_passed user id updates db ride :
  rides db !! id = Some ride ->
  Ride.driver ride = user ->
  Booking_exists_confirmed id (bookings db) = false ->
  let ride1 := applyAllowedUpdates updates ride in
  let ride2 := match truthy_Z (UpdateRideBody.totalSeats updates) with
               | Some n => Ride.set_availableSeats n ride1
               | None => ride1
               end in
  updateRide user id updates db =
    if Ride.validate ride2
    then (with_rides (<[id := ride2]> (rides db)) db,
          json 200 (MessageRide "Ride updated successfully" id ride2))
    else (db, json 500 ServerError).
Proof.
  intros Hr Hu Hg. unfold updateRide.
  rewrite (Ride_findOne_owned_Some _ _ _ _ Hr Hu), Hg.
  cbn zeta. unfold Ride_save. by destruct (Ride.validate _).
Qed.

Lemma Booking_exists_confirmed_false id bs :
  (forall bid b, bs !! bid = Some b -> Booking.ride b = id ->
                 Booking.status b ∈ ["pending"; "cancelled"; "rejected"]) ->
  Booking_exists_confirmed id bs = false.
Proof.
  intros H. unfold Booking_exists_confirmed. apply bool_decide_eq_false.
  intros (bid & b & Hb & Hri & Hst). specialize (H bid b Hb Hri).
  repeat (apply elem_of_cons in Hst as [Hst|Hst];
          [rewrite Hst in H;
           repeat (apply elem_of_cons in H as [H|H]; [discriminate|]);
           by apply elem_of_nil in H|]).
  by apply elem_of_nil in Hst.
Qed.

(** C8.  When updateRide is called by the ride's driver with a new
    totalSeats [n], while every booking on the ride is pending, cancelled or
    rejected, and the updated fields pass the schema (so [n] is from 1 to 8),
    the request answers 200 and the stored ride has totalSeats [n] and
    availableSeats exactly [n]: the seats held by pending bookings, which
    are not touched, are not subtracted. *)
Theorem updateRide_totalSeats_resets_availableSeats user id updates db ride n :
  rides db !! id = Some ride ->
  Ride.driver ride = user ->
  (forall bid b, bookings db !! bid = Some b -> Booking.ride b = id ->
                 Booking.status b ∈ ["pending"; "cancelled"; "rejected"]) ->
  UpdateRideBody.totalSeats updates = Some n ->
  Ride.validate (applyAllowedUpdates updates ride) = true ->
  let out := updateRide user id updates db in
  code out.2 = 200
  /\ (exists ride', rides out.1 !! id = Some ride'
                    /\ Ride.totalSeats ride' = n
                    /\ Ride.availableSeats ride' = n)
  /\ bookings out.1 = bookings db.
Proof.
  intros Hr Hu Hb Hn Hval out. subst out.
  rewrite (updateRide_guard_passed _ _ _ _ _ Hr Hu
             (Booking_exists_confirmed_false _ _ Hb)).
  cbn zeta. rewrite Hn.
  pose proof (Ride_validate_totalSeats _ Hval) as Hts.
  rewrite (totalSeats_applyAllowedUpdates _ _ _ Hn) in Hts.
  unfold truthy_Z. replace (n =? 0) with false by lia.
  rewrite Ride_validate_set_availableSeats, Hval.
  split_and!; try done.
  cbn. rewrite lookup_insert_eq. eexists. split; [done|].
  rewrite totalSeats_set_availableSeats, availableSeats_set_availableSeats.
  by rewrite (totalSeats_applyAllowedUpdates _ _ _ Hn).
Qed.

(** The cascade of C4 on the example: the driver cancels the ride that has
    two confirmed bookings. *)
Lemma updateRideStatus_cancel_cascade_witness :
  let out := updateRideStatus Example.driver Example.rideId "cancelled"
               1767225700000 Example.dbTwoConfirmed in
  code out.2 = 200
  /\ Ride.availableSeats <$> rides out.1 !! Example.rideId = Some 0
  /\ bookings out.1 !! Example.bookingA
     = Some (cancelledByDriver 1767225700000
               (Example.booking Example.passengerA 2 "confirmed"))
  /\ bookings out.1 !! Example.bookingB
     = Some (cancelledByDriver 1767225700000
               (Example.booking Example.passengerB 2 "confirmed")).
Proof.
  destruct (updateRideStatus_cancel_cascade Example.driver Example.rideId
              1767225700000 Example.dbTwoConfirmed
              (Example.ride 4 0 [Example.bookingA; Example.bookingB])
              eq_refl eq_refl eq_refl) as (H200 & _ & Hseats & Hcancel & _ & _).
  split_and!; [exact H200|exact Hseats|..].
  - destruct (Hcancel Example.bookingA
                (Example.booking Example.passengerA 2 "confirmed")
                eq_refl eq_refl) as (b' & Hb' & -> & _);
      [apply list_elem_of_further, list_elem_of_here|exact Hb'].
  - destruct (Hcancel Example.bookingB
                (Example.booking Example.passengerB 2 "confirmed")
                eq_refl eq_refl) as (b' & Hb' & -> & _);
      [apply list_elem_of_further, list_elem_of_here|exact Hb'].
Defined.

(** The reset of C8 on the example: passenger A's pending booking holds three
    of the four seats, one is free; the driver sends totalSeats = 4 again and
    four seats are free, the pending booking still holding three. *)
Lemma updateRide_totalSeats_resets_availableSeats_witness :
  let db := Example.dbA "pending" in
  let out := updateRide Example.driver Example.rideId (onlyTotalSeats 4) db in
  Ride.availableSeats <$> rides db !! Example.rideId = Some 1
  /\ code out.2 = 200
  /\ (exists ride', rides out.1 !! Example.rideId = Some ride'
                    /\ Ride.totalSeats ride' = 4
                    /\ Ride.availableSeats ride' = 4)
  /\ bookings out.1 = bookings db.
Proof.
  split; [reflexivity|].
  apply (updateRide_totalSeats_resets_availableSeats Example.driver
           Example.rideId (onlyTotalSeats 4) (Example.dbA "pending")
           (Example.ride 4 1 [Example.bookingA]) 4);
    try reflexivity.
  intros bid b Hb _. unfold Example.dbA in Hb. cbn [bookings] in Hb.
  apply lookup_singleton_Some in Hb as [_ <-].
  apply list_elem_of_here.
Defined.

(** What blocks updateRide: a booking on the ride that is confirmed or
    completed, and no other. *)
Lemma updateRide_blocked user id updates db ride :
  rides db !! id = Some ride ->
  Ride.driver ride = user ->
  (exists bid b, bookings db !! bid = Some b /\ Booking.ride b = id
                 /\ Booking.status b ∈ ["confirmed"; "completed"]) ->
  updateRide user id updates db =
    (db, json 400 (Message "Cannot update ride with confirmed bookings")).
Proof.
  intros Hr Hu Hex. unfold updateRide.
  rewrite (Ride_findOne_owned_Some _ _ _ _ Hr Hu).
  unfold Booking_exists_confirmed. rewrite bool_decide_eq_true_2; [done|].
  destruct Hex as (bid & b & Hb & Hri & Hst). by exists bid, b.
Qed.

(** C7, on the code: a booking that is past confirmation but not completed
    does not block updateRide.  With passenger A's booking of three seats in
    any of the statuses coming-for-pickup, picked-up, in-transit and
    dropped-off, the driver's update of totalSeats to 2 answers 200 and the
    stored ride has two seats in all, two of them free. *)
Theorem updateRide_ignores_bookings_in_progress :
  Forall (fun status =>
            let db := Example.dbA status in
            let out := updateRide Example.driver Example.rideId
                         (onlyTotalSeats 2) db in
            bookings db !! Example.bookingA
            = Some (Example.booking Example.passengerA 3 status)
            /\ code out.2 = 200
            /\ rides out.1 !! Example.rideId
               = Some (Example.ride 2 2 [Example.bookingA]))
         ["coming-for-pickup"; "picked-up"; "in-transit"; "dropped-off"].
Proof. repeat constructor. Qed.

(** ** The rating aggregate and the review handlers *)

Lemma sumRatings_sumQ_acc l acc :
  (fold_left (fun sum r => sum + Review.rating r) l acc
   == acc + sumQ (Review.rating <$> l))%Q.
Proof.
  revert acc. induction l as [|r l IH]; intros acc; cbn.
  - ring.
  - rewrite IH. unfold sumQ. ring.
Qed.

Lemma sumRatings_sumQ l : (sumRatings l == sumQ (Review.rating <$> l))%Q.
Proof. unfold sumRatings. rewrite sumRatings_sumQ_acc. ring. Qed.

Lemma Math_round_tenth (x : Q) :
  roundedTo1Decimal x (inject_Z (Math_round (x * 10)) / 10)%Q.
Proof.
  unfold roundedTo1Decimal, Math_round. split; [by eexists|].
  pose proof (Qfloor_le (x * 10 + (1 # 2))) as Hle.
  pose proof (Qlt_floor (x * 10 + (1 # 2))) as Hlt.
  rewrite inject_Z_plus in Hlt.
  set (k := inject_Z (Qfloor (x * 10 + (1 # 2)))) in *.
  change (inject_Z 1) with 1%Q in Hlt.
  split.
  - apply Qle_shift_div_l; [reflexivity|]. lra.
  - apply Qle_shift_div_r; [reflexivity|]. lra.
Qed.

Lemma roundedTo1Decimal_proper m m' r :
  (m == m')%Q -> roundedTo1Decimal m r -> roundedTo1Decimal m' r.
Proof.
  intros Hm (Hk & H1 & H2). split; [done|]. split; lra.
Qed.

(** The recompute leaves everything but the driver's profile as it is. *)
Lemma updateDriverRating_frame d db :
  let db' := updateDriverRating d db in
  rides db' = rides db /\ bookings db' = bookings db /\ reviews db' = reviews db
  /\ (forall u, u <> d -> driverProfiles db' !! u = driverProfiles db !! u).
Proof.
  cbn zeta. unfold updateDriverRating.
  destruct (0 <? _); [|done]. split_and!; try done.
  intros u Hu. cbn. by rewrite lookup_alter_ne.
Qed.

Lemma updateDriverRating_empty d db :
  Review_find_visible d (reviews db) = [] -> updateDriverRating d db = db.
Proof. intros H. unfold updateDriverRating. by rewrite H. Qed.

Lemma updateDriverRating_nonempty d db :
  visibleRatings d db <> [] ->
  forall p', driverProfiles (updateDriverRating d db) !! d = Some p' ->
  isRoundedMean (visibleRatings d db) (DriverProfile.rating p').
Proof.
  intros Hne p' Hp'. unfold visibleRatings in *. unfold updateDriverRating in Hp'.
  set (l := Review_find_visible d (reviews db)) in *.
  assert ((0 <? Z.of_nat (length l)) = true) as Hlen.
  { apply Z.ltb_lt. destruct l; [done|]. cbn [length]. lia. }
  rewrite Hlen in Hp'. cbn in Hp'. rewrite lookup_alter_eq in Hp'.
  destruct (driverProfiles db !! d) as [p|]; [|discriminate].
  cbn in Hp'. injection Hp' as <-.
  exists (sumQ (Review.rating <$> l) / inject_Z (Z.of_nat (length (Review.rating <$> l))))%Q.
  split.
  - destruct l; [done|reflexivity].
  - replace (DriverProfile.rating (DriverProfile.set_rating _ p))
      with (inject_Z (Math_round (sumRatings l / inject_Z (Z.of_nat (length l)) * 10)) / 10)%Q
      by by destruct p.
    eapply roundedTo1Decimal_proper; [|apply Math_round_tenth].
    rewrite length_fmap. by rewrite sumRatings_sumQ.
Qed.

Lemma updateDriverRating_recomputed d db0 db :
  driverProfiles db = driverProfiles db0 ->
  ratingRecomputed d db0 (updateDriverRating d db).
Proof.
  intros Hprof.
  destruct (updateDriverRating_frame d db) as (_ & _ & Hrev & _).
  cbn zeta in Hrev.
  assert (visibleRatings d (updateDriverRating d db) = visibleRatings d db) as Hvis
    by (unfold visibleRatings; by rewrite Hrev).
  split.
  - rewrite Hvis. intros Hne p Hp.
    assert (is_Some (driverProfiles (updateDriverRating d db) !! d)) as [p' Hp'].
    { unfold updateDriverRating. destruct (0 <? _); cbn.
      - rewrite lookup_alter_eq, Hprof, Hp. by eexists.
      - rewrite Hprof, Hp. by eexists. }
    exists p'. split; [done|]. by apply updateDriverRating_nonempty.
  - rewrite Hvis. intros Hnil. rewrite updateDriverRating_empty; [done|].
    unfold visibleRatings in Hnil. by apply fmap_nil_inv in Hnil.
Qed.

Lemma createReview_201 user newId bookingId body now db :
  let out := createReview user newId bookingId body now db in
  code out.2 = 201 ->
  exists b r rating,
    bookings db !! bookingId = Some b
    /\ rides db !! Booking.ride b = Some r
    /\ reviews db !! newId = None
    /\ let doc := newReview user bookingId b r rating body now in
       out.1 = (if bool_decide (Review.reviewType doc = "passenger-to-driver")
                then updateDriverRating (Review.reviewee doc)
                       (with_reviews (<[newId := doc]> (reviews db)) db)
                else with_reviews (<[newId := doc]> (reviews db)) db).
Proof.
  cbn zeta. unfold createReview.
  destruct (truthy_Q _) as [rating|]; [|discriminate].
  destruct (negb _ || negb _); [discriminate|].
  destruct (bookings db !! bookingId) as [b|] eqn:Hb; [|discriminate].
  case_bool_decide; [discriminate|].
  destruct (rides db !! Booking.ride b) as [r|] eqn:Hr; [|discriminate].
  destruct (negb _ && negb _); [discriminate|].
  unfold Review_create. cbn [Review.booking Review.reviewer].
  destruct (bool_decide (Booking.passenger b = user)) eqn:E.
  all: destruct (Review_findOne_by _ _ _); [discriminate|].
  all: destruct (Review.validate _); [|discriminate]; cbn [andb].
  all: destruct (bool_decide (reviews db !! newId = None)) eqn:Hfresh;
         [apply bool_decide_eq_true in Hfresh|discriminate]; cbn [andb negb].
  all: intros _; exists b, r, rating; split_and!; try done.
  all: unfold newReview; rewrite E; cbn [Review.reviewType Review.reviewee fst snd].
  all: reflexivity.
Qed.

Lemma Review_findOne_own_Some id user db rv :
  Review_findOne_own id user db = Some rv ->
  reviews db !! id = Some rv /\ Review.reviewer rv = user.
Proof.
  unfold Review_findOne_own.
  destruct (reviews db !! id) as [rv'|]; [|discriminate].
  case_bool_decide; [|discriminate]. by intros [= ->].
Qed.

Lemma updateReview_200 user id body now db :
  let out := updateReview user id body now db in
  code out.2 = 200 ->
  exists rv rv',
    reviews db !! id = Some rv
    /\ Review.reviewType rv' = Review.reviewType rv
    /\ Review.reviewee rv' = Review.reviewee rv
    /\ out.1 = (if bool_decide (Review.reviewType rv' = "passenger-to-driver")
               then updateDriverRating (Review.reviewee rv')
                      (with_reviews (<[id := rv']> (reviews db)) db)
               else with_reviews (<[id := rv']> (reviews db)) db).
Proof.
  cbn zeta. unfold updateReview.
  destruct (Review_findOne_own id user db) as [rv|] eqn:Hf; [|discriminate].
  apply Review_findOne_own_Some in Hf as [Hrv _].
  destruct (negb _); [discriminate|].
  unfold Review_save.
  match goal with |- context [Review.validate ?x] => set (rv' := x) end.
  destruct (Review.validate rv'); [|discriminate].
  intros _. exists rv, rv'. split_and!; try done.
  all: subst rv'; destruct (truthy_Q _), (ReviewBody.comment body),
         (ReviewBody.aspects body), rv; reflexivity.
Qed.

Lemma deleteReview_200 user id now db :
  let out := deleteReview user id now db in
  code out.2 = 200 ->
  exists rv,
    reviews db !! id = Some rv
    /\ out.1 = (if bool_decide (Review.reviewType rv = "passenger-to-driver")
               then updateDriverRating (Review.reviewee rv)
                      (with_reviews (delete id (reviews db)) db)
               else with_reviews (delete id (reviews db)) db).
Proof.
  cbn zeta. unfold deleteReview.
  destruct (Review_findOne_own id user db) as [rv|] eqn:Hf; [|discriminate].
  apply Review_findOne_own_Some in Hf as [Hrv _].
  destruct (negb _); [discriminate|].
  intros _. by exists rv.
Qed.

Lemma Review_find_visible_nonempty d (rs : gmap positive Review.t) id r :
  rs !! id = Some r ->
  Review.reviewee r = d ->
  Review.reviewType r = "passenger-to-driver" ->
  Review.isVisible r = true ->
  Review_find_visible d rs <> [].
Proof.
  intros Hr Hd Ht Hv Hnil. unfold Review_find_visible in Hnil.
  apply fmap_nil_inv in Hnil.
  assert ((id, r) ∈ map_to_list
            (filter (fun kr : positive * Review.t =>
                       Review.reviewee kr.2 = d
                       /\ Review.reviewType kr.2 = "passenger-to-driver"
                       /\ Review.isVisible kr.2 = true) rs)) as Hin.
  { apply elem_of_map_to_list. by apply map_lookup_filter_Some. }
  rewrite Hnil in Hin. by apply elem_of_nil in Hin.
Qed.

(** What each review handler leaves in the driver's profile when the review
    it creates, updates or deletes is a passenger-to-driver one. *)
Lemma review_handlers_recompute :
  (forall user newId bookingId body now db doc,
     let out := createReview user newId bookingId body now db in
     code out.2 = 201 ->
     reviews out.1 !! newId = Some doc ->
     Review.reviewType doc = "passenger-to-driver" ->
     visibleRatings (Review.reviewee doc) out.1 <> []
     /\ ratingRecomputed (Review.reviewee doc) db out.1)
  /\ (forall user id body now db rv,
        let out := updateReview user id body now db in
        code out.2 = 200 ->
        reviews out.1 !! id = Some rv ->
        Review.reviewType rv = "passenger-to-driver" ->
        ratingRecomputed (Review.reviewee rv) db out.1)
  /\ (forall user id now db rv,
        let out := deleteReview user id now db in
        code out.2 = 200 ->
        reviews db !! id = Some rv ->
        Review.reviewType rv = "passenger-to-driver" ->
        ratingRecomputed (Review.reviewee rv) db out.1).
Proof.
  split_and!.
  - intros user newId bookingId body now db doc out H201 Hdoc Hty.
    destruct (createReview_201 _ _ _ _ _ _ H201)
      as (b & r & rating & Hb & Hr & Hfresh & Hout).
    fold out in Hout. cbn zeta in Hout.
    set (doc' := newReview user bookingId b r rating body now) in *.
    assert (reviews out.1 = <[newId := doc']> (reviews db)) as Hrev.
    { rewrite Hout. case_bool_decide; [|done].
      by destruct (updateDriverRating_frame (Review.reviewee doc')
                     (with_reviews (<[newId := doc']> (reviews db)) db))
        as (_ & _ & -> & _). }
    assert (doc = doc') as ->.
    { rewrite Hrev, lookup_insert_eq in Hdoc. congruence. }
    rewrite bool_decide_eq_true_2 in Hout by done.
    split.
    + unfold visibleRatings. intros Hnil%fmap_nil_inv. revert Hnil.
      eapply Review_find_visible_nonempty; [exact Hdoc|done|done|].
      subst doc'. reflexivity.
    + rewrite Hout. by apply updateDriverRating_recomputed.
  - intros user id body now db rv out H200 Hrv Hty.
    destruct (updateReview_200 _ _ _ _ _ H200) as (rv0 & rv' & Hrv0 & Ht & Hre & Hout).
    fold out in Hout.
    assert (reviews out.1 = <[id := rv']> (reviews db)) as Hrev.
    { rewrite Hout. case_bool_decide; [|done].
      by destruct (updateDriverRating_frame (Review.reviewee rv')
                     (with_reviews (<[id := rv']> (reviews db)) db))
        as (_ & _ & -> & _). }
    assert (rv = rv') as ->.
    { rewrite Hrev, lookup_insert_eq in Hrv. congruence. }
    rewrite bool_decide_eq_true_2 in Hout by done.
    rewrite Hout. by apply updateDriverRating_recomputed.
  - intros user id now db rv out H200 Hrv Hty.
    destruct (deleteReview_200 _ _ _ _ H200) as (rv0 & Hrv0 & Hout).
    fold out in Hout.
    assert (rv0 = rv) as -> by congruence.
    rewrite bool_decide_eq_true_2 in Hout by done.
    rewrite Hout. by apply updateDriverRating_recomputed.
Qed.

(** ** The doubles of the code against the exact arithmetic *)

(** Beyond the safe integers the products and the sums of the code are not
    the exact ones: three seats at 2^53 - 1 a seat cost one less than the
    product, and adding 1 twice to 2^53 leaves 2^53 where adding 2 once
    gives 2^53 + 2. *)
Lemma Double_beyond_safe_integers :
  PrimFloat.mul (Double.ofZ 3) (Double.ofZ (2 ^ 53 - 1))
  = Double.ofZ (3 * (2 ^ 53 - 1) - 1)
  /\ PrimFloat.add (PrimFloat.add (Double.ofZ (2 ^ 53)) (Double.ofZ 1))
       (Double.ofZ 1)
     = Double.ofZ (2 ^ 53)
  /\ PrimFloat.add (Double.ofZ (2 ^ 53))
       (PrimFloat.add (Double.ofZ 1) (Double.ofZ 1))
     = Double.ofZ (2 ^ 53 + 2)
  /\ Number_isSafeInteger (3 * (2 ^ 53 - 1)) = false
  /\ Number_isSafeInteger (2 ^ 53 + 2) = false.
Proof. split_and!; vm_compute; reflexivity. Qed.


(** On the two examples of the specification the doubles store 4.0 and
    4.4. *)
Lemma Double_rating_examples :
  Double.rating [Double.ofZ 5; Double.ofZ 4; Double.ofZ 3] = Double.decimal 40
  /\ Double.rating [Double.ofZ 5; Double.ofZ 5; Double.ofZ 4; Double.ofZ 4;
                    Double.ofZ 4]
     = Double.decimal 44.
Proof. split; vm_compute; reflexivity. Qed.

(** On ratings in whole stars the doubles store the tenths of the exact
    arithmetic: for every number of reviews up to 200 and every sum they can
    have.  The sum of whole stars is exact, so the sum stands for the
    ratings. *)
Lemma Double_rating_whole_stars : Double.agreesUpTo 200 = true.
Proof. vm_compute. reflexivity. Qed.

(** On other ratings they need not: the ratings 1.2 and 1.9 have the mean
    1.55, which rounds to 1.6, and the doubles store 1.5. *)
Lemma Double_rating_fractions :
  Double.rating [Double.decimal 12; Double.decimal 19] = Double.decimal 15
  /\ Math_round (((12 # 10) + (19 # 10)) / 2 * 10)%Q = 16.
Proof. split; vm_compute; reflexivity. Qed.

(** C5 (amended).  A createReview, updateReview or deleteReview of a
    passenger-to-driver review is taken as the handler serves it when no
    other request runs between its awaited calls, and the visible
    passenger-to-driver reviews of the driver are rated in whole stars after
    it.  When at least one such review remains, the rating stored in the
    driver's profile is then the arithmetic mean of the ratings of all those
    reviews, as they are after the request, rounded to one decimal place: it
    is recomputed from the whole current set.  After a createReview one
    always remains, the one just created.  When none remains the profiles
    are left as they were.  On the examples, the recompute over the ratings
    5, 4, 3 stores 4.0 and over 5, 5, 4, 4, 4 stores 4.4, whatever was
    stored before.  Both conditions are needed: the rating is read and
    written in two awaited calls, so that of two requests that overlap the
    one that read first can write last; and on ratings that are not whole
    numbers the doubles of the code can round the other way
    ([Double_rating_fractions]). *)
Theorem review_change_recomputes_rating :
  (forall user newId bookingId body now db doc,
     let out := createReview user newId bookingId body now db in
     code out.2 = 201 ->
     reviews out.1 !! newId = Some doc ->
     Review.reviewType doc = "passenger-to-driver" ->
     wholeStars (visibleRatings (Review.reviewee doc) out.1) = true ->
     visibleRatings (Review.reviewee doc) out.1 <> []
     /\ ratingRecomputed (Review.reviewee doc) db out.1)
  /\ (forall user id body now db rv,
        let out := updateReview user id body now db in
        code out.2 = 200 ->
        reviews out.1 !! id = Some rv ->
        Review.reviewType rv = "passenger-to-driver" ->
        wholeStars (visibleRatings (Review.reviewee rv) out.1) = true ->
        ratingRecomputed (Review.reviewee rv) db out.1)
  /\ (forall user id now db rv,
        let out := deleteReview user id now db in
        code out.2 = 200 ->
        reviews db !! id = Some rv ->
        Review.reviewType rv = "passenger-to-driver" ->
        wholeStars (visibleRatings (Review.reviewee rv) out.1) = true ->
        ratingRecomputed (Review.reviewee rv) db out.1)
  /\ (forall stored,
        DriverProfile.rating <$>
          driverProfiles (updateDriverRating Example.driver
                            (Example.dbReviews stored [5; 4; 3]%Q))
            !! Example.driver
        = Some (40 # 10)%Q
        /\ DriverProfile.rating <$>
             driverProfiles (updateDriverRating Example.driver
                               (Example.dbReviews stored [5; 5; 4; 4; 4]%Q))
               !! Example.driver
           = Some (44 # 10)%Q).
Proof.
  destruct review_handlers_recompute as (Hc & Hu & Hd).
  split_and!.
  - intros user newId bookingId body now db doc out H201 Hdoc Hty _.
    by apply (Hc user newId bookingId body now db doc).
  - intros user id body now db rv out H200 Hrv Hty _.
    by apply (Hu user id body now db rv).
  - intros user id now db rv out H200 Hrv Hty _.
    by apply (Hd user id now db rv).
  - intros stored. split; reflexivity.
Qed.

(** The recompute of C5 on the example: passenger A reviews the completed
    ride with five stars, the driver's first review. *)
Lemma review_change_recomputes_rating_witness :
  let out := createReview Example.passengerA 200 Example.bookingA
               Example.fiveStars 1767312000000 (Example.dbA "completed") in
  visibleRatings Example.driver out.1 <> []
  /\ ratingRecomputed Example.driver (Example.dbA "completed") out.1.
Proof.
  exact (proj1 review_change_recomputes_rating
           Example.passengerA 200%positive Example.bookingA Example.fiveStars
           1767312000000 (Example.dbA "completed")
           (newReview Example.passengerA Example.bookingA
              (Example.booking Example.passengerA 3 "completed")
              (Example.ride 4 1 [Example.bookingA]) 5 Example.fiveStars
              1767312000000)
           eq_refl eq_refl eq_refl eq_refl).
Defined.

(** C5 as stated fails after a delete that leaves no review: passenger A's
    five-star review is the driver's only one and the stored rating is 5.0;
    A deletes it ten minutes later; no visible review remains, there is no
    mean, and the stored rating is still 5.0 (it is not reset to 0 either). *)
Lemma deleteReview_last_review_keeps_rating :
  let db1 := (createReview Example.passengerA 200 Example.bookingA
                Example.fiveStars 1767312000000 (Example.dbA "completed")).1 in
  let out := deleteReview Example.passengerA 200 1767312600000 db1 in
  (Review.reviewType <$> reviews db1 !! 200%positive) = Some "passenger-to-driver"
  /\ code out.2 = 200
  /\ visibleRatings Example.driver out.1 = []
  /\ driverProfiles out.1 !! Example.driver
     = Some (DriverProfile.mk true (50 # 10) 0 0)
  /\ ~ isRoundedMean (visibleRatings Example.driver out.1) (50 # 10)
  /\ ~ (50 # 10 == 0)%Q.
Proof.
  cbv zeta. split_and!; try reflexivity.
  - intros (m & Hm & _). vm_compute in Hm. discriminate.
  - intros H. vm_compute in H. discriminate.
Qed.

(** C10.  When the recompute runs for a driver with no visible
    passenger-to-driver review, it changes nothing: the stored rating keeps
    its previous value.  In particular a successful deleteReview after which
    the reviewed driver has no visible review left, leaves every profile as
    it was. *)
Theorem updateDriverRating_without_reviews :
  (forall d db,
     Review_find_visible d (reviews db) = [] -> updateDriverRating d db = db)
  /\ (forall user id now db rv,
        let out := deleteReview user id now db in
        code out.2 = 200 ->
        reviews db !! id = Some rv ->
        Review_find_visible (Review.reviewee rv) (reviews out.1) = [] ->
        driverProfiles out.1 = driverProfiles db).
Proof.
  split; [exact updateDriverRating_empty|].
  intros user id now db rv out H200 Hrv Hnil.
  destruct (deleteReview_200 _ _ _ _ H200) as (rv0 & Hrv0 & Hout).
  fold out in Hout. assert (rv0 = rv) as -> by congruence.
  destruct (bool_decide (Review.reviewType rv = "passenger-to-driver")) eqn:Hty.
  - apply bool_decide_eq_true in Hty.
    destruct review_handlers_recompute as (_ & _ & Hd).
    apply (Hd user id now db rv H200 Hrv Hty).
    unfold visibleRatings. fold out. by rewrite Hnil.
  - by rewrite Hout.
Qed.

(** C10 on the example: the driver's only review is deleted and the profile
    keeps the rating 5.0. *)
Lemma updateDriverRating_without_reviews_witness :
  let db1 := (createReview Example.passengerA 200 Example.bookingA
                Example.fiveStars 1767312000000 (Example.dbA "completed")).1 in
  let out := deleteReview Example.passengerA 200 1767312600000 db1 in
  driverProfiles db1 !! Example.driver = Some (DriverProfile.mk true (50 # 10) 0 0)
  /\ driverProfiles out.1 = driverProfiles db1.
Proof.
  split; [reflexivity|].
  exact (proj2 updateDriverRating_without_reviews
           Example.passengerA 200%positive 1767312600000
           (createReview Example.passengerA 200 Example.bookingA
              Example.fiveStars 1767312000000 (Example.dbA "completed")).1
           (newReview Example.passengerA Example.bookingA
              (Example.booking Example.passengerA 3 "completed")
              (Example.ride 4 1 [Example.bookingA]) 5 Example.fiveStars
              1767312000000)
           eq_refl eq_refl eq_refl).
Defined.

(** ** bookRide, request by request and interleaved *)

Lemma steps_Finished n user newId body res db :
  Await.steps n user newId body (Await.Finished res) db = (db, Await.Finished res).
Proof. induction n as [|n IH]; [done|]. cbn. exact IH. Qed.

Lemma Ride_save_modified_own id ride ride' pushed db :
  rides db !! id = Some ride ->
  ride' = Ride.set_passengers (Ride.passengers ride ++ [pushed])
            (Ride.set_availableSeats (Ride.availableSeats ride') ride) ->
  Await.Ride_save_modified id ride' pushed db = Ride_save id ride' db.
Proof.
  intros Hr Heq. unfold Await.Ride_save_modified, Ride_save.
  rewrite Hr. by rewrite <- Heq.
Qed.

(** A request that runs its four steps with no other request in between does
    what the handler does. *)
Lemma bookRide_steps user newId body db :
  Await.steps 4 user newId body Await.AtFindRide db =
    ((bookRide user newId body db).1,
     Await.Finished (bookRide user newId body db).2).
Proof.
  unfold bookRide. cbn [Await.steps Await.step].
  destruct (BookRideBody.rideId body) as [rideId|]; [|reflexivity].
  destruct (truthy_Z _) as [seats|]; [|reflexivity].
  destruct (seats <? 1); [reflexivity|].
  destruct (truthy_string (BookRideBody.pickupLocation_address body))
    as [pickup|]; [|reflexivity].
  destruct (truthy_string (BookRideBody.dropoffLocation_address body))
    as [dropoff|]; [|reflexivity].
  destruct (rides db !! rideId) as [ride|] eqn:Hr; [|reflexivity].
  destruct (bool_decide (Ride.status ride <> "scheduled")); [reflexivity|].
  destruct (Ride.availableSeats ride <? seats); [reflexivity|].
  cbn [Await.step].
  destruct (Booking_findOne_active rideId user (bookings db)); [reflexivity|].
  destruct (bool_decide (Ride.driver ride = user)); [reflexivity|].
  cbn [Await.step].
  fold (newBooking user rideId seats pickup dropoff ride body).
  destruct (Booking_create newId _ db) as [db1|] eqn:Hc; [|reflexivity].
  assert (rides db1 !! rideId = Some ride) as Hr1.
  { unfold Booking_create in Hc. destruct (_ && _); [|done].
    by injection Hc as <-. }
  cbn [Await.step].
  rewrite (Ride_save_modified_own rideId ride _ newId db1 Hr1)
    by by destruct ride.
  destruct (Ride_save rideId _ db1); reflexivity.
Qed.

Lemma turns_A reqA reqB n s :
  fold_left (Await.turn_step reqA reqB) (replicate n Await.A) s =
    let out := Await.steps n (Await.user reqA) (Await.newId reqA)
                 (Await.body reqA) (Await.pcA s) (Await.store s) in
    Await.mkSys out.1 out.2 (Await.pcB s).
Proof.
  revert s. induction n as [|n IH]; intros s; [by destruct s|].
  cbn [replicate fold_left Await.steps]. rewrite IH.
  unfold Await.turn_step.
  by destruct (Await.step _ _ _ (Await.pcA s) (Await.store s)).
Qed.

Lemma turns_B reqA reqB n s :
  fold_left (Await.turn_step reqA reqB) (replicate n Await.B) s =
    let out := Await.steps n (Await.user reqB) (Await.newId reqB)
                 (Await.body reqB) (Await.pcB s) (Await.store s) in
    Await.mkSys out.1 (Await.pcA s) out.2.
Proof.
  revert s. induction n as [|n IH]; intros s; [by destruct s|].
  cbn [replicate fold_left Await.steps]. rewrite IH.
  unfold Await.turn_step.
  by destruct (Await.step _ _ _ (Await.pcB s) (Await.store s)).
Qed.

(** So two requests that do not overlap are two calls of the handler, the
    second on the database the first leaves. *)
Lemma run_one_after_the_other reqA reqB db :
  let outA := bookRide (Await.user reqA) (Await.newId reqA) (Await.body reqA) db in
  let outB := bookRide (Await.user reqB) (Await.newId reqB) (Await.body reqB)
                outA.1 in
  Await.run reqA reqB Example.oneAfterTheOther db =
    Await.mkSys outB.1 (Await.Finished outA.2) (Await.Finished outB.2).
Proof.
  intros outA outB. unfold Await.run.
  change Example.oneAfterTheOther
    with (replicate 4 Await.A ++ replicate 4 Await.B)%list.
  rewrite fold_left_app, turns_A, turns_B.
  cbn [Await.store Await.pcA Await.pcB].
  rewrite bookRide_steps. cbn [fst snd]. by rewrite bookRide_steps.
Qed.

(** C9, on the code.  The seat check, the creation of the booking and the
    decrement of availableSeats are three separate awaited calls, and the
    decrement writes back a value computed from the ride as it was read.  On
    the ride with four free seats, passengers A and B each ask for three
    seats; when the two requests take turns, one awaited call each, both
    pass the check against the four seats each of them read, both are
    answered 201, and the ride ends with two pending bookings holding six
    seats, availableSeats = 1 and totalSeats = 4.  Between A's third and
    fourth call the database holds A's booking while availableSeats is
    still 4.  Run one after the other, the second request is refused and
    three seats are held. *)
Theorem bookRide_interleaved_oversells :
  let fin := Await.run Example.raceA Example.raceB Example.alternating
               Example.db0 in
  let mid := Await.run Example.raceA Example.raceB [Await.A; Await.A; Await.A]
               Example.db0 in
  let seq := Await.run Example.raceA Example.raceB Example.oneAfterTheOther
               Example.db0 in
  (exists a b,
      Await.pcA fin = Await.Finished
        (json 201 (MessageBooking "Booking request submitted successfully"
                     Example.bookingA a))
      /\ Await.pcB fin = Await.Finished
           (json 201 (MessageBooking "Booking request submitted successfully"
                        Example.bookingB b))
      /\ bookings (Await.store fin) !! Example.bookingA = Some a
      /\ bookings (Await.store fin) !! Example.bookingB = Some b
      /\ Booking.seatsBooked a = 3 /\ Booking.status a = "pending"
      /\ Booking.seatsBooked b = 3 /\ Booking.status b = "pending")
  /\ Ride.totalSeats <$> rides (Await.store fin) !! Example.rideId = Some 4
  /\ Ride.availableSeats <$> rides (Await.store fin) !! Example.rideId = Some 1
  /\ Await.seatsHeld Example.rideId (Await.store fin) = 6
  /\ (Booking.seatsBooked <$> bookings (Await.store mid) !! Example.bookingA
      = Some 3
      /\ Ride.availableSeats <$> rides (Await.store mid) !! Example.rideId
         = Some 4)
  /\ Await.pcB seq
     = Await.Finished (json 400 (Message "Only 1 seats available"))
  /\ Await.seatsHeld Example.rideId (Await.store seq) = 3.
Proof.
  cbv zeta. split_and!; [|reflexivity..].
  do 2 eexists. split_and!; reflexivity.
Qed.

(** ** Completion happens in one place *)

Lemma completionFree_refl db : completionFree db db.
Proof. split; [done|]. intros id. by left. Qed.

Lemma completionFree_same db db' :
  driverProfiles db' = driverProfiles db ->
  bookings db' = bookings db ->
  completionFree db db'.
Proof. intros H1 H2. split; [by rewrite H1|]. intros id. left. by rewrite H2. Qed.

Lemma completionFree_trans db1 db2 db3 :
  completionFree db1 db2 -> completionFree db2 db3 -> completionFree db1 db3.
Proof.
  intros [Hp1 Hb1] [Hp2 Hb2]. split.
  - intros u. by rewrite Hp2, Hp1.
  - intros id. destruct (Hb1 id) as [H1|[H1 H1']], (Hb2 id) as [H2|[H2 H2']].
    + left. by rewrite H2.
    + right. rewrite H2 in H1. cbn in H1.
      by destruct (bookings db1 !! id).
    + right. split; [done|]. by rewrite H2.
    + rewrite H2 in H1'. discriminate.
Qed.

Lemma paymentStatus_frame :
  let ps := Booking.paymentStatus in
  (forall v b, ps (Booking.set_status v b) = ps b)
  /\ (forall v b, ps (Booking.set_driverNote v b) = ps b)
  /\ (forall v b, ps (Booking.set_cancelledBy v b) = ps b)
  /\ (forall v b, ps (Booking.set_cancellationReason v b) = ps b)
  /\ (forall v b, ps (Booking.set_cancelledAt v b) = ps b)
  /\ (forall v b, ps (Booking.set_confirmedAt v b) = ps b)
  /\ (forall v b, ps (Booking.set_comingForPickupAt v b) = ps b)
  /\ (forall v b, ps (Booking.set_pickedUpAt v b) = ps b)
  /\ (forall v b, ps (Booking.set_droppedOffAt v b) = ps b)
  /\ (forall v b, ps (Booking.set_completedAt v b) = ps b).
Proof. cbv zeta. split_and!; by intros v []. Qed.

Ltac payment_frame :=
  let H := fresh in
  pose proof paymentStatus_frame as H; cbv zeta in H;
  destruct H as (?&?&?&?&?&?&?&?&?&?); congruence.

Lemma completionFree_rides v db : completionFree db (with_rides v db).
Proof. by apply completionFree_same. Qed.

Lemma completionFree_reviews v db : completionFree db (with_reviews v db).
Proof. by apply completionFree_same. Qed.

Lemma completionFree_restoreSeats id n bid db :
  completionFree db (Ride_restoreSeats id n bid db).
Proof. by apply completionFree_same. Qed.

Lemma completionFree_updateDriverRating d db :
  completionFree db (updateDriverRating d db).
Proof.
  unfold updateDriverRating. destruct (0 <? _); [|apply completionFree_refl].
  split; [|by left]. intros u. cbn.
  rewrite lookup_alter. case_decide; [subst|done].
  by destruct (driverProfiles db !! u) as [[]|].
Qed.

Lemma completionFree_save id doc db db' b :
  Booking_save id doc db = Some db' ->
  bookings db !! id = Some b ->
  Booking.paymentStatus doc = Booking.paymentStatus b ->
  completionFree db db'.
Proof.
  unfold Booking_save. destruct (Booking.validate doc); [|done].
  intros [= <-] Hb Hp. split; [done|]. intros i. left. cbn.
  rewrite lookup_insert. case_decide; [subst|done]. rewrite Hb. cbn. by rewrite Hp.
Qed.

Lemma completionFree_create newId doc db db' :
  Booking_create newId doc db = Some db' ->
  Booking.paymentStatus doc = "pending" ->
  completionFree db db'.
Proof.
  unfold Booking_create. destruct (Booking.validate doc); [|done]. cbn [andb].
  case_bool_decide as Hfresh; [|done].
  intros [= <-] Hp. split; [done|]. intros i. cbn.
  rewrite lookup_insert. case_decide; [subst|by left].
  right. split; [done|]. cbn. f_equal. by destruct doc.
Qed.

Lemma completionFree_cancelMany rideId now db :
  completionFree db (with_bookings (Booking_cancelMany rideId now (bookings db)) db).
Proof.
  split; [done|]. intros i. left. cbn.
  unfold Booking_cancelMany. rewrite lookup_fmap.
  destruct (bookings db !! i) as [b|]; [|done]. cbn. f_equal.
  case_bool_decide; [|done]. by destruct b.
Qed.

Lemma completionFree_Ride_save id doc db db' :
  Ride_save id doc db = Some db' -> completionFree db db'.
Proof.
  unfold Ride_save. destruct (Ride.validate doc); [|done].
  intros [= <-]. apply completionFree_rides.
Qed.

Lemma bookRide_completionFree user newId body db :
  completionFree db (bookRide user newId body db).1.
Proof.
  unfold bookRide.
  repeat (case_match; try apply completionFree_refl).
  all: cbn [fst].
  - eapply completionFree_trans; [eapply completionFree_create; [eassumption|done]|].
    by eapply completionFree_Ride_save.
  - by eapply completionFree_create.
Qed.

Lemma cancelBooking_completionFree user id reason now db :
  completionFree db (cancelBooking user id reason now db).1.
Proof.
  unfold cancelBooking.
  repeat (case_match; try apply completionFree_refl).
  cbn [fst]. eapply completionFree_trans; [|apply completionFree_restoreSeats].
  eapply completionFree_save; [eassumption..|]. payment_frame.
Qed.

Lemma respondToBooking_completionFree user id action driverNote now db :
  completionFree db (respondToBooking user id action driverNote now db).1.
Proof.
  unfold respondToBooking.
  repeat (case_match; try apply completionFree_refl); simplify_eq; cbn [fst].
  all: try apply completionFree_refl.
  all: try apply completionFree_restoreSeats.
  all: try (eapply completionFree_save; [eassumption..|]; payment_frame).
  all: eapply completionFree_trans; [apply completionFree_restoreSeats|].
  all: eapply completionFree_save; [eassumption|cbn; eassumption|payment_frame].
Qed.

Lemma updateRideStatus_completionFree user id status now db :
  completionFree db (updateRideStatus user id status now db).1.
Proof.
  unfold updateRideStatus.
  repeat (case_match; try apply completionFree_refl); cbn [fst].
  all: try by eapply completionFree_Ride_save.
  eapply completionFree_trans; [by eapply completionFree_Ride_save|].
  apply completionFree_cancelMany.
Qed.

Lemma updateRide_completionFree user id updates db :
  completionFree db (updateRide user id updates db).1.
Proof.
  unfold updateRide.
  repeat (case_match; try apply completionFree_refl); cbn [fst].
  all: by eapply completionFree_Ride_save.
Qed.

Lemma createReview_completionFree user newId bookingId body now db :
  completionFree db (createReview user newId bookingId body now db).1.
Proof.
  unfold createReview, Review_create.
  repeat (case_match; try apply completionFree_refl); simplify_eq; cbn [fst].
  all: try apply completionFree_reviews.
  all: eapply completionFree_trans;
    [apply completionFree_reviews|apply completionFree_updateDriverRating].
Qed.

Lemma updateReview_completionFree user id body now db :
  completionFree db (updateReview user id body now db).1.
Proof.
  unfold updateReview, Review_save.
  repeat (case_match; try apply completionFree_refl); simplify_eq; cbn [fst].
  all: try apply completionFree_reviews.
  all: eapply completionFree_trans;
    [apply completionFree_reviews|apply completionFree_updateDriverRating].
Qed.

Lemma deleteReview_completionFree user id now db :
  completionFree db (deleteReview user id now db).1.
Proof.
  unfold deleteReview.
  repeat (case_match; try apply completionFree_refl); simplify_eq; cbn [fst].
  all: try apply completionFree_reviews.
  all: eapply completionFree_trans;
    [apply completionFree_reviews|apply completionFree_updateDriverRating].
Qed.

(** updateBookingStatus on a schema-valid booking: no completion unless the
    answer is the 200 for the target completed. *)
Lemma updateBookingStatus_completionFree user id status now db :
  bookingsValid db ->
  completionFree db (updateBookingStatus user id status now db).1
  \/ (status = "completed"
      /\ code (updateBookingStatus user id status now db).2 = 200).
Proof.
  intros Hvalid.
  destruct (bookings db !! id) as [b|] eqn:Hb.
  2:{ left. unfold updateBookingStatus. rewrite Hb.
      case_match; apply completionFree_refl. }
  destruct (rides db !! Booking.ride b) as [r|] eqn:Hr.
  2:{ left. unfold updateBookingStatus. rewrite Hb, Hr.
      case_match; apply completionFree_refl. }
  destruct (decide (Ride.driver r = user)) as [Hu|Hu].
  2:{ left. unfold updateBookingStatus. rewrite Hb, Hr.
      rewrite bool_decide_eq_true_2 by done.
      case_match; apply completionFree_refl. }
  destruct (decide ((Booking.status b, status) ∈ progressChain)) as [Hn|Hn].
  2:{ left. rewrite (updateBookingStatus_rejected _ _ _ _ _ _ _ Hb Hr Hu Hn).
      apply completionFree_refl. }
  rewrite (updateBookingStatus_allowed _ _ _ now _ _ _ Hb Hr Hu Hn).
  cbn zeta.
  rewrite validate_afterSwitch by eauto using allowedNext_valid.
  cbn [fst snd code].
  destruct (decide (status = "completed")) as [->|Hne]; [by right|left].
  rewrite bool_decide_eq_false_2 by done.
  split; [done|]. intros i. left. cbn.
  rewrite lookup_insert. case_decide; [subst i|done]. rewrite Hb. cbn. f_equal.
  pose proof (allowedNext_valid _ _ Hn) as Hv. unfold validStatuses in Hv.
  repeat (apply elem_of_cons in Hv as [Hv|Hv]; [subst status|]);
    [..|by apply elem_of_nil in Hv].
  all: try done.
  all: unfold afterSwitch; decide_strings; by destruct b.
Qed.

(** The stored bookings stay schema-valid. *)

Lemma bookingsValid_same db db' :
  bookings db' = bookings db -> bookingsValid db -> bookingsValid db'.
Proof. unfold bookingsValid. by intros ->. Qed.

Lemma bookingsValid_save id doc db db' :
  Booking_save id doc db = Some db' -> bookingsValid db -> bookingsValid db'.
Proof.
  unfold Booking_save. destruct (Booking.validate doc) eqn:Hv; [|done].
  intros [= <-] H i b. cbn. rewrite lookup_insert.
  case_decide; [by intros [= <-]|apply H].
Qed.

Lemma bookingsValid_create id doc db db' :
  Booking_create id doc db = Some db' -> bookingsValid db -> bookingsValid db'.
Proof.
  unfold Booking_create. destruct (Booking.validate doc) eqn:Hv; [|done].
  cbn [andb]. case_bool_decide as Hfresh; [|done].
  intros [= <-] H i b. cbn. rewrite lookup_insert.
  case_decide; [|apply H]. intros [= <-]. by destruct doc.
Qed.

Lemma bookingsValid_Ride_save id doc db db' :
  Ride_save id doc db = Some db' -> bookingsValid db -> bookingsValid db'.
Proof.
  unfold Ride_save. destruct (Ride.validate doc); [|done].
  intros [= <-]. by apply bookingsValid_same.
Qed.

Lemma bookingsValid_cancelMany rideId now db :
  bookingsValid db ->
  bookingsValid (with_bookings (Booking_cancelMany rideId now (bookings db)) db).
Proof.
  intros H i b. cbn. unfold Booking_cancelMany. rewrite lookup_fmap.
  destruct (bookings db !! i) as [b0|] eqn:Hb; [|done]. cbn.
  intros [= <-]. specialize (H i b0 Hb).
  case_bool_decide; [|done].
  destruct b0; split_validate H; reflexivity.
Qed.

Lemma bookingsValid_updateDriverRating d db :
  bookingsValid db -> bookingsValid (updateDriverRating d db).
Proof.
  apply bookingsValid_same.
  by destruct (updateDriverRating_frame d db) as (_ & -> & _).
Qed.

Lemma bookingsValid_reviews v db :
  bookingsValid db -> bookingsValid (with_reviews v db).
Proof. by apply bookingsValid_same. Qed.

Lemma bookingsValid_restoreSeats id n bid db :
  bookingsValid db -> bookingsValid (Ride_restoreSeats id n bid db).
Proof. by apply bookingsValid_same. Qed.

Lemma bookingsValid_incStats user fare db :
  bookingsValid db -> bookingsValid (DriverProfile_incStats user fare db).
Proof. by apply bookingsValid_same. Qed.

Ltac bookings_valid :=
  repeat first
    [ assumption
    | apply bookingsValid_updateDriverRating
    | apply bookingsValid_cancelMany
    | eapply bookingsValid_save; [eassumption|]
    | eapply bookingsValid_create; [eassumption|]
    | eapply bookingsValid_Ride_save; [eassumption|]
    | apply bookingsValid_reviews
    | apply bookingsValid_restoreSeats
    | apply bookingsValid_incStats ].

Lemma bookingsValid_handle req now db :
  bookingsValid db -> bookingsValid (handle req now db).1.
Proof.
  intros Hvalid. destruct req; cbn [handle].
  - unfold bookRide. repeat case_match; simplify_eq; cbn [fst]; bookings_valid.
  - unfold cancelBooking. repeat case_match; simplify_eq; cbn [fst]; bookings_valid.
  - unfold respondToBooking. repeat case_match; simplify_eq; cbn [fst]; bookings_valid.
  - unfold updateBookingStatus. repeat case_match; simplify_eq; cbn [fst]; bookings_valid.
  - unfold updateRideStatus. repeat case_match; simplify_eq; cbn [fst]; bookings_valid.
  - unfold updateRide. repeat case_match; simplify_eq; cbn [fst]; bookings_valid.
  - unfold createReview, Review_create.
    repeat case_match; simplify_eq; cbn [fst]; bookings_valid.
  - unfold updateReview, Review_save.
    repeat case_match; simplify_eq; cbn [fst]; bookings_valid.
  - unfold deleteReview. repeat case_match; simplify_eq; cbn [fst]; bookings_valid.
Qed.

(** Served one after the other, completions are credited once.  A 200 of
    updateBookingStatus with target completed sets the booking's
    paymentStatus to paid and adds 1 to totalRides and the booking's stored
    totalFare to totalEarnings in the profile of the calling driver, who owns
    the ride; no other profile changes; and a request to complete the same
    booking that is served after it is refused with a 400 that leaves the
    database as it is.  With any other target the paymentStatus and every
    profile are as before.  And only that transition does it: whatever the
    request to the booking, ride and review handlers, on a database whose
    bookings pass the schema (which every handler preserves), either no
    profile's ride count or earnings and no booking's paymentStatus changes,
    a new booking being pending payment, or the request is an
    updateBookingStatus to completed answered with 200. *)
Lemma completion_served_in_turn :
  (forall user id status now db,
     let out := updateBookingStatus user id status now db in
     code out.2 = 200 ->
     exists b b' r,
       bookings db !! id = Some b
       /\ bookings out.1 !! id = Some b'
       /\ rides db !! Booking.ride b = Some r /\ Ride.driver r = user
       /\ (status = "completed" ->
           Booking.paymentStatus b' = "paid"
           /\ (forall p, driverProfiles db !! user = Some p ->
                 driverProfiles out.1 !! user
                 = Some (DriverProfile.mk (DriverProfile.isApproved p)
                           (DriverProfile.rating p)
                           (DriverProfile.totalRides p + 1)
                           (DriverProfile.totalEarnings p + Booking.totalFare b)))
           /\ (forall u, u <> user ->
                 driverProfiles out.1 !! u = driverProfiles db !! u)
           /\ (forall now2,
                 updateBookingStatus user id "completed" now2 out.1
                 = (out.1, json 400 (MessageTransition
                                       (cannotChangeMessage "completed" "completed")
                                       "completed" []))))
       /\ (status <> "completed" ->
           Booking.paymentStatus b' = Booking.paymentStatus b
           /\ driverProfiles out.1 = driverProfiles db))
  /\ (forall req now db,
        bookingsValid db ->
        let out := handle req now db in
        bookingsValid out.1
        /\ (completionFree db out.1
            \/ (exists user id, req = UpdateBookingStatus user id "completed"
                                /\ code out.2 = 200))).
Proof.
  split; [exact updateBookingStatus_completion|].
  intros req now db Hvalid out. split; [by apply bookingsValid_handle|].
  subst out. destruct req; cbn [handle].
  - left. apply bookRide_completionFree.
  - left. apply cancelBooking_completionFree.
  - left. apply respondToBooking_completionFree.
  - destruct (updateBookingStatus_completionFree user id status now db Hvalid)
      as [H|[-> H]]; [by left|right; eauto].
  - left. apply updateRideStatus_completionFree.
  - left. apply updateRide_completionFree.
  - left. apply createReview_completionFree.
  - left. apply updateReview_completionFree.
  - left. apply deleteReview_completionFree.
Qed.

(** C3, on the code.  The check of the transition, the increment of the
    driver's counters and the save of the booking are three separate awaited
    calls of updateBookingStatus, and the increment is an unguarded [$inc]:
    nothing ties it to the status the check read.  On the dropped-off booking
    of three seats at 250, with a fare of 750, two requests to complete it
    take turns, one awaited call each.  Both pass the check against the
    status each of them read and both are answered 200; the booking is
    stored once, completed and paid, and getDriverHistory counts one
    completed booking and 750 for it, while the driver's profile counts two
    rides and 1500: the increments were made twice for the one booking.  Run
    one after the other, the three calls of a request being the handler, the
    second request is refused with 400 and the profile counts one ride and
    750. *)
Theorem updateBookingStatus_interleaved_credits_twice :
  let db := Example.dbA "dropped-off" in
  let stepA := StatusSteps.step Example.driver Example.bookingA "completed"
                 1767226200000 in
  let stepB := StatusSteps.step Example.driver Example.bookingA "completed"
                 1767226200001 in
  let fin := Race.run stepA stepB StatusSteps.AtFind StatusSteps.AtFind
               Example.alternating db in
  let seq := Race.run stepA stepB StatusSteps.AtFind StatusSteps.AtFind
               Example.oneAfterTheOther db in
  let alone := updateBookingStatus Example.driver Example.bookingA "completed"
                 1767226200000 db in
  StatusSteps.steps 3 Example.driver Example.bookingA "completed" 1767226200000
    StatusSteps.AtFind db
  = (alone.1, StatusSteps.Finished alone.2)
  /\ (Booking.totalFare <$> bookings db !! Example.bookingA = Some 750
      /\ statsOf <$> driverProfiles db !! Example.driver = Some (0, 0))
  /\ (exists a b,
        Race.atA fin = StatusSteps.Finished
          (json 200 (MessageBooking "Booking status updated to 'completed'"
                       Example.bookingA a))
        /\ Race.atB fin = StatusSteps.Finished
             (json 200 (MessageBooking "Booking status updated to 'completed'"
                          Example.bookingA b)))
  /\ dom (bookings (Race.store fin)) = {[ Example.bookingA ]}
  /\ (exists b,
        bookings (Race.store fin) !! Example.bookingA = Some b
        /\ Booking.status b = "completed"
        /\ Booking.paymentStatus b = "paid"
        /\ Booking.totalFare b = 750)
  /\ (fun h => (DriverHistory.completedBookings h, DriverHistory.totalEarnings h))
       <$> getDriverHistory Example.driver (Race.store fin)
     = Some (1, 750)
  /\ statsOf <$> driverProfiles (Race.store fin) !! Example.driver
     = Some (2, 1500)
  /\ Race.atB seq
     = StatusSteps.Finished
         (json 400 (MessageTransition
                      (cannotChangeMessage "completed" "completed")
                      "completed" []))
  /\ statsOf <$> driverProfiles (Race.store seq) !! Example.driver
     = Some (1, 750).
Proof.
  cbv zeta. split_and!; try reflexivity.
  - do 2 eexists. split; reflexivity.
  - eexists. split_and!; reflexivity.
Qed.

(** * The requests in sequence and the rest of the handlers *)

(** ** What a request may do to the stored bookings *)

Lemma bookingStep_refl b : bookingStep b b.
Proof. split_and!; [done|by left|done]. Qed.

Lemma bookingsEvolve_refl bs : bookingsEvolve bs bs.
Proof.
  split.
  - intros id b Hb. exists b. split; [done|apply bookingStep_refl].
  - intros id b' Hb' Hn. congruence.
Qed.

(** A status edge: the statuses differ. *)
Lemma statusGraph_irrefl s : (s, s) ∉ statusGraph.
Proof.
  intros H. unfold statusGraph, progressChain in H. cbn [app] in H.
  repeat (apply elem_of_cons in H as [H|H]; [by injection H as -> ?|]).
  by apply elem_of_nil in H.
Qed.

Lemma bookingStep_edge b b' :
  snapshot b' = snapshot b ->
  (Booking.status b, Booking.status b') ∈ statusGraph ->
  bookingStep b b'.
Proof.
  intros Hs He. split_and!; [done|by right|].
  intros Heq. rewrite Heq in He. by apply statusGraph_irrefl in He.
Qed.

Lemma bookingsEvolve_save id doc b bs :
  bs !! id = Some b -> bookingStep b doc ->
  bookingsEvolve bs (<[id := doc]> bs).
Proof.
  intros Hb Hstep. split.
  - intros i bi Hi. destruct (decide (i = id)) as [->|Hne].
    + exists doc. rewrite lookup_insert_eq. split; [done|congruence].
    + exists bi. rewrite lookup_insert_ne by done.
      split; [done|apply bookingStep_refl].
  - intros i b' Hi Hn. destruct (decide (i = id)) as [->|Hne]; [congruence|].
    rewrite lookup_insert_ne in Hi by done. congruence.
Qed.

Lemma bookingsEvolve_create id doc bs :
  bs !! id = None ->
  Booking.status doc = "pending" ->
  Booking.paymentStatus doc = "pending" ->
  1 <= Booking.seatsBooked doc ->
  Booking.totalFare doc = Booking.seatsBooked doc * Booking.farePerSeat doc ->
  (forall j bj, bs !! j = Some bj ->
     Booking.ride bj = Booking.ride doc ->
     Booking.passenger bj = Booking.passenger doc -> ~ active bj) ->
  bookingsEvolve bs (<[id := doc]> bs).
Proof.
  intros Hfresh Hst Hps Hseats Hfare Hact. split.
  - intros i bi Hi. exists bi.
    rewrite lookup_insert_ne by congruence.
    split; [done|apply bookingStep_refl].
  - intros i b' Hi Hn. destruct (decide (i = id)) as [->|Hne].
    + rewrite lookup_insert_eq in Hi. injection Hi as <-.
      split_and!; try done.
      intros id2 [b2 H2] Hn2. destruct (decide (id2 = id)); [done|].
      rewrite lookup_insert_ne in H2 by done. congruence.
    + rewrite lookup_insert_ne in Hi by done. congruence.
Qed.

Lemma cancelledByDriver_step now b :
  Booking.status b ∈ ["pending"; "confirmed"] ->
  bookingStep b (cancelledByDriver now b).
Proof.
  intros Hst. apply bookingStep_edge; [by destruct b|].
  replace (Booking.status (cancelledByDriver now b)) with "cancelled"
    by by destruct b.
  unfold statusGraph. cbn [app].
  repeat (apply elem_of_cons in Hst as [->|Hst]; [set_solver|]).
  by apply elem_of_nil in Hst.
Qed.

Lemma bookingsEvolve_cancelMany rideId now bs :
  bookingsEvolve bs (Booking_cancelMany rideId now bs).
Proof.
  split.
  - intros id b Hb. rewrite Booking_cancelMany_lookup, Hb. cbn.
    eexists. split; [done|].
    case_bool_decide as Hc; [|apply bookingStep_refl].
    apply cancelledByDriver_step, Hc.
  - intros id b' Hb' Hn. rewrite Booking_cancelMany_lookup, Hn in Hb'. done.
Qed.

(** What the model operations of Mongoose leave, when they do not throw. *)
Lemma Booking_save_inv id doc db db' :
  Booking_save id doc db = Some db' ->
  Booking.validate doc = true
  /\ db' = with_bookings (<[id := doc]> (bookings db)) db.
Proof.
  unfold Booking_save. destruct (Booking.validate doc); [|done].
  by intros [= <-].
Qed.

Lemma Booking_create_inv id doc db db' :
  Booking_create id doc db = Some db' ->
  Booking.validate doc = true
  /\ bookings db !! id = None
  /\ db' = with_bookings (<[id := Booking.pre_save_new doc]> (bookings db)) db.
Proof.
  unfold Booking_create. destruct (Booking.validate doc); [|done]. cbn [andb].
  case_bool_decide; [|done]. by intros [= <-].
Qed.

Lemma Ride_save_inv id doc db db' :
  Ride_save id doc db = Some db' ->
  Ride.validate doc = true
  /\ db' = with_rides (<[id := doc]> (rides db)) db.
Proof.
  unfold Ride_save. destruct (Ride.validate doc); [|done]. by intros [= <-].
Qed.

Lemma Ride_create_inv id doc db db' :
  Ride_create id doc db = Some db' ->
  Ride.validate doc = true
  /\ rides db !! id = None
  /\ db' = with_rides (<[id := Ride_pre_save_new doc]> (rides db)) db.
Proof.
  unfold Ride_create. destruct (Ride.validate doc); [|done]. cbn [andb].
  case_bool_decide; [|done]. by intros [= <-].
Qed.

Lemma bookings_updateDriverRating d db :
  bookings (updateDriverRating d db) = bookings db.
Proof. by destruct (updateDriverRating_frame d db) as (_ & -> & _). Qed.

Lemma rides_updateDriverRating d db :
  rides (updateDriverRating d db) = rides db.
Proof. by destruct (updateDriverRating_frame d db) as (-> & _). Qed.

Ltac invert_writes :=
  repeat match goal with
         | H : Booking_save _ _ _ = Some _ |- _ =>
             apply Booking_save_inv in H as [? ->]
         | H : Booking_create _ _ _ = Some _ |- _ =>
             apply Booking_create_inv in H as (? & ? & ->)
         | H : Ride_save _ _ _ = Some _ |- _ =>
             apply Ride_save_inv in H as [? ->]
         | H : Ride_create _ _ _ = Some _ |- _ =>
             apply Ride_create_inv in H as (? & ? & ->)
         end.

Ltac open_handler :=
  repeat case_match; simplify_eq; invert_writes;
  cbn [fst snd bookings rides reviews driverProfiles with_bookings with_rides
       with_reviews with_driverProfiles Ride_restoreSeats
       DriverProfile_incStats];
  rewrite ?bookings_updateDriverRating, ?rides_updateDriverRating;
  cbn [fst snd bookings rides reviews driverProfiles with_bookings with_rides
       with_reviews with_driverProfiles].

Lemma Booking_findOne_active_false rideId user bs :
  Booking_findOne_active rideId user bs = false ->
  forall j bj, bs !! j = Some bj -> Booking.ride bj = rideId ->
               Booking.passenger bj = user -> ~ active bj.
Proof.
  intros H%bool_decide_eq_false j bj Hj Hr Hp Ha.
  apply H. by exists j, bj.
Qed.

Lemma truthy_Z_inv o n : truthy_Z o = Some n -> o = Some n /\ n <> 0.
Proof.
  destruct o as [m|]; [|done]. cbn. destruct (Z.eqb_spec m 0); [done|].
  by intros [= ->].
Qed.

Lemma bookRide_bookingsEvolve user newId body db :
  bookingsEvolve (bookings db) (bookings (bookRide user newId body db).1).
Proof.
  unfold bookRide. open_handler; try apply bookingsEvolve_refl.
  all: apply bookingsEvolve_create; try done; try lia.
  all: try by eapply Booking_findOne_active_false.
  all: cbn; match goal with H : (_ <? 1) = false |- _ => apply Z.ltb_ge in H end;
    lia.
Qed.

(** The status after the field assignments of the handlers. *)
Lemma status_set_status v b : Booking.status (Booking.set_status v b) = v.
Proof. by destruct b. Qed.
Lemma status_set_paymentStatus v b :
  Booking.status (Booking.set_paymentStatus v b) = Booking.status b.
Proof. by destruct b. Qed.
Lemma status_set_driverNote v b :
  Booking.status (Booking.set_driverNote v b) = Booking.status b.
Proof. by destruct b. Qed.
Lemma status_set_cancelledBy v b :
  Booking.status (Booking.set_cancelledBy v b) = Booking.status b.
Proof. by destruct b. Qed.
Lemma status_set_cancellationReason v b :
  Booking.status (Booking.set_cancellationReason v b) = Booking.status b.
Proof. by destruct b. Qed.
Lemma status_set_cancelledAt v b :
  Booking.status (Booking.set_cancelledAt v b) = Booking.status b.
Proof. by destruct b. Qed.
Lemma status_set_confirmedAt v b :
  Booking.status (Booking.set_confirmedAt v b) = Booking.status b.
Proof. by destruct b. Qed.
Lemma status_set_comingForPickupAt v b :
  Booking.status (Booking.set_comingForPickupAt v b) = Booking.status b.
Proof. by destruct b. Qed.
Lemma status_set_pickedUpAt v b :
  Booking.status (Booking.set_pickedUpAt v b) = Booking.status b.
Proof. by destruct b. Qed.
Lemma status_set_droppedOffAt v b :
  Booking.status (Booking.set_droppedOffAt v b) = Booking.status b.
Proof. by destruct b. Qed.
Lemma status_set_completedAt v b :
  Booking.status (Booking.set_completedAt v b) = Booking.status b.
Proof. by destruct b. Qed.

Ltac status_of_setters :=
  repeat first
    [ rewrite status_set_status | rewrite status_set_paymentStatus
    | rewrite status_set_driverNote | rewrite status_set_cancelledBy
    | rewrite status_set_cancellationReason | rewrite status_set_cancelledAt
    | rewrite status_set_confirmedAt | rewrite status_set_comingForPickupAt
    | rewrite status_set_pickedUpAt | rewrite status_set_droppedOffAt
    | rewrite status_set_completedAt ].

(** Membership in a list that is written out. *)
Ltac in_list :=
  unfold statusGraph, progressChain, terminalStatuses; cbn [app];
  repeat first [apply list_elem_of_here | apply list_elem_of_further].

Ltac cases_in H :=
  repeat (apply elem_of_cons in H as [H|H]; [try rewrite H in *|]);
  [..|by apply elem_of_nil in H].

Lemma cancelBooking_bookingsEvolve user id reason now db :
  bookingsEvolve (bookings db) (bookings (cancelBooking user id reason now db).1).
Proof.
  unfold cancelBooking. open_handler; try apply bookingsEvolve_refl.
  eapply bookingsEvolve_save; [eassumption|].
  match goal with H : negb (includes _ _) = false |- _ =>
    apply negb_false_iff, includes_true in H; rename H into Hst end.
  apply bookingStep_edge; [by destruct t|]. status_of_setters.
  cases_in Hst; in_list.
Qed.

Lemma respondToBooking_bookingsEvolve user id action driverNote now db :
  bookingsEvolve (bookings db)
    (bookings (respondToBooking user id action driverNote now db).1).
Proof.
  unfold respondToBooking. open_handler; try apply bookingsEvolve_refl.
  all: eapply bookingsEvolve_save; [eassumption|].
  all: match goal with H : bool_decide (Booking.status _ <> "pending") = false |- _ =>
         apply bool_decide_eq_false in H; apply dec_stable in H;
         rename H into Hst end.
  all: apply bookingStep_edge; [by destruct t|]; status_of_setters.
  all: rewrite Hst; in_list.
Qed.

Lemma updateBookingStatus_bookingsEvolve user id status now db :
  bookingsEvolve (bookings db)
    (bookings (updateBookingStatus user id status now db).1).
Proof.
  unfold updateBookingStatus. open_handler; try apply bookingsEvolve_refl.
  all: eapply bookingsEvolve_save; [eassumption|].
  all: match goal with H : negb (includes (default [] _) _) = false |- _ =>
         apply negb_false_iff, allowedNext_includes in H; rename H into Hn end.
  all: apply bookingStep_edge; [by destruct t|]; status_of_setters.
  all: unfold statusGraph; apply elem_of_app; right; exact Hn.
Qed.

Lemma updateRideStatus_bookingsEvolve user id status now db :
  bookingsEvolve (bookings db)
    (bookings (updateRideStatus user id status now db).1).
Proof.
  unfold updateRideStatus. open_handler; try apply bookingsEvolve_refl.
  apply bookingsEvolve_cancelMany.
Qed.

Lemma perform_bookingsEvolve op now db :
  bookingsEvolve (bookings db) (bookings (perform op now db).1).
Proof.
  destruct op as [[]| |]; cbn [perform handle].
  - apply bookRide_bookingsEvolve.
  - apply cancelBooking_bookingsEvolve.
  - apply respondToBooking_bookingsEvolve.
  - apply updateBookingStatus_bookingsEvolve.
  - apply updateRideStatus_bookingsEvolve.
  - unfold updateRide. open_handler; apply bookingsEvolve_refl.
  - unfold createReview, Review_create. open_handler; apply bookingsEvolve_refl.
  - unfold updateReview, Review_save. open_handler; apply bookingsEvolve_refl.
  - unfold deleteReview. open_handler; apply bookingsEvolve_refl.
  - unfold postRide. open_handler; apply bookingsEvolve_refl.
  - unfold deleteRide. open_handler; apply bookingsEvolve_refl.
Qed.

(** ** What a request may do to the stored rides *)

Lemma rideStep_refl bs r : rideStep bs r r.
Proof. split; [done|by left]. Qed.

Lemma ridesEvolve_refl bs rs : ridesEvolve bs rs rs.
Proof.
  split.
  - intros id r Hr. left. exists r. split; [done|apply rideStep_refl].
  - intros id r' Hr' Hn. congruence.
Qed.

Lemma ridesEvolve_insert bs rs id r r' :
  rs !! id = Some r -> rideStep bs r r' ->
  ridesEvolve bs rs (<[id := r']> rs).
Proof.
  intros Hr Hstep. split.
  - intros i ri Hi. left. destruct (decide (i = id)) as [->|Hne].
    + exists r'. rewrite lookup_insert_eq. split; [done|congruence].
    + exists ri. rewrite lookup_insert_ne by done.
      split; [done|apply rideStep_refl].
  - intros i ri Hi Hn. destruct (decide (i = id)) as [->|Hne]; [congruence|].
    rewrite lookup_insert_ne in Hi by done. congruence.
Qed.

Lemma ridesEvolve_alter bs rs id f :
  (forall r, rs !! id = Some r -> rideStep bs r (f r)) ->
  ridesEvolve bs rs (alter f id rs).
Proof.
  intros Hf. split.
  - intros i ri Hi. left. destruct (decide (i = id)) as [->|Hne].
    + exists (f ri). rewrite lookup_alter_eq, Hi. split; [done|by apply Hf].
    + exists ri. rewrite lookup_alter_ne by done.
      split; [done|apply rideStep_refl].
  - intros i ri Hi Hn. destruct (decide (i = id)) as [->|Hne].
    + rewrite lookup_alter_eq, Hn in Hi. done.
    + rewrite lookup_alter_ne in Hi by done. congruence.
Qed.

Lemma ridesEvolve_restoreSeats bs rs rid n bid id b :
  bs !! id = Some b -> n = Booking.seatsBooked b ->
  ridesEvolve bs rs
    (alter (fun r =>
              Ride.set_passengers
                (filter (fun p => p <> bid) (Ride.passengers r))
                (Ride.set_availableSeats (Ride.availableSeats r + n) r))
           rid rs).
Proof.
  intros Hb ->. apply ridesEvolve_alter. intros r _.
  split; [by destruct r|]. right. right. left. exists id, b.
  split; [done|by destruct r].
Qed.

Lemma ridesEvolve_new bs rs id r' :
  rs !! id = None ->
  Ride.availableSeats r' = Ride.totalSeats r' ->
  1 <= Ride.totalSeats r' <= 8 ->
  Ride.status r' = "scheduled" ->
  Ride.passengers r' = [] ->
  ridesEvolve bs rs (<[id := r']> rs).
Proof.
  intros Hfresh Hav Hts Hst Hps. split.
  - intros i ri Hi. left. exists ri. rewrite lookup_insert_ne by congruence.
    split; [done|apply rideStep_refl].
  - intros i ri Hi Hn. destruct (decide (i = id)) as [->|Hne].
    + rewrite lookup_insert_eq in Hi. by injection Hi as <-.
    + rewrite lookup_insert_ne in Hi by done. congruence.
Qed.

Lemma ridesEvolve_delete bs rs id :
  (forall j b, bs !! j = Some b -> Booking.ride b <> id) ->
  ridesEvolve bs rs (delete id rs).
Proof.
  intros Hno. split.
  - intros i ri Hi. destruct (decide (i = id)) as [->|Hne].
    + right. by rewrite lookup_delete_eq.
    + left. exists ri. rewrite lookup_delete_ne by done.
      split; [done|apply rideStep_refl].
  - intros i ri Hi Hn. destruct (decide (i = id)) as [->|Hne].
    + by rewrite lookup_delete_eq in Hi.
    + rewrite lookup_delete_ne in Hi by done. congruence.
Qed.

Lemma driver_applyAllowedUpdates updates ride :
  Ride.driver (applyAllowedUpdates updates ride) = Ride.driver ride.
Proof.
  unfold applyAllowedUpdates. destruct updates as [dd dt ts f pr de st]; cbn.
  destruct dd, dt, ts, f, pr, de, st, ride; reflexivity.
Qed.

Lemma availableSeats_applyAllowedUpdates updates ride :
  Ride.availableSeats (applyAllowedUpdates updates ride)
  = Ride.availableSeats ride.
Proof.
  unfold applyAllowedUpdates. destruct updates as [dd dt ts f pr de st]; cbn.
  destruct dd, dt, ts, f, pr, de, st, ride; reflexivity.
Qed.

Lemma Ride_findOne_owned_inv id user db ride :
  Ride_findOne_owned id user db = Some ride ->
  rides db !! id = Some ride /\ Ride.driver ride = user.
Proof.
  unfold Ride_findOne_owned. destruct (rides db !! id) as [r|]; [|done].
  case_bool_decide; [|done]. by intros [= ->].
Qed.

Lemma Booking_exists_any_false id bs :
  Booking_exists_any id bs = false ->
  forall j b, bs !! j = Some b -> Booking.ride b <> id.
Proof.
  intros H%bool_decide_eq_false j b Hb Hr. apply H. by exists j, b.
Qed.

Lemma perform_ridesEvolve op now db :
  ridesEvolve (bookings db) (rides db) (rides (perform op now db).1).
Proof.
  destruct op as [[]| |]; cbn [perform handle].
  - unfold bookRide. open_handler; try apply ridesEvolve_refl.
    eapply ridesEvolve_insert; [eassumption|].
    split; [by destruct t|]. right. left. exists z.
    repeat match goal with
           | H : (_ <? _) = false |- _ => apply Z.ltb_ge in H
           end.
    split; [lia|by destruct t].
  - unfold cancelBooking. open_handler; try apply ridesEvolve_refl.
    by eapply ridesEvolve_restoreSeats.
  - unfold respondToBooking. open_handler; try apply ridesEvolve_refl.
    all: by eapply ridesEvolve_restoreSeats.
  - unfold updateBookingStatus. open_handler; apply ridesEvolve_refl.
  - unfold updateRideStatus. open_handler; try apply ridesEvolve_refl.
    all: match goal with H : Ride_findOne_owned _ _ _ = Some _ |- _ =>
           apply Ride_findOne_owned_inv in H as [? ?] end.
    all: eapply ridesEvolve_insert; [eassumption|].
    all: split; [by destruct t|left; by destruct t].
  - unfold updateRide. open_handler; try apply ridesEvolve_refl.
    all: match goal with H : Ride_findOne_owned _ _ _ = Some _ |- _ =>
           apply Ride_findOne_owned_inv in H as [? ?] end.
    all: eapply ridesEvolve_insert; [eassumption|].
    + match goal with H : truthy_Z _ = Some _ |- _ =>
        apply truthy_Z_inv in H as [Hts _] end.
      match goal with H : Ride.validate _ = true |- _ =>
        rewrite Ride_validate_set_availableSeats in H;
        apply Ride_validate_totalSeats in H; rename H into Hv end.
      split.
      * rewrite <- (driver_applyAllowedUpdates updates t). by destruct (applyAllowedUpdates updates t).
      * right. right. right.
        rewrite totalSeats_set_availableSeats, availableSeats_set_availableSeats.
        rewrite (totalSeats_applyAllowedUpdates _ _ _ Hts) in *. lia.
    + split; [apply driver_applyAllowedUpdates|].
      left. apply availableSeats_applyAllowedUpdates.
  - unfold createReview, Review_create. open_handler; apply ridesEvolve_refl.
  - unfold updateReview, Review_save. open_handler; apply ridesEvolve_refl.
  - unfold deleteReview. open_handler; apply ridesEvolve_refl.
  - unfold postRide. open_handler; try apply ridesEvolve_refl.
    match goal with H : Ride.validate _ = true |- _ =>
      apply Ride_validate_totalSeats in H; cbn in H end.
    apply ridesEvolve_new; try done.
  - unfold deleteRide. open_handler; try apply ridesEvolve_refl.
    apply ridesEvolve_delete. by apply Booking_exists_any_false.
Qed.

(** ** Invariants of the stored bookings and rides *)

Lemma perform_snapshot op now db id b :
  bookings db !! id = Some b ->
  exists b', bookings (perform op now db).1 !! id = Some b'
             /\ snapshot b' = snapshot b.
Proof.
  intros Hb.
  destruct (perform_bookingsEvolve op now db) as [Hold _].
  destruct (Hold id b Hb) as (b' & Hb' & Hs & _). by exists b'.
Qed.

Lemma statusGraph_source_active s s' :
  (s, s') ∈ statusGraph -> s ∉ terminalStatuses.
Proof.
  intros H Ht. unfold statusGraph, progressChain in H. cbn [app] in H.
  unfold terminalStatuses in Ht.
  repeat (apply elem_of_cons in H as [H|H];
          [injection H as -> ->;
           repeat (apply elem_of_cons in Ht as [Ht|Ht]; [discriminate|]);
           by apply elem_of_nil in Ht|]).
  by apply elem_of_nil in H.
Qed.

Lemma perform_status op now db id b b' :
  bookings db !! id = Some b ->
  bookings (perform op now db).1 !! id = Some b' ->
  (b' = b \/ (Booking.status b, Booking.status b') ∈ statusGraph)
  /\ (Booking.status b ∈ terminalStatuses -> b' = b).
Proof.
  intros Hb Hb'.
  destruct (perform_bookingsEvolve op now db) as [Hold _].
  destruct (Hold id b Hb) as (b0 & Hb0 & _ & Hst & Hsame).
  assert (b0 = b') as -> by congruence.
  split.
  - destruct Hst as [Heq|He]; [left; by apply Hsame|by right].
  - intros Ht. destruct Hst as [Heq|He]; [by apply Hsame|].
    by apply statusGraph_source_active in He.
Qed.

Lemma bookingStep_active b b' : bookingStep b b' -> active b' -> active b.
Proof.
  intros (_ & [Heq|He] & Hsame) Ha.
  - by rewrite (Hsame Heq) in Ha.
  - apply statusGraph_source_active in He. unfold active.
    intros Hin. apply He. unfold terminalStatuses.
    apply list_elem_of_further. exact Hin.
Qed.

Lemma snapshot_ride_passenger b b' :
  snapshot b' = snapshot b ->
  Booking.ride b' = Booking.ride b /\ Booking.passenger b' = Booking.passenger b.
Proof. unfold snapshot. by intros [= -> -> _]. Qed.

Lemma perform_oneActiveBooking op now db :
  oneActiveBooking db -> oneActiveBooking (perform op now db).1.
Proof.
  intros Hinv i j bi bj Hi Hj Hr Hp Hai Haj.
  destruct (perform_bookingsEvolve op now db) as [Hold Hnew].
  destruct (bookings db !! i) as [bi0|] eqn:Hi0,
           (bookings db !! j) as [bj0|] eqn:Hj0.
  - destruct (Hold i bi0 Hi0) as (bi' & Hbi' & Hsi).
    destruct (Hold j bj0 Hj0) as (bj' & Hbj' & Hsj).
    assert (bi' = bi) as -> by congruence.
    assert (bj' = bj) as -> by congruence.
    destruct (snapshot_ride_passenger _ _ (proj1 Hsi)) as [Hri Hpi].
    destruct (snapshot_ride_passenger _ _ (proj1 Hsj)) as [Hrj Hpj].
    apply (Hinv i j bi0 bj0); try done; try congruence.
    + by eapply bookingStep_active.
    + by eapply bookingStep_active.
  - destruct (Hold i bi0 Hi0) as (bi' & Hbi' & Hsi).
    assert (bi' = bi) as -> by congruence.
    destruct (snapshot_ride_passenger _ _ (proj1 Hsi)) as [Hri Hpi].
    destruct (Hnew j bj Hj Hj0) as (_ & _ & _ & _ & Hno & _).
    exfalso. apply (Hno i bi0 Hi0); [congruence|congruence|].
    by eapply bookingStep_active.
  - destruct (Hold j bj0 Hj0) as (bj' & Hbj' & Hsj).
    assert (bj' = bj) as -> by congruence.
    destruct (snapshot_ride_passenger _ _ (proj1 Hsj)) as [Hrj Hpj].
    destruct (Hnew i bi Hi Hi0) as (_ & _ & _ & _ & Hno & _).
    exfalso. apply (Hno j bj0 Hj0); [congruence|congruence|].
    by eapply bookingStep_active.
  - destruct (Hnew i bi Hi Hi0) as (_ & _ & _ & _ & _ & Hone).
    symmetry. by apply Hone.
Qed.

Lemma Booking_validate_seats b : Booking.validate b = true -> 1 <= Booking.seatsBooked b.
Proof.
  unfold Booking.validate. rewrite !andb_true_iff. intros H. destruct_and? H. lia.
Qed.

Lemma perform_seatsNonNegative op now db :
  bookingsValid db -> seatsNonNegative db ->
  seatsNonNegative (perform op now db).1.
Proof.
  intros Hvalid Hinv id r' Hr'.
  destruct (perform_ridesEvolve op now db) as [Hold Hnew].
  destruct (rides db !! id) as [r|] eqn:Hr.
  - destruct (Hold id r Hr) as [(r0 & Hr0 & _ & Hstep)|[Hnone _]]; [|congruence].
    assert (r0 = r') as -> by congruence.
    specialize (Hinv id r Hr).
    destruct Hstep as [->|[(n & Hn & ->)|[(bid & b & Hb & ->)|[-> Hts]]]];
      try lia.
    pose proof (Booking_validate_seats b (Hvalid bid b Hb)). lia.
  - destruct (Hnew id r' Hr' Hr) as (-> & Hts & _). lia.
Qed.

Lemma ride_pre_save_new b : Booking.ride (Booking.pre_save_new b) = Booking.ride b.
Proof. by destruct b. Qed.

(** A booking that a request adds is on a ride the request leaves stored. *)
Lemma perform_new_booking_on_ride op now db id b' :
  bookings (perform op now db).1 !! id = Some b' ->
  bookings db !! id = None ->
  is_Some (rides (perform op now db).1 !! Booking.ride b').
Proof.
  destruct op as [[]| |]; cbn [perform handle];
    unfold bookRide, cancelBooking, respondToBooking, updateBookingStatus,
      updateRideStatus, updateRide, createReview, Review_create, updateReview,
      Review_save, deleteReview, postRide, deleteRide;
    open_handler; intros Hb' Hn; try congruence.
  all: try (rewrite lookup_insert in Hb'; case_decide; simplify_eq;
            congruence).
  all: try (rewrite lookup_insert in Hb'; case_decide; [|congruence];
            simplify_eq; rewrite ride_pre_save_new; cbn [Booking.ride];
            first [rewrite lookup_insert_eq; by eexists | by eexists]).
  unfold Booking_cancelMany in Hb'. rewrite lookup_fmap, Hn in Hb'. done.
Qed.

Lemma perform_bookingsOnRides op now db :
  bookingsOnRides db -> bookingsOnRides (perform op now db).1.
Proof.
  intros Hinv id b' Hb'.
  destruct (perform_bookingsEvolve op now db) as [Hold _].
  destruct (perform_ridesEvolve op now db) as [Hrides _].
  destruct (bookings db !! id) as [b|] eqn:Hb.
  - destruct (Hold id b Hb) as (b0 & Hb0 & Hsnap & _).
    assert (b0 = b') as -> by congruence.
    destruct (snapshot_ride_passenger _ _ Hsnap) as [-> _].
    destruct (Hinv id b Hb) as [r Hr].
    destruct (Hrides _ r Hr) as [(r' & Hr' & _)|[_ Hnone]]; [by eexists|].
    by destruct (Hnone id b Hb).
  - by eapply perform_new_booking_on_ride.
Qed.

(** ** cancelBooking and respondToBooking *)

Lemma cancelBooking_200_inv user id reason now db :
  code (cancelBooking user id reason now db).2 = 200 ->
  exists b,
    bookings db !! id = Some b /\ Booking.passenger b = user
    /\ Booking.status b ∈ ["pending"; "confirmed"]
    /\ (cancelBooking user id reason now db).1
       = Ride_restoreSeats (Booking.ride b) (Booking.seatsBooked b) id
           (with_bookings
              (<[id := Booking.set_cancelledAt (Some now)
                         (Booking.set_cancellationReason reason
                            (Booking.set_cancelledBy (Some "passenger")
                               (Booking.set_status "cancelled" b)))]>
                 (bookings db)) db).
Proof.
  unfold cancelBooking.
  destruct (bookings db !! id) as [b|] eqn:Hb; [|done].
  destruct (bool_decide (Booking.passenger b <> user)) eqn:Hp; [done|].
  destruct (negb (includes ["pending"; "confirmed"] (Booking.status b))) eqn:Hs;
    [done|].
  destruct (Booking_save _ _ _) as [db1|] eqn:Hsave; [|done].
  intros _. apply Booking_save_inv in Hsave as [_ ->].
  apply bool_decide_eq_false in Hp. apply dec_stable in Hp.
  apply negb_false_iff, includes_true in Hs.
  exists b. by split_and!.
Qed.

(** X12.  A 200 of cancelBooking is for a pending or confirmed booking of the
    caller; it stores the booking as cancelled, adds the booking's seats to
    the free seats of its ride, drops it from the ride's passengers and
    touches no other ride.  A second cancellation is refused, with 400 for the
    passenger and 404 for anyone else, and changes nothing: the seats are
    released once. *)
Theorem cancelBooking_releases_seats_once user id reason now db :
  code (cancelBooking user id reason now db).2 = 200 ->
  exists b,
    bookings db !! id = Some b /\ Booking.passenger b = user
    /\ Booking.status b ∈ ["pending"; "confirmed"]
    /\ Booking.status <$> bookings (cancelBooking user id reason now db).1 !! id
       = Some "cancelled"
    /\ (forall r, rides db !! Booking.ride b = Some r ->
          exists r',
            rides (cancelBooking user id reason now db).1 !! Booking.ride b = Some r'
            /\ Ride.availableSeats r'
               = Ride.availableSeats r + Booking.seatsBooked b
            /\ id ∉ Ride.passengers r')
    /\ (forall rid, rid <> Booking.ride b ->
          rides (cancelBooking user id reason now db).1 !! rid = rides db !! rid)
    /\ (forall user' reason' now',
          cancelBooking user' id reason' now'
            (cancelBooking user id reason now db).1
          = ((cancelBooking user id reason now db).1,
             json (if decide (user' = user) then 400 else 404)
               (Message (if decide (user' = user)
                         then "Cannot cancel booking in current status"
                         else "Booking not found")))).
Proof.
  intros H200.
  destruct (cancelBooking_200_inv _ _ _ _ _ H200) as (b & Hb & Hp & Hs & ->).
  exists b. split_and!; try done.
  - cbn. rewrite lookup_insert_eq. cbn. by status_of_setters.
  - intros r Hr. cbn. rewrite lookup_alter_eq, Hr. cbn.
    eexists. split; [done|]. split; [by destruct r|].
    destruct r; cbn. intros Hin%list_elem_of_filter. by destruct Hin.
  - intros rid Hne. cbn. by rewrite lookup_alter_ne.
  - intros user' reason' now'. unfold cancelBooking at 1.
    cbn [bookings Ride_restoreSeats with_rides with_bookings].
    rewrite lookup_insert_eq.
    replace (Booking.passenger _) with user by (by destruct b).
    status_of_setters.
    case_decide as Hu.
    + rewrite bool_decide_eq_false_2 by (intros ?; congruence). done.
    + rewrite bool_decide_eq_true_2 by congruence. done.
Qed.

Lemma validate_set_driverNote_long note b :
  (200 < String.length note)%nat ->
  Booking.validate (Booking.set_driverNote (Some note) b) = false.
Proof.
  intros Hlen. destruct b. unfold Booking.validate. cbn -[maxlength].
  replace (maxlength 200 (Some note)) with false.
  - by rewrite andb_false_r.
  - symmetry. cbn. apply bool_decide_eq_false. lia.
Qed.

Lemma truthy_string_long note :
  (200 < String.length note)%nat -> truthy_string (Some note) = Some note.
Proof. intros H. destruct note; [cbn in H; lia|done]. Qed.


(** X14.  Rejecting a pending booking with a driver note of more than 200
    characters is answered with 500, and yet the booking's seats are added to
    the free seats of the ride while the booking stays pending: the seats are
    released before the booking is validated and saved.  Sent [k] times, the
    request adds the seats [k] times. *)
Theorem respondToBooking_reject_long_note user id note now db b r :
  bookings db !! id = Some b ->
  rides db !! Booking.ride b = Some r ->
  Ride.driver r = user ->
  Booking.status b = "pending" ->
  (200 < String.length note)%nat ->
  (respondToBooking user id "reject" (Some note) now db).2 = json 500 ServerError
  /\ forall k,
       let db' := respondRepeatedly user id "reject" (Some note) now k db in
       bookings db' = bookings db
       /\ Ride.availableSeats <$> rides db' !! Booking.ride b
          = Some (Ride.availableSeats r + Z.of_nat k * Booking.seatsBooked b).
Proof.
  intros Hb Hr Hd Hs Hlen.
  assert (Hone : forall db0 r0,
            bookings db0 = bookings db ->
            rides db0 !! Booking.ride b = Some r0 -> Ride.driver r0 = user ->
            respondToBooking user id "reject" (Some note) now db0
            = (Ride_restoreSeats (Booking.ride b) (Booking.seatsBooked b) id db0,
               json 500 ServerError)).
  { intros db0 r0 Hbs Hr0 Hd0. unfold respondToBooking.
    rewrite Hbs, Hb, Hr0.
    rewrite (proj2 (includes_true ["confirm"; "reject"] "reject"))
      by (apply list_elem_of_further, list_elem_of_here).
    cbn [negb].
    rewrite (bool_decide_eq_false_2 (Ride.driver r0 <> user)) by (intros ?; done).
    rewrite (bool_decide_eq_false_2 (Booking.status b <> "pending"))
      by (intros ?; done).
    rewrite (bool_decide_eq_false_2 ("reject" = "confirm")) by discriminate.
    rewrite truthy_string_long by done.
    unfold Booking_save. by rewrite validate_set_driverNote_long. }
  split; [by rewrite (Hone db r)|].
  intros k. cbn zeta.
  assert (exists rk,
            rides (respondRepeatedly user id "reject" (Some note) now k db)
              !! Booking.ride b = Some rk
            /\ Ride.driver rk = user
            /\ Ride.availableSeats rk
               = Ride.availableSeats r + Z.of_nat k * Booking.seatsBooked b
            /\ bookings (respondRepeatedly user id "reject" (Some note) now k db)
               = bookings db) as (rk & Hrk & _ & Hav & Hbs).
  { induction k as [|k (rk & Hrk & Hdk & Hav & Hbs)].
    - exists r. split_and!; try done. lia.
    - unfold respondRepeatedly in *. rewrite Nat.iter_succ.
      rewrite (Hone _ rk Hbs Hrk Hdk). cbn.
      rewrite lookup_alter_eq, Hrk. cbn. eexists. split; [done|].
      destruct rk; cbn in *. split_and!; try done. lia. }
  split; [done|]. rewrite Hrk. cbn. by rewrite Hav.
Qed.

Lemma respondToBooking_not_pending user id action driverNote now db b :
  bookings db !! id = Some b -> Booking.status b <> "pending" ->
  (respondToBooking user id action driverNote now db).1 = db
  /\ code (respondToBooking user id action driverNote now db).2 <> 200.
Proof.
  intros Hb Hs. unfold respondToBooking. rewrite Hb.
  rewrite (bool_decide_eq_true_2 (Booking.status b <> "pending")) by done.
  repeat case_match; done.
Qed.

(** X13.  A 200 of respondToBooking is for a pending booking on a ride of the
    caller.  Confirming leaves the rides as they are and stamps confirmedAt
    with the time of the request; rejecting adds the booking's seats to the
    free seats of the ride.  Every later answer to the booking, by anyone, is
    refused and changes nothing. *)
Theorem respondToBooking_answers_once user id action driverNote now db :
  code (respondToBooking user id action driverNote now db).2 = 200 ->
  exists b r,
    bookings db !! id = Some b /\ Booking.status b = "pending"
    /\ rides db !! Booking.ride b = Some r /\ Ride.driver r = user
    /\ (action = "confirm"
        /\ rides (respondToBooking user id action driverNote now db).1 = rides db
        /\ (Booking.status <$>
              bookings (respondToBooking user id action driverNote now db).1 !! id)
           = Some "confirmed"
        /\ (Booking.confirmedAt <$>
              bookings (respondToBooking user id action driverNote now db).1 !! id)
           = Some (Some now)
        \/ action = "reject"
           /\ (Booking.status <$>
                 bookings (respondToBooking user id action driverNote now db).1 !! id)
              = Some "rejected"
           /\ (Ride.availableSeats <$>
                 rides (respondToBooking user id action driverNote now db).1
                   !! Booking.ride b)
              = Some (Ride.availableSeats r + Booking.seatsBooked b))
    /\ forall user' action' driverNote' now',
         (respondToBooking user' id action' driverNote' now'
            (respondToBooking user id action driverNote now db).1).1
         = (respondToBooking user id action driverNote now db).1
         /\ code (respondToBooking user' id action' driverNote' now'
                    (respondToBooking user id action driverNote now db).1).2
            <> 200.
Proof.
  intros H200.
  assert (exists b r b',
            bookings db !! id = Some b /\ Booking.status b = "pending"
            /\ rides db !! Booking.ride b = Some r /\ Ride.driver r = user
            /\ (action = "confirm"
                /\ (respondToBooking user id action driverNote now db).1
                   = with_bookings (<[id := b']> (bookings db)) db
                /\ Booking.status b' = "confirmed"
                /\ Booking.confirmedAt b' = Some now
                \/ action = "reject"
                   /\ (respondToBooking user id action driverNote now db).1
                      = with_bookings (<[id := b']> (bookings db))
                          (Ride_restoreSeats (Booking.ride b)
                             (Booking.seatsBooked b) id db)
                   /\ Booking.status b' = "rejected"))
    as (b & r & b' & Hb & Hs & Hr & Hd & Hcase).
  { revert H200. unfold respondToBooking.
    destruct (negb (includes ["confirm"; "reject"] action)) eqn:Ha; [done|].
    apply negb_false_iff, includes_true in Ha.
    destruct (bookings db !! id) as [b|] eqn:Hb; [|done].
    destruct (rides db !! Booking.ride b) as [r|] eqn:Hr; [|done].
    destruct (bool_decide (Ride.driver r <> user)) eqn:Hd; [done|].
    destruct (bool_decide (Booking.status b <> "pending")) eqn:Hs; [done|].
    apply bool_decide_eq_false in Hd, Hs. apply dec_stable in Hd, Hs.
    destruct (bool_decide (action = "confirm")) eqn:Hc.
    - apply bool_decide_eq_true in Hc.
      destruct (Booking_save _ _ _) as [db2|] eqn:Hsave; [|done].
      apply Booking_save_inv in Hsave as [_ ->]. intros _.
      eexists b, r, _. split_and!; try done. left. split_and!; try done.
      + case_match; by status_of_setters.
      + case_match; by destruct b.
    - apply bool_decide_eq_false in Hc.
      destruct (Booking_save _ _ _) as [db2|] eqn:Hsave; [|done].
      apply Booking_save_inv in Hsave as [_ ->]. intros _.
      eexists b, r, _. split_and!; try done. right. split_and!; try done.
      + cases_in Ha; done.
      + case_match; by status_of_setters. }
  exists b, r. split_and!; try done.
  - destruct Hcase as [(-> & -> & Hs' & Hc')|(-> & -> & Hs')]; [left|right];
      split_and!; try done; cbn.
    + by rewrite lookup_insert_eq; cbn; rewrite Hs'.
    + by rewrite lookup_insert_eq; cbn; rewrite Hc'.
    + by rewrite lookup_insert_eq; cbn; rewrite Hs'.
    + rewrite lookup_alter_eq, Hr. cbn. by destruct r.
  - intros user' action' driverNote' now'.
    destruct Hcase as [(_ & -> & Hs' & _)|(_ & -> & Hs')];
      apply (respondToBooking_not_pending _ _ _ _ _ _ b'); cbn;
      try apply lookup_insert_eq; rewrite Hs'; discriminate.
Qed.

(** ** bookRide *)

Lemma bookRide_201_inv user newId body db :
  code (bookRide user newId body db).2 = 201 ->
  exists rideId seats pickup dropoff ride,
    BookRideBody.rideId body = Some rideId
    /\ truthy_Z (BookRideBody.seatsBooked body) = Some seats
    /\ truthy_string (BookRideBody.pickupLocation_address body) = Some pickup
    /\ truthy_string (BookRideBody.dropoffLocation_address body) = Some dropoff
    /\ rides db !! rideId = Some ride
    /\ Ride.status ride = "scheduled"
    /\ 1 <= seats <= Ride.availableSeats ride
    /\ Booking_findOne_active rideId user (bookings db) = false
    /\ Ride.driver ride <> user
    /\ bookings db !! newId = None
    /\ Booking.validate (newBooking user rideId seats pickup dropoff ride body) = true
    /\ Ride.validate
         (Ride.set_passengers (Ride.passengers ride ++ [newId])%list
            (Ride.set_availableSeats (Ride.availableSeats ride - seats) ride)) = true
    /\ bookRide user newId body db
       = (with_rides
            (<[rideId := Ride.set_passengers (Ride.passengers ride ++ [newId])%list
                           (Ride.set_availableSeats
                              (Ride.availableSeats ride - seats) ride)]> (rides db))
            (with_bookings
               (<[newId := newBooking user rideId seats pickup dropoff ride body]>
                  (bookings db)) db),
          json 201 (MessageBooking "Booking request submitted successfully" newId
                      (newBooking user rideId seats pickup dropoff ride body))).
Proof.
  unfold bookRide.
  destruct (BookRideBody.rideId body) as [rideId|]; [|done].
  destruct (truthy_Z _) as [seats|]; [|done].
  destruct (Z.ltb_spec seats 1); [done|].
  destruct (truthy_string (BookRideBody.pickupLocation_address body))
    as [pickup|]; [|done].
  destruct (truthy_string (BookRideBody.dropoffLocation_address body))
    as [dropoff|]; [|done].
  destruct (rides db !! rideId) as [ride|] eqn:Hr; [|done].
  destruct (bool_decide (Ride.status ride <> "scheduled")) eqn:Hs; [done|].
  destruct (Z.ltb_spec (Ride.availableSeats ride) seats); [done|].
  destruct (Booking_findOne_active rideId user (bookings db)) eqn:Ha; [done|].
  destruct (bool_decide (Ride.driver ride = user)) eqn:Hd; [done|].
  destruct (Booking_create _ _ _) as [db1|] eqn:Hc; [|done].
  destruct (Ride_save _ _ _) as [db2|] eqn:Hsave; [|done].
  intros _.
  apply Booking_create_inv in Hc as (Hv & Hfresh & ->).
  apply Ride_save_inv in Hsave as [Hrv ->].
  apply bool_decide_eq_false in Hs, Hd. apply dec_stable in Hs.
  exists rideId, seats, pickup, dropoff, ride.
  split_and!; try done; lia.
Qed.

Lemma validate_cancel_by_passenger reason now b :
  Booking.validate b = true ->
  Booking.validate
    (Booking.set_cancelledAt (Some now)
       (Booking.set_cancellationReason reason
          (Booking.set_cancelledBy (Some "passenger")
             (Booking.set_status "cancelled" b)))) = true.
Proof.
  intros H. destruct b. split_validate H. by decide_strings.
Qed.



(** ** updateRide and updateRideStatus in sequence with other requests *)

Lemma updateRide_200_inv user id updates db :
  code (updateRide user id updates db).2 = 200 ->
  exists ride,
    rides db !! id = Some ride /\ Ride.driver ride = user
    /\ Booking_exists_confirmed id (bookings db) = false
    /\ let ride2 :=
         match truthy_Z (UpdateRideBody.totalSeats updates) with
         | Some n => Ride.set_availableSeats n (applyAllowedUpdates updates ride)
         | None => applyAllowedUpdates updates ride
         end in
       Ride.validate ride2 = true
       /\ (updateRide user id updates db).1
          = with_rides (<[id := ride2]> (rides db)) db.
Proof.
  unfold updateRide.
  destruct (Ride_findOne_owned id user db) as [ride|] eqn:Hf; [|done].
  apply Ride_findOne_owned_inv in Hf as [Hr Hd].
  destruct (Booking_exists_confirmed id (bookings db)) eqn:Hg; [done|].
  destruct (Ride_save _ _ _) as [db1|] eqn:Hsave; [|done].
  apply Ride_save_inv in Hsave as [Hv ->]. intros _.
  exists ride. by split_and!.
Qed.

(** X15.  After an accepted updateRide that carries totalSeats, cancelling a
    pending booking of the ride leaves more free seats than the ride has
    seats: the update sets the free seats to the new total without counting
    the seats that pending bookings hold. *)
Theorem updateRide_then_cancelBooking_exceeds_totalSeats
    driver passenger rid bid updates n reason now db b :
  code (updateRide driver rid updates db).2 = 200 ->
  UpdateRideBody.totalSeats updates = Some n ->
  bookings db !! bid = Some b ->
  Booking.ride b = rid ->
  Booking.passenger b = passenger ->
  Booking.status b = "pending" ->
  Booking.validate b = true ->
  let db1 := (updateRide driver rid updates db).1 in
  let out := cancelBooking passenger bid reason now db1 in
  code out.2 = 200
  /\ exists r, rides out.1 !! rid = Some r
               /\ Ride.totalSeats r = n
               /\ Ride.availableSeats r = n + Booking.seatsBooked b
               /\ Ride.totalSeats r < Ride.availableSeats r.
Proof.
  intros H200 Hn Hb Hrid Hp Hs Hv.
  destruct (updateRide_200_inv _ _ _ _ H200) as (ride & Hr & Hd & Hg & Hv2 & ->).
  rewrite Hn in Hv2 |- *. cbn zeta.
  pose proof (totalSeats_applyAllowedUpdates updates ride n Hn) as Hts.
  assert (Hn0 : truthy_Z (Some n) = Some n).
  { cbn. destruct (Z.eqb_spec n 0) as [->|]; [|done]. exfalso.
    cbn in Hv2. apply Ride_validate_totalSeats in Hv2. lia. }
  rewrite Hn0 in Hv2 |- *.
  pose proof (Booking_validate_seats b Hv) as Hseats.
  unfold cancelBooking. cbn [bookings with_rides]. rewrite Hb, Hp.
  rewrite bool_decide_eq_false_2 by (intros ?; done).
  rewrite Hs.
  rewrite (proj2 (includes_true ["pending"; "confirmed"] "pending"))
    by apply list_elem_of_here.
  cbn [negb]. unfold Booking_save.
  rewrite validate_cancel_by_passenger by done.
  cbn [fst snd code]. split; [done|].
  unfold Ride_restoreSeats. cbn [rides with_rides with_bookings].
  rewrite Hrid, lookup_alter_eq, lookup_insert_eq. cbn [fmap option_fmap option_map].
  eexists. split; [done|].
  destruct (applyAllowedUpdates updates ride); cbn in *. lia.
Qed.

Lemma updateRideStatus_200 user id status now db r :
  rides db !! id = Some r -> Ride.driver r = user ->
  Ride.validate r = true -> status ∈ rideStatuses ->
  updateRideStatus user id status now db
  = ((if bool_decide (status = "cancelled")
      then with_bookings (Booking_cancelMany id now (bookings db))
             (with_rides (<[id := Ride.set_status status r]> (rides db)) db)
      else with_rides (<[id := Ride.set_status status r]> (rides db)) db),
     json 200 (MessageRide "Ride status updated" id (Ride.set_status status r))).
Proof.
  intros Hr Hd Hv Hs. unfold updateRideStatus.
  rewrite (proj2 (includes_true _ _) Hs). cbn [negb].
  rewrite (Ride_findOne_owned_Some _ _ _ _ Hr Hd).
  unfold Ride_save. rewrite Ride_validate_set_status by done.
  by case_bool_decide.
Qed.

Lemma set_status_set_status s s' r :
  Ride.set_status s' (Ride.set_status s r) = Ride.set_status s' r.
Proof. by destruct r. Qed.

Lemma driver_set_status s r : Ride.driver (Ride.set_status s r) = Ride.driver r.
Proof. by destruct r. Qed.

(** X16.  updateRideStatus accepts any of the four statuses from any status.
    A ride that is cancelled and then scheduled again is stored with status
    scheduled and with the free seats, the seats, the passengers, the driver,
    the fare and the departure it had, while each of its pending and
    confirmed bookings stays as the cancellation left it: cancelled, by the
    driver, at the time of the cancellation, its booking data unchanged.
    The other bookings are as they were. *)
Theorem updateRideStatus_cancel_then_reschedule user id now now' db r :
  rides db !! id = Some r -> Ride.driver r = user -> Ride.validate r = true ->
  let db1 := (updateRideStatus user id "cancelled" now db).1 in
  let out := updateRideStatus user id "scheduled" now' db1 in
  code out.2 = 200
  /\ (exists r',
        rides out.1 !! id = Some r'
        /\ Ride.status r' = "scheduled"
        /\ Ride.availableSeats r' = Ride.availableSeats r
        /\ Ride.totalSeats r' = Ride.totalSeats r
        /\ Ride.passengers r' = Ride.passengers r
        /\ Ride.driver r' = Ride.driver r
        /\ Ride.farePerSeat r' = Ride.farePerSeat r
        /\ Ride.departureDate r' = Ride.departureDate r
        /\ Ride.departureTime r' = Ride.departureTime r)
  /\ (forall bid b,
        bookings db !! bid = Some b -> Booking.ride b = id ->
        Booking.status b ∈ ["pending"; "confirmed"] ->
        exists b',
          bookings out.1 !! bid = Some b'
          /\ Booking.status b' = "cancelled"
          /\ Booking.cancelledBy b' = Some "driver"
          /\ Booking.cancelledAt b' = Some now
          /\ snapshot b' = snapshot b)
  /\ (forall bid b,
        bookings db !! bid = Some b ->
        ~ (Booking.ride b = id /\ Booking.status b ∈ ["pending"; "confirmed"]) ->
        bookings out.1 !! bid = Some b).
Proof.
  intros Hr Hd Hv. cbn zeta.
  rewrite (updateRideStatus_200 _ _ "cancelled" _ _ r) by (done || in_list).
  rewrite bool_decide_eq_true_2 by done. cbn [fst].
  rewrite (updateRideStatus_200 _ _ "scheduled" _ _ (Ride.set_status "cancelled" r)).
  - rewrite bool_decide_eq_false_2 by discriminate. cbn.
    split; [done|]. split_and!.
    + rewrite lookup_insert_eq. eexists. split; [reflexivity|]. by destruct r.
    + intros bid b Hb Hrb Hsb. rewrite Booking_cancelMany_lookup, Hb. cbn.
      rewrite bool_decide_eq_true_2 by done.
      eexists. split; [reflexivity|]. by destruct b.
    + intros bid b Hb Hn. rewrite Booking_cancelMany_lookup, Hb. cbn.
      by rewrite bool_decide_eq_false_2.
  - cbn. by rewrite lookup_insert_eq.
  - by rewrite driver_set_status.
  - apply Ride_validate_set_status; [|done].
    unfold Ride.status_enum. apply list_elem_of_further, list_elem_of_further,
      list_elem_of_further, list_elem_of_here.
  - unfold rideStatuses. apply list_elem_of_here.
Qed.

(** ** postRide and deleteRide *)

(** X17.  A 201 of postRide stores one new ride of the caller, whose driver
    profile is approved: scheduled, without passengers, with all of its 1 to 8
    seats free, a fare above 0 and a departure not before the time of the
    request.  Any other answer leaves the database as it was. *)
Theorem postRide_stores_one_ride_or_nothing user newId body now db :
  (code (postRide user newId body now db).2 = 201 ->
   exists profile ride,
     driverProfiles db !! user = Some profile
     /\ DriverProfile.isApproved profile = true
     /\ rides db !! newId = None
     /\ (postRide user newId body now db).1
        = with_rides (<[newId := ride]> (rides db)) db
     /\ Ride.driver ride = user
     /\ Ride.availableSeats ride = Ride.totalSeats ride
     /\ PostRideBody.totalSeats body = Some (Ride.totalSeats ride)
     /\ 1 <= Ride.totalSeats ride <= 8
     /\ PostRideBody.farePerSeat body = Some (Ride.farePerSeat ride)
     /\ 0 < Ride.farePerSeat ride
     /\ now <= Ride.departureDate ride
     /\ Ride.status ride = "scheduled"
     /\ Ride.passengers ride = [])
  /\ (code (postRide user newId body now db).2 <> 201 ->
      (postRide user newId body now db).1 = db).
Proof.
  unfold postRide.
  destruct (truthy_string (PostRideBody.origin_address body)); [|done].
  destruct (truthy_string (PostRideBody.origin_city body)); [|done].
  destruct (truthy_string (PostRideBody.destination_address body)); [|done].
  destruct (truthy_string (PostRideBody.destination_city body)); [|done].
  destruct (truthy_Z (PostRideBody.departureDate body)) as [date|]; [|done].
  destruct (truthy_string (PostRideBody.departureTime body)) as [time|]; [|done].
  destruct (truthy_Z (PostRideBody.totalSeats body)) as [seats|] eqn:Hseats;
    [|done].
  destruct (Z.ltb_spec seats 1); [done|].
  destruct (truthy_Z (PostRideBody.farePerSeat body)) as [fare|] eqn:Hfare;
    [|done].
  destruct (Z.ltb_spec fare 0); [done|].
  destruct (Z.ltb_spec date now); [done|].
  destruct (driverProfiles db !! user) as [profile|] eqn:Hp; [|done].
  destruct (DriverProfile.isApproved profile) eqn:Happroved; [|done].
  cbn [negb].
  destruct (Ride_create _ _ _) as [db1|] eqn:Hc; [|done].
  apply Ride_create_inv in Hc as (Hv & Hfresh & ->).
  apply truthy_Z_inv in Hseats as [Hseats ?], Hfare as [Hfare ?].
  apply Ride_validate_totalSeats in Hv. cbn in Hv.
  split; [|done]. intros _.
  eexists profile, _. split_and!; try done; cbn; lia.
Qed.

Lemma Booking_exists_any_true id (bs : gmap positive Booking.t) j b :
  bs !! j = Some b -> Booking.ride b = id -> Booking_exists_any id bs = true.
Proof. intros Hj Hr. apply bool_decide_eq_true. by exists j, b. Qed.

Lemma deleteRide_200_inv user id db :
  code (deleteRide user id db).2 = 200 ->
  (exists r, rides db !! id = Some r /\ Ride.driver r = user)
  /\ forall j b, bookings db !! j = Some b -> Booking.ride b <> id.
Proof.
  unfold deleteRide.
  destruct (Ride_findOne_owned id user db) as [r|] eqn:Hf; [|done].
  apply Ride_findOne_owned_inv in Hf as [Hr Hd].
  destruct (Booking_exists_any id (bookings db)) eqn:Hb; [done|].
  intros _. split; [by exists r|]. by apply Booking_exists_any_false.
Qed.

(** X18.  deleteRide answers 200 exactly when the ride is the caller's and no
    booking, of whatever status, is on it; it then removes the ride, and
    otherwise changes nothing. *)
Theorem deleteRide_only_without_bookings user id db :
  (code (deleteRide user id db).2 = 200
   <-> (exists r, rides db !! id = Some r /\ Ride.driver r = user)
       /\ forall j b, bookings db !! j = Some b -> Booking.ride b <> id)
  /\ (deleteRide user id db).1
     = (if decide (code (deleteRide user id db).2 = 200)
        then with_rides (delete id (rides db)) db else db).
Proof.
  unfold deleteRide.
  destruct (Ride_findOne_owned id user db) as [r|] eqn:Hf.
  - apply Ride_findOne_owned_inv in Hf as [Hr Hd].
    destruct (Booking_exists_any id (bookings db)) eqn:Hb.
    + split; [|done]. split; [done|]. intros [_ Hnone].
      apply bool_decide_eq_true in Hb as (j & b & Hj & Hrb).
      by destruct (Hnone j b Hj).
    + split; [|done]. split; [|done]. intros _. split; [by exists r|].
      by apply Booking_exists_any_false.
  - split; [|done]. split; [done|]. intros [(r & Hr & Hd) _].
    by rewrite (Ride_findOne_owned_Some _ _ _ _ Hr Hd) in Hf.
Qed.

(** ** updateDriverRating *)

Lemma set_rating_set_rating x y p :
  DriverProfile.set_rating x (DriverProfile.set_rating y p)
  = DriverProfile.set_rating x p.
Proof. by destruct p. Qed.

Lemma reviews_updateDriverRating d db :
  reviews (updateDriverRating d db) = reviews db.
Proof. unfold updateDriverRating. by case_match. Qed.

(** X19.  Recomputing the rating of a driver twice is recomputing it once. *)
Theorem updateDriverRating_idempotent d db :
  updateDriverRating d (updateDriverRating d db) = updateDriverRating d db.
Proof.
  unfold updateDriverRating at 1. rewrite reviews_updateDriverRating.
  unfold updateDriverRating.
  destruct (0 <? Z.of_nat (length (Review_find_visible d (reviews db)))); [|done].
  unfold with_driverProfiles. cbn. f_equal.
  rewrite alter_alter_eq. apply alter_ext. intros p _ . cbn.
  apply set_rating_set_rating.
Qed.


Lemma Review_validate_rating r :
  Review.validate r = true -> (1 <= Review.rating r <= 5)%Q.
Proof.
  unfold Review.validate, Review.in_1_5. rewrite !andb_true_iff.
  intros H. destruct_and? H.
  split; by apply Qle_bool_iff.
Qed.

Lemma sumRatings_bounds_acc l acc :
  Forall (fun r => 1 <= Review.rating r <= 5)%Q l ->
  (acc + inject_Z (Z.of_nat (length l))
   <= fold_left (fun sum r => sum + Review.rating r) l acc
   <= acc + 5 * inject_Z (Z.of_nat (length l)))%Q.
Proof.
  intros H. revert acc. induction H as [|r l [Hlo Hhi] _ IH]; intros acc.
  - cbn [fold_left length]. change (inject_Z (Z.of_nat 0)) with 0%Q.
    split; lra.
  - cbn [fold_left length]. specialize (IH (acc + Review.rating r)%Q).
    rewrite Nat2Z.inj_succ. unfold Z.succ. rewrite inject_Z_plus.
    change (inject_Z 1) with 1%Q. split; lra.
Qed.

Lemma Math_round_bounds (x : Q) (a b : Z) :
  (inject_Z a <= x <= inject_Z b)%Q -> a <= Math_round x <= b.
Proof.
  intros [Hlo Hhi]. unfold Math_round. split.
  - apply Qfloor_resp_le in Hlo. rewrite Qfloor_Z in Hlo.
    etrans; [exact Hlo|]. apply Qfloor_resp_le. lra.
  - assert (x + (1 # 2) < inject_Z (b + 1))%Q as Hlt.
    { rewrite inject_Z_plus. change (inject_Z 1) with 1%Q. lra. }
    pose proof (Qfloor_le (x + (1 # 2))) as Hfl.
    assert (inject_Z (Qfloor (x + (1 # 2))) < inject_Z (b + 1))%Q as H
      by (eapply Qle_lt_trans; eassumption).
    rewrite <- Zlt_Qlt in H. lia.
Qed.

(** X20.  With schema-valid reviews, the rating that updateDriverRating
    stores for a driver with a visible review is between 1 and 5. *)
Theorem updateDriverRating_rating_in_range d db p' :
  reviewsValid db ->
  Review_find_visible d (reviews db) <> [] ->
  driverProfiles (updateDriverRating d db) !! d = Some p' ->
  (1 <= DriverProfile.rating p' <= 5)%Q.
Proof.
  intros Hvalid Hne. unfold updateDriverRating.
  set (l := Review_find_visible d (reviews db)) in *.
  assert (Hall : Forall (fun r => 1 <= Review.rating r <= 5)%Q l).
  { apply Forall_forall. intros r Hin. apply Review_validate_rating.
    unfold l, Review_find_visible in Hin.
    apply list_elem_of_fmap in Hin as ([id r'] & -> & Hin).
    apply elem_of_map_to_list, map_lookup_filter_Some in Hin as [Hin _].
    by eapply Hvalid. }
  assert (0 < Z.of_nat (length l)) as Hlen by (destruct l; [done|cbn; lia]).
  replace (0 <? Z.of_nat (length l)) with true by (symmetry; by apply Z.ltb_lt).
  cbn [driverProfiles with_driverProfiles]. rewrite lookup_alter_eq.
  destruct (driverProfiles db !! d) as [p|]; [|done].
  set (k := Math_round _). cbn. intros [= <-].
  replace (DriverProfile.rating _) with (inject_Z k / 10)%Q by (by destruct p).
  pose proof (sumRatings_bounds_acc l 0%Q Hall) as [Hlo Hhi].
  fold (sumRatings l) in Hlo, Hhi.
  assert (0 < inject_Z (Z.of_nat (length l)))%Q as Hpos.
  { change 0%Q with (inject_Z 0). by rewrite <- Zlt_Qlt. }
  assert (inject_Z 10 <= sumRatings l / inject_Z (Z.of_nat (length l)) * 10
          <= inject_Z 50)%Q as Hmean.
  { split.
    - assert (1 <= sumRatings l / inject_Z (Z.of_nat (length l)))%Q.
      { apply Qle_shift_div_l; [done|]. lra. }
      change (inject_Z 10) with 10%Q. lra.
    - assert (sumRatings l / inject_Z (Z.of_nat (length l)) <= 5)%Q.
      { apply Qle_shift_div_r; [done|]. lra. }
      change (inject_Z 50) with 50%Q. lra. }
  apply Math_round_bounds in Hmean as [Hr1 Hr2]. fold k in Hr1, Hr2.
  rewrite Zle_Qle in Hr1, Hr2.
  change (inject_Z 10) with 10%Q in Hr1. change (inject_Z 50) with 50%Q in Hr2.
  split.
  - apply Qle_shift_div_l; [reflexivity|]. lra.
  - apply Qle_shift_div_r; [reflexivity|]. lra.
Qed.

(** ** The 24 hours of updateReview and deleteReview *)

Lemma hoursAgo_within now rv :
  Qle_bool (hoursAgo now rv) 24 = true <-> now - Review.createdAt rv <= 86400000.
Proof.
  rewrite Qle_bool_iff. unfold hoursAgo.
  change (1000 * 60 * 60) with 3600000.
  unfold Qle, Qdiv, Qmult, Qinv, inject_Z. cbn. lia.
Qed.

Lemma Review_findOne_own_found id user db rv :
  reviews db !! id = Some rv -> Review.reviewer rv = user ->
  Review_findOne_own id user db = Some rv.
Proof.
  intros Hr Hu. unfold Review_findOne_own. rewrite Hr.
  by rewrite bool_decide_eq_true_2.
Qed.

(** X21.  The reviewer can delete a review up to and including 24 hours
    (86400000 ms) after its creation, and updateReview does not answer 400
    then; one millisecond later both are refused with 400 and change
    nothing. *)
Theorem review_closes_after_24_hours user id body now db rv :
  reviews db !! id = Some rv ->
  Review.reviewer rv = user ->
  (now - Review.createdAt rv <= 86400000 ->
   code (deleteReview user id now db).2 = 200
   /\ reviews (deleteReview user id now db).1 !! id = None
   /\ code (updateReview user id body now db).2 <> 400)
  /\ (86400000 < now - Review.createdAt rv ->
      deleteReview user id now db
      = (db, json 400 (Message "Can only delete reviews within 24 hours"))
      /\ updateReview user id body now db
         = (db, json 400 (Message "Can only edit reviews within 24 hours"))).
Proof.
  intros Hr Hu. unfold deleteReview, updateReview.
  rewrite (Review_findOne_own_found _ _ _ _ Hr Hu).
  destruct (Qle_bool (hoursAgo now rv) 24) eqn:Hw.
  - apply hoursAgo_within in Hw. split; [|lia]. intros _. cbn [negb].
    split_and!.
    + done.
    + cbn [fst]. case_bool_decide; rewrite ?reviews_updateDriverRating; cbn;
        apply lookup_delete_eq.
    + by destruct (Review_save _ _ _).
  - split; [|done]. intros Hle. apply hoursAgo_within in Hle. congruence.
Qed.

(** ** updateReview *)


Lemma truthy_Q_inv o q : truthy_Q o = Some q -> o = Some q /\ ~ (q == 0)%Q.
Proof.
  destruct o as [x|]; [|done]. cbn. destruct (Qeq_bool x 0) eqn:He; [done|].
  intros [= ->]. split; [done|]. intros Hq. apply Qeq_bool_iff in Hq. congruence.
Qed.

Lemma truthy_Q_zero o q : o = Some q -> (q == 0)%Q -> truthy_Q o = None.
Proof. intros -> Hq. cbn. apply Qeq_bool_iff in Hq. by rewrite Hq. Qed.

Lemma Review_save_inv id doc db db' :
  Review_save id doc db = Some db' ->
  Review.validate doc = true
  /\ db' = with_reviews (<[id := doc]> (reviews db)) db.
Proof. unfold Review_save. case_match; [|done]. by intros [= <-]. Qed.

Lemma updateReview_cases user id body now db :
  (code (updateReview user id body now db).2 = 200 ->
   exists rv rv',
     reviews db !! id = Some rv
     /\ reviews (updateReview user id body now db).1 !! id = Some rv'
     /\ reviewIdentity rv' = reviewIdentity rv
     /\ Review.rating rv'
        = default (Review.rating rv) (truthy_Q (ReviewBody.rating body))
     /\ Review.in_1_5 (Review.rating rv') = true
     /\ forall j, j <> id ->
          reviews (updateReview user id body now db).1 !! j = reviews db !! j)
  /\ (forall q, ReviewBody.rating body = Some q -> ~ (q == 0)%Q ->
        Review.in_1_5 q = false ->
        (updateReview user id body now db).1 = db
        /\ code (updateReview user id body now db).2 <> 200).
Proof.
  unfold updateReview.
  destruct (Review_findOne_own id user db) as [rv|] eqn:Hf; [|done].
  apply Review_findOne_own_Some in Hf as [Hr Hu].
  destruct (negb (Qle_bool (hoursAgo now rv) 24)); [done|].
  set (rv1 := match truthy_Q (ReviewBody.rating body) with
              | Some rating => Review.set_rating rating rv
              | None => rv
              end).
  set (rv2 := match ReviewBody.comment body with
              | Some comment => Review.set_comment (Some comment) rv1
              | None => rv1
              end).
  set (rv3 := match ReviewBody.aspects body with
              | Some aspects => Review.set_aspects aspects rv2
              | None => rv2
              end).
  assert (Hid : reviewIdentity rv3 = reviewIdentity rv).
  { unfold rv3, rv2, rv1. destruct rv. by repeat case_match. }
  assert (Hrating : Review.rating rv3
                    = default (Review.rating rv) (truthy_Q (ReviewBody.rating body))).
  { unfold rv3, rv2, rv1. destruct rv. by repeat case_match. }
  destruct (Review_save id rv3 db) as [db1|] eqn:Hsave.
  - apply Review_save_inv in Hsave as [Hv ->]. split.
    + intros _. exists rv, rv3. split_and!; try done.
      * cbn [fst]. case_bool_decide; rewrite ?reviews_updateDriverRating; cbn;
          apply lookup_insert_eq.
      * unfold Review.validate in Hv. rewrite !andb_true_iff in Hv.
        by destruct_and? Hv.
      * intros j Hj. cbn [fst].
        case_bool_decide; rewrite ?reviews_updateDriverRating; cbn;
          by rewrite lookup_insert_ne.
    + intros q Hq Hq0 Hrange. exfalso.
      unfold Review.validate in Hv. rewrite !andb_true_iff in Hv.
      destruct_and? Hv.
      rewrite Hrating, Hq in *. cbn in *.
      destruct (Qeq_bool q 0) eqn:He; [by apply Qeq_bool_iff in He|].
      cbn in *. congruence.
  - split; [done|]. by intros.
Qed.

Lemma updateReview_200_frame user id body now db :
  code (updateReview user id body now db).2 = 200 ->
  exists rv rv',
    reviews db !! id = Some rv
    /\ reviews (updateReview user id body now db).1 !! id = Some rv'
    /\ reviewIdentity rv' = reviewIdentity rv
    /\ Review.rating rv'
       = default (Review.rating rv) (truthy_Q (ReviewBody.rating body))
    /\ Review.in_1_5 (Review.rating rv') = true
    /\ forall j, j <> id ->
         reviews (updateReview user id body now db).1 !! j = reviews db !! j.
Proof. apply updateReview_cases. Qed.

(** X22.  A 200 of updateReview leaves the booking, ride, reviewer,
    reviewee, type, visibility and creation time of the review, and every
    other review, as they were; the stored rating is between 1 and 5, and is
    the old one when the request carries none or 0.  A rating outside 1 to 5,
    other than 0, is not answered with 200 and changes nothing. *)
Theorem updateReview_edits_rating_comment_aspects user id body now db :
  (code (updateReview user id body now db).2 = 200 ->
   exists rv rv',
     reviews db !! id = Some rv
     /\ reviews (updateReview user id body now db).1 !! id = Some rv'
     /\ reviewIdentity rv' = reviewIdentity rv
     /\ Review.rating rv'
        = default (Review.rating rv) (truthy_Q (ReviewBody.rating body))
     /\ Review.in_1_5 (Review.rating rv') = true
     /\ forall j, j <> id ->
          reviews (updateReview user id body now db).1 !! j = reviews db !! j)
  /\ (forall q, ReviewBody.rating body = Some q -> ~ (q == 0)%Q ->
        Review.in_1_5 q = false ->
        (updateReview user id body now db).1 = db
        /\ code (updateReview user id body now db).2 <> 200).
Proof. apply updateReview_cases. Qed.

(** ** createReview and canReviewBooking *)


Lemma Review_create_inv newId doc db db' :
  Review_create newId doc db = Some db' ->
  Review.validate doc = true /\ reviews db !! newId = None
  /\ Review_findOne_by (Review.booking doc) (Review.reviewer doc) (reviews db)
     = false
  /\ db' = with_reviews (<[newId := doc]> (reviews db)) db.
Proof.
  unfold Review_create. case_match eqn:H; [|done]. intros [= <-].
  rewrite !andb_true_iff in H. destruct H as [[Hv Hn] Hf].
  apply bool_decide_eq_true in Hn. apply negb_true_iff in Hf. done.
Qed.

Lemma Review_findOne_by_false bookingId user (rs : gmap positive Review.t) :
  Review_findOne_by bookingId user rs = false ->
  forall j r, rs !! j = Some r -> Review.booking r = bookingId ->
              Review.reviewer r <> user.
Proof.
  intros H%bool_decide_eq_false j r Hj Hb Hu. apply H. by exists j, r.
Qed.

Lemma createReview_201_inv user newId bookingId body now db :
  code (createReview user newId bookingId body now db).2 = 201 ->
  exists b r rating,
    truthy_Q (ReviewBody.rating body) = Some rating
    /\ bookings db !! bookingId = Some b
    /\ Booking.status b = "completed"
    /\ rides db !! Booking.ride b = Some r
    /\ (Booking.passenger b = user \/ Ride.driver r = user)
    /\ Review_findOne_by bookingId user (reviews db) = false
    /\ reviews db !! newId = None
    /\ Review.validate (newReview user bookingId b r rating body now) = true
    /\ reviews (createReview user newId bookingId body now db).1
       = <[newId := newReview user bookingId b r rating body now]> (reviews db).
Proof.
  unfold createReview.
  destruct (truthy_Q (ReviewBody.rating body)) as [rating|]; [|done].
  destruct (negb (Qle_bool 1 rating) || negb (Qle_bool rating 5)); [done|].
  destruct (bookings db !! bookingId) as [b|] eqn:Hb; [|done].
  destruct (bool_decide (Booking.status b <> "completed")) eqn:Hs; [done|].
  apply bool_decide_eq_false in Hs. apply dec_stable in Hs.
  destruct (rides db !! Booking.ride b) as [r|] eqn:Hr; [|done].
  destruct (negb (bool_decide (Booking.passenger b = user))
            && negb (bool_decide (Ride.driver r = user))) eqn:Hpart; [done|].
  assert (Booking.passenger b = user \/ Ride.driver r = user) as Hparty.
  { apply andb_false_iff in Hpart as [H|H];
      apply negb_false_iff, bool_decide_eq_true in H; auto. }
  destruct (bool_decide (Booking.passenger b = user)) eqn:Hp;
    (destruct (Review_findOne_by bookingId user (reviews db)) eqn:Hex; [done|]);
    (destruct (Review_create _ _ _) as [db1|] eqn:Hc; [|done]);
    apply Review_create_inv in Hc as (Hv & Hn & _ & ->); intros _;
    exists b, r, rating; unfold newReview; rewrite Hp;
    split_and!; try done;
    cbn [fst]; destruct (bool_decide (_ = "passenger-to-driver"));
    by rewrite ?reviews_updateDriverRating.
Qed.

(** X23.  A 201 of createReview is for a completed booking whose passenger,
    or the driver of whose ride, is the caller, who has not reviewed the
    booking before; it stores one new review by the caller, of the driver
    when the caller is the passenger and of the passenger otherwise, with a
    rating between 1 and 5 and the time of the request. *)
Theorem createReview_by_a_party_of_a_completed_booking
    user newId bookingId body now db :
  code (createReview user newId bookingId body now db).2 = 201 ->
  exists b r rv,
    bookings db !! bookingId = Some b
    /\ Booking.status b = "completed"
    /\ rides db !! Booking.ride b = Some r
    /\ reviews db !! newId = None
    /\ reviews (createReview user newId bookingId body now db).1
       = <[newId := rv]> (reviews db)
    /\ Review.booking rv = bookingId
    /\ Review.reviewer rv = user
    /\ (Booking.passenger b = user
        /\ Review.reviewee rv = Ride.driver r
        /\ Review.reviewType rv = "passenger-to-driver"
        \/ Booking.passenger b <> user /\ Ride.driver r = user
           /\ Review.reviewee rv = Booking.passenger b
           /\ Review.reviewType rv = "driver-to-passenger")
    /\ (1 <= Review.rating rv <= 5)%Q
    /\ Review.createdAt rv = now
    /\ forall j rj, reviews db !! j = Some rj ->
         Review.booking rj = bookingId -> Review.reviewer rj <> user.
Proof.
  intros H201.
  destruct (createReview_201_inv _ _ _ _ _ _ H201)
    as (b & r & rating & Hrating & Hb & Hs & Hr & Hparty & Hex & Hn & Hv & Hrs).
  exists b, r, (newReview user bookingId b r rating body now).
  split_and!; try done.
  - unfold newReview. cbn.
    destruct (decide (Booking.passenger b = user)) as [Hp|Hp].
    + left. by rewrite bool_decide_eq_true_2.
    + right. rewrite bool_decide_eq_false_2 by done.
      destruct Hparty; done.
  - by apply Review_validate_rating in Hv as [? _].
  - by apply Review_validate_rating in Hv as [_ ?].
  - by apply Review_findOne_by_false.
Qed.

Lemma reviews_perform_other op now db :
  match op with
  | Core (CreateReview _ _ _ _) | Core (UpdateReview _ _ _)
  | Core (DeleteReview _ _) => True
  | _ => reviews (perform op now db).1 = reviews db
  end.
Proof.
  destruct op as [[]| |]; try done; cbn [perform handle];
    unfold bookRide, cancelBooking, respondToBooking, updateBookingStatus,
      updateRideStatus, updateRide, postRide, deleteRide;
    open_handler; done.
Qed.

Lemma perform_oneReviewPerBooking op now db :
  oneReviewPerBooking db -> oneReviewPerBooking (perform op now db).1.
Proof.
  intros Hinv.
  pose proof (reviews_perform_other op now db) as Hother.
  destruct op as [[| | | | | |user newId bookingId reviewBody|user id reviewBody
                  |user id]| |]; cbn [perform handle] in *;
    try (unfold oneReviewPerBooking; rewrite Hother; exact Hinv).
  - destruct (decide (code (createReview user newId bookingId reviewBody now db).2 = 201))
      as [H201|Hno].
    + destruct (createReview_201_inv _ _ _ _ _ _ H201)
        as (b & r & rating & _ & _ & _ & _ & _ & Hex & Hn & _ & Hrs).
      pose proof (Review_findOne_by_false _ _ _ Hex) as Hnone.
      intros i j ri rj. rewrite Hrs, !lookup_insert.
      repeat case_decide; subst; intros Hi Hj Hb Hu; try done.
      * injection Hi as <-. cbn in Hb, Hu. by destruct (Hnone j rj Hj).
      * injection Hj as <-. cbn in Hb, Hu. by destruct (Hnone i ri Hi).
      * by eapply Hinv.
    + replace (createReview user newId bookingId reviewBody now db).1 with db; [done|].
      revert Hno. unfold createReview, Review_create. by open_handler.
  - destruct (decide (code (updateReview user id reviewBody now db).2 = 200))
      as [H200|Hno].
    + destruct (updateReview_200_frame _ _ _ _ _ H200)
        as (rv & rv' & Hrv & Hrv' & Hid & _ & _ & Hframe).
      injection Hid as Hbk _ Hrr _ _ _ _.
      intros i j ri rj Hi Hj Hb Hu.
      destruct (decide (i = id)) as [->|Hi'], (decide (j = id)) as [->|Hj'];
        try done.
      * rewrite Hframe in Hj by done. rewrite Hrv' in Hi. injection Hi as <-.
        eapply Hinv; [exact Hrv|exact Hj|congruence|congruence].
      * rewrite Hframe in Hi by done. rewrite Hrv' in Hj. injection Hj as <-.
        eapply Hinv; [exact Hi|exact Hrv|congruence|congruence].
      * rewrite Hframe in Hi, Hj by done. by eapply Hinv.
    + replace (updateReview user id reviewBody now db).1 with db; [done|].
      revert Hno. unfold updateReview, Review_save. by open_handler.
  - unfold deleteReview. open_handler; try done.
    all: unfold oneReviewPerBooking; rewrite ?reviews_updateDriverRating;
      cbn [reviews with_reviews]; intros i j ri rj;
      rewrite !lookup_delete_Some; intros [_ Hi] [_ Hj]; by eapply Hinv.
Qed.

Lemma Review_findOne_of_by bookingId user (rs : gmap positive Review.t) :
  Review_findOne_of bookingId user rs = None
  <-> Review_findOne_by bookingId user rs = false.
Proof.
  unfold Review_findOne_of, Review_findOne_by.
  rewrite bool_decide_eq_false. split.
  - intros Hhead (j & r & Hj & Hb & Hu).
    assert ((j, r) ∈ map_to_list
              (filter (fun kr : positive * Review.t =>
                         Review.booking kr.2 = bookingId
                         /\ Review.reviewer kr.2 = user) rs)) as Hin.
    { apply elem_of_map_to_list, map_lookup_filter_Some. by split. }
    destruct (map_to_list _) as [|x l]; [by apply elem_of_nil in Hin|done].
  - intros Hno.
    destruct (map_to_list _) as [|[j r] l] eqn:Hl; [done|]. exfalso.
    assert ((j, r) ∈ map_to_list
              (filter (fun kr : positive * Review.t =>
                         Review.booking kr.2 = bookingId
                         /\ Review.reviewer kr.2 = user) rs)) as Hin.
    { rewrite Hl. apply list_elem_of_here. }
    apply elem_of_map_to_list, map_lookup_filter_Some in Hin as [Hj [Hb Hu]].
    apply Hno. by exists j, r.
Qed.

(** X24.  For a request body that passes the review schema and an unused
    review id, canReviewBooking answers canReview: true exactly when
    createReview answers 201, and the reviewType it announces is the type of
    the review that createReview stores. *)
Theorem canReviewBooking_agrees_with_createReview
    user newId bookingId body now db rating :
  ReviewBody.rating body = Some rating ->
  Review.in_1_5 rating = true ->
  maxlength 500 (ReviewBody.comment body) = true ->
  (let a := default Review.noAspects (ReviewBody.aspects body) in
   Review.aspect_ok (Review.punctuality a)
   && Review.aspect_ok (Review.behavior a)
   && Review.aspect_ok (Review.communication a)
   && Review.aspect_ok (Review.drivingSkills a)
   && Review.aspect_ok (Review.vehicleCondition a) = true) ->
  reviews db !! newId = None ->
  (code (createReview user newId bookingId body now db).2 = 201
   <-> exists ty, canReviewBooking user bookingId db
                  = CanReview 200 true None (Some ty) None)
  /\ forall ty,
       canReviewBooking user bookingId db = CanReview 200 true None (Some ty) None ->
       Review.reviewType <$>
         reviews (createReview user newId bookingId body now db).1 !! newId
       = Some ty.
Proof.
  intros Hrating Hrange Hcomment Haspects Hfresh. cbn zeta in Haspects.
  rewrite !andb_true_iff in Haspects. destruct_and? Haspects.
  assert (Htruthy : truthy_Q (ReviewBody.rating body) = Some rating).
  { rewrite Hrating. cbn. destruct (Qeq_bool rating 0) eqn:Hz; [|done].
    apply Qeq_bool_iff in Hz. unfold Review.in_1_5 in Hrange.
    apply andb_true_iff in Hrange as [Hlo%Qle_bool_iff _]. lra. }
  assert (Hguard : negb (Qle_bool 1 rating) || negb (Qle_bool rating 5) = false).
  { unfold Review.in_1_5 in Hrange. apply andb_true_iff in Hrange as [-> ->].
    done. }
  unfold createReview, canReviewBooking. rewrite Htruthy, Hguard.
  destruct (bookings db !! bookingId) as [b|]; [|split; [split|]; [done|by intros [? ?]|done]].
  destruct (rides db !! Booking.ride b) as [r|];
    [|destruct (bool_decide (Booking.status b <> "completed"));
      (split; [split|]; [done|by intros [? ?]|done])].
  destruct (bool_decide (Booking.status b <> "completed"));
    [destruct (negb _ && negb _); (split; [split|]; [done|by intros [? ?]|done])|].
  destruct (bool_decide (Booking.passenger b = user)) eqn:Hp,
           (bool_decide (Ride.driver r = user)) eqn:Hd; cbn [negb andb].
  4: split; [split|]; [done|by intros [? ?]|done].
  all: destruct (Review_findOne_by bookingId user (reviews db)) eqn:Hby.
  all: try (assert (Review_findOne_of bookingId user (reviews db) <> None) as Hof
              by (rewrite Review_findOne_of_by; congruence);
            destruct (Review_findOne_of bookingId user (reviews db)); [|done];
            split; [split|]; [done|by intros [? ?]|done]).
  all: apply Review_findOne_of_by in Hby as Hof; rewrite Hof.
  all: unfold Review_create; cbn [Review.booking Review.reviewer]; rewrite Hby.
  all: unfold Review.validate; cbn -[maxlength includes Review.in_1_5 Review.aspect_ok].
  all: rewrite Hrange, Hcomment.
  all: repeat match goal with H : Review.aspect_ok _ = true |- _ =>
                rewrite H; clear H end.
  all: rewrite (proj2 (includes_true Review.reviewType_enum _))
    by (unfold Review.reviewType_enum;
        repeat first [apply list_elem_of_here | apply list_elem_of_further]).
  all: rewrite (bool_decide_eq_true_2 (reviews db !! newId = None)) by done.
  all: cbn [andb negb fst snd code].
  all: split; [split; [by eexists|done]|].
  all: intros ty [= <-]; decide_strings; rewrite ?reviews_updateDriverRating;
    cbn [reviews with_reviews]; by rewrite lookup_insert_eq.
Qed.

(** ** The role middleware *)

Lemma existsb_includes userRoles roles :
  existsb (fun role => includes userRoles role) roles = true
  <-> exists role, role ∈ roles /\ role ∈ userRoles.
Proof.
  rewrite existsb_exists. split.
  - intros (role & Hin & Hinc). exists role.
    split; [by apply list_elem_of_In|by apply includes_true].
  - intros (role & Hin & Hinc). exists role.
    split; [by apply list_elem_of_In|by apply includes_true].
Qed.

Lemma forallb_includes userRoles roles :
  forallb (fun role => includes userRoles role) roles = true
  <-> forall role, role ∈ roles -> role ∈ userRoles.
Proof.
  rewrite forallb_forall. split.
  - intros H role Hin. apply includes_true, H. by apply list_elem_of_In.
  - intros H role Hin. apply includes_true, H. by apply list_elem_of_In.
Qed.

(** X25.  requireRole lets a request through exactly when its user has one
    of the required roles, requireAllRoles exactly when it has all of them;
    both answer 401 when the request has no user.  With no required role,
    requireRole refuses every user with 403 and requireAllRoles lets every
    user through; with at least one, passing requireAllRoles implies passing
    requireRole. *)
Theorem requireRole_any_requireAllRoles_every roles userRoles :
  (requireRole roles (Some userRoles) = next
   <-> exists role, role ∈ roles /\ role ∈ userRoles)
  /\ (requireAllRoles roles (Some userRoles) = next
      <-> forall role, role ∈ roles -> role ∈ userRoles)
  /\ (exists res, requireRole roles None = respond res /\ code res = 401)
  /\ (exists res, requireAllRoles roles None = respond res /\ code res = 401)
  /\ (exists res, requireRole [] (Some userRoles) = respond res /\ code res = 403)
  /\ requireAllRoles [] (Some userRoles) = next
  /\ (roles <> [] -> requireAllRoles roles (Some userRoles) = next ->
      requireRole roles (Some userRoles) = next).
Proof.
  assert (Hany : requireRole roles (Some userRoles) = next
                 <-> exists role, role ∈ roles /\ role ∈ userRoles).
  { rewrite <- existsb_includes. unfold requireRole.
    by destruct (existsb _ roles). }
  assert (Hall : requireAllRoles roles (Some userRoles) = next
                 <-> forall role, role ∈ roles -> role ∈ userRoles).
  { rewrite <- forallb_includes. unfold requireAllRoles.
    by destruct (forallb _ roles). }
  split_and!; try done.
  - by eexists.
  - by eexists.
  - by eexists.
  - intros Hne Hevery. apply Hany. destruct roles as [|role roles]; [done|].
    exists role. split; [apply list_elem_of_here|].
    apply (proj1 Hall Hevery). apply list_elem_of_here.
Qed.

(** ** getDriverHistory and the counters of the profile *)

Lemma sumOver_empty w : sumOver w ∅ = 0.
Proof. apply map_fold_empty. Qed.

Lemma sumOver_insert_fresh w bs i b :
  bs !! i = None -> sumOver w (<[i := b]> bs) = sumOver w bs + w b.
Proof.
  intros Hi. unfold sumOver. rewrite map_fold_insert_L; [done| |done].
  intros. lia.
Qed.

Lemma sumOver_delete w bs i b :
  bs !! i = Some b -> sumOver w bs = sumOver w (delete i bs) + w b.
Proof.
  intros Hi. unfold sumOver. rewrite (map_fold_delete_L _ _ i b bs); [done| |done].
  intros. lia.
Qed.

Lemma sumOver_insert w bs i b b' :
  bs !! i = Some b -> sumOver w (<[i := b']> bs) = sumOver w bs - w b + w b'.
Proof.
  intros Hi. rewrite <- insert_delete_eq.
  rewrite sumOver_insert_fresh by apply lookup_delete_eq.
  rewrite (sumOver_delete w bs i b Hi). lia.
Qed.

(** Two states of the bookings with equal sums: every booking of the first
    is in the second with the weight it had, and what is new weighs 0. *)
Lemma sumOver_evolve w w' (bs bs' : gmap positive Booking.t) :
  (forall id b, bs !! id = Some b ->
     exists b', bs' !! id = Some b' /\ w' b' = w b) ->
  (forall id b', bs' !! id = Some b' -> bs !! id = None -> w' b' = 0) ->
  sumOver w' bs' = sumOver w bs.
Proof.
  revert bs. induction bs' as [|i x m Hm IH] using map_ind; intros bs Hold Hnew.
  - rewrite sumOver_empty. assert (bs = ∅) as ->; [|by rewrite sumOver_empty].
    apply map_empty. intros id. destruct (bs !! id) as [b|] eqn:Hb; [|done].
    destruct (Hold id b Hb) as (b' & Hb' & _). by rewrite lookup_empty in Hb'.
  - rewrite sumOver_insert_fresh by done.
    rewrite (IH (delete i bs)).
    + destruct (bs !! i) as [b|] eqn:Hb.
      * rewrite (sumOver_delete w bs i b Hb).
        destruct (Hold i b Hb) as (b' & Hb' & Hw).
        rewrite lookup_insert_eq in Hb'. injection Hb' as <-. lia.
      * rewrite delete_id by done.
        rewrite (Hnew i x); [lia|apply lookup_insert_eq|done].
    + intros id b Hb. apply lookup_delete_Some in Hb as [Hne Hb].
      destruct (Hold id b Hb) as (b' & Hb' & Hw).
      rewrite lookup_insert_ne in Hb' by done. by exists b'.
    + intros id b' Hb' Hn. apply (Hnew id).
      * rewrite lookup_insert_ne; [done|]. intros ->. congruence.
      * apply lookup_delete_None in Hn as [->|Hn]; [congruence|done].
Qed.

Lemma Booking_aggregate_byStatus_lookup rideIds bs s :
  default (0, 0) (Booking_aggregate_byStatus rideIds bs !! s)
  = (sumOver (countIn rideIds s) bs, sumOver (fareIn rideIds s) bs).
Proof.
  unfold Booking_aggregate_byStatus. revert s.
  apply (map_fold_weak_ind
           (fun stats m => forall s,
              default (0, 0) (stats !! s)
              = (sumOver (countIn rideIds s) m, sumOver (fareIn rideIds s) m))).
  - intros s. by rewrite lookup_empty, !sumOver_empty.
  - intros i b m stats Hi IH s.
    rewrite !sumOver_insert_fresh by done.
    destruct (decide (Booking.ride b ∈ rideIds)) as [Hin|Hout].
    + destruct (decide (Booking.status b = s)) as [<-|Hs].
      * rewrite lookup_insert_eq. cbn [default].
        rewrite (IH (Booking.status b)). cbn [fst snd].
        replace (countIn rideIds (Booking.status b) b) with 1
          by (unfold countIn; by rewrite decide_True).
        replace (fareIn rideIds (Booking.status b) b) with (Booking.totalFare b)
          by (unfold fareIn; by rewrite decide_True).
        done.
      * rewrite lookup_insert_ne by done. rewrite IH.
        replace (countIn rideIds s b) with 0
          by (unfold countIn; by rewrite decide_False by (intros [? ?]; done)).
        replace (fareIn rideIds s b) with 0
          by (unfold fareIn; by rewrite decide_False by (intros [? ?]; done)).
        f_equal; lia.
    + rewrite IH.
      replace (countIn rideIds s b) with 0
        by (unfold countIn; by rewrite decide_False by (intros [? ?]; done)).
      replace (fareIn rideIds s b) with 0
        by (unfold fareIn; by rewrite decide_False by (intros [? ?]; done)).
      f_equal; lia.
Qed.

Lemma countersAgree_sums user db :
  countersAgree user db
  <-> forall p, driverProfiles db !! user = Some p ->
        DriverProfile.totalRides p
        = sumOver (countIn (Ride_ids_of user (rides db)) "completed") (bookings db)
        /\ DriverProfile.totalEarnings p
           = sumOver (fareIn (Ride_ids_of user (rides db)) "completed") (bookings db).
Proof.
  unfold countersAgree, getDriverHistory. split.
  - intros H p Hp. rewrite Hp in H. specialize (H _ eq_refl). cbn in H.
    by rewrite Booking_aggregate_byStatus_lookup in H.
  - intros H h. destruct (driverProfiles db !! user) as [p|]; [|done].
    intros [= <-]. cbn. rewrite Booking_aggregate_byStatus_lookup. by apply H.
Qed.

Lemma elem_of_Ride_ids_of user rs id :
  id ∈ Ride_ids_of user rs <-> exists r, rs !! id = Some r /\ Ride.driver r = user.
Proof.
  unfold Ride_ids_of. rewrite elem_of_dom. unfold is_Some.
  setoid_rewrite map_lookup_filter_Some. naive_solver.
Qed.

(** A stored booking that is completed after a request was completed before
    it, or the request is its completion. *)
Lemma perform_completed_before op now db id b b' :
  bookings db !! id = Some b ->
  bookings (perform op now db).1 !! id = Some b' ->
  Booking.status b' = "completed" ->
  Booking.status b = "completed"
  \/ (exists user, op = Core (UpdateBookingStatus user id "completed"))
     /\ code (perform op now db).2 = 200.
Proof.
  intros Hb.
  destruct op as [[]| |]; cbn [perform handle];
    unfold bookRide, cancelBooking, respondToBooking, updateBookingStatus,
      updateRideStatus, updateRide, createReview, Review_create, updateReview,
      Review_save, deleteReview, postRide, deleteRide;
    open_handler; intros Hb' Hc;
    try (left; congruence).
  all: try (rewrite lookup_insert in Hb'; case_decide;
            [subst; injection Hb' as <-; revert Hc; status_of_setters;
             first [discriminate | intros ->; right; split; [by eexists|done]
                   | intros ->; by repeat case_bool_decide]
            |left; congruence]).
  - left. rewrite Booking_cancelMany_lookup, Hb in Hb'. cbn in Hb'.
    injection Hb' as <-. case_bool_decide; [|done].
    revert Hc. unfold cancelledByDriver. by status_of_setters.
Qed.

(** A request completes one booking, or none: the 200 of
    updateBookingStatus with target completed, or any other outcome. *)
Lemma perform_completion_cases op now db :
  bookingsValid db ->
  (completionFree db (perform op now db).1
   /\ forall id b b',
        bookings db !! id = Some b ->
        bookings (perform op now db).1 !! id = Some b' ->
        Booking.status b' = "completed" -> Booking.status b = "completed")
  \/ exists user id b r,
       op = Core (UpdateBookingStatus user id "completed")
       /\ bookings db !! id = Some b
       /\ Booking.status b = "dropped-off"
       /\ rides db !! Booking.ride b = Some r /\ Ride.driver r = user
       /\ (perform op now db).1
          = with_bookings
              (<[id := afterSwitch "completed" now
                         (Booking.set_status "completed" b)]> (bookings db))
              (DriverProfile_incStats user (Booking.totalFare b) db).
Proof.
  intros Hvalid.
  assert (Hother :
    (forall user id, op <> Core (UpdateBookingStatus user id "completed")) ->
    completionFree db (perform op now db).1 ->
    completionFree db (perform op now db).1
    /\ forall id b b',
         bookings db !! id = Some b ->
         bookings (perform op now db).1 !! id = Some b' ->
         Booking.status b' = "completed" -> Booking.status b = "completed").
  { intros Hop Hfree. split; [done|]. intros id b b' Hb Hb' Hc.
    destruct (perform_completed_before op now db id b b' Hb Hb' Hc)
      as [?|[(u & Heq) _]]; [done|]. by destruct (Hop u id). }
  destruct op as [[]| |]; cbn [perform handle] in *.
  - left. apply Hother; [done|]. apply bookRide_completionFree.
  - left. apply Hother; [done|]. apply cancelBooking_completionFree.
  - left. apply Hother; [done|]. apply respondToBooking_completionFree.
  - destruct (decide (status = "completed"
                      /\ code (updateBookingStatus user id status now db).2 = 200))
      as [[-> H200]|Hno].
    + right.
      destruct (updateBookingStatus_200_result _ _ _ _ _ H200)
        as (b & r & Hb & Hr & Hu & Hn & Hout).
      exists user, id, b, r. split_and!; try done.
      unfold allowedNext, progressChain in Hn.
      repeat (apply elem_of_cons in Hn as [Hn|Hn]; [by injection Hn|]).
      by apply elem_of_nil in Hn.
    + left.
      destruct (updateBookingStatus_completionFree user id status now db Hvalid)
        as [Hfree|[-> H200]]; [|by destruct Hno].
      split; [done|]. intros i b b' Hb Hb' Hc.
      destruct (perform_completed_before
                  (Core (UpdateBookingStatus user id status)) now db i b b'
                  Hb Hb' Hc) as [?|[(u & [= _ _ ->]) H200]]; [done|].
      by destruct Hno.
  - left. apply Hother; [done|]. apply updateRideStatus_completionFree.
  - left. apply Hother; [done|]. apply updateRide_completionFree.
  - left. apply Hother; [done|]. apply createReview_completionFree.
  - left. apply Hother; [done|]. apply updateReview_completionFree.
  - left. apply Hother; [done|]. apply deleteReview_completionFree.
  - left. apply Hother; [done|].
    unfold postRide. open_handler; try apply completionFree_refl.
    by apply completionFree_same.
  - left. apply Hother; [done|].
    unfold deleteRide. open_handler; try apply completionFree_refl.
    by apply completionFree_same.
Qed.

Lemma perform_bookingsValid op now db :
  bookingsValid db -> bookingsValid (perform op now db).1.
Proof.
  intros Hvalid. destruct op as [req| |]; cbn [perform].
  - by apply bookingsValid_handle.
  - unfold postRide. by open_handler.
  - unfold deleteRide. by open_handler.
Qed.

Lemma afterSwitch_paths status now b :
  Booking.totalFare (afterSwitch status now (Booking.set_status status b))
  = Booking.totalFare b
  /\ Booking.ride (afterSwitch status now (Booking.set_status status b))
     = Booking.ride b
  /\ Booking.status (afterSwitch status now (Booking.set_status status b))
     = status.
Proof. unfold afterSwitch. destruct b. by repeat case_bool_decide. Qed.

(** The weight of a booking in the completed group depends on whether its
    ride is one of the driver's. *)
Lemma weights_member ids ids' b :
  (Booking.ride b ∈ ids' <-> Booking.ride b ∈ ids) ->
  countIn ids' "completed" b = countIn ids "completed" b
  /\ fareIn ids' "completed" b = fareIn ids "completed" b.
Proof.
  intros H. unfold countIn, fareIn.
  destruct (decide (Booking.ride b ∈ ids' /\ _)) as [[? ?]|Hn],
           (decide (Booking.ride b ∈ ids /\ _)) as [[? ?]|Hn']; try done.
  - destruct Hn'. split; [by apply H|done].
  - destruct Hn. split; [by apply H|done].
Qed.

Lemma weights_not_completed ids b :
  Booking.status b <> "completed" ->
  countIn ids "completed" b = 0 /\ fareIn ids "completed" b = 0.
Proof.
  intros H. unfold countIn, fareIn.
  by rewrite !decide_False by (intros [? ?]; done).
Qed.

Lemma perform_countersAgree user op now db :
  bookingsValid db -> bookingsOnRides db ->
  countersAgree user db -> countersAgree user (perform op now db).1.
Proof.
  intros Hvalid Hon. rewrite !countersAgree_sums. intros Hagree p' Hp'.
  destruct (perform_completion_cases op now db Hvalid)
    as [[[Hstats _] Hcompleted]
       |(driver & id & b & r & -> & Hb & Hs & Hr & Hd & Hout)].
  - (* no completion: the profile and both sums are as before *)
    specialize (Hstats user). rewrite Hp' in Hstats.
    destruct (driverProfiles db !! user) as [p|] eqn:Hp; [|done].
    injection Hstats as Hrides Hearn.
    destruct (Hagree p eq_refl) as [Hr He].
    destruct (perform_bookingsEvolve op now db) as [Hold Hnew].
    destruct (perform_ridesEvolve op now db) as [Hrides_old Hrides_new].
    assert (Hweights : forall id b, bookings db !! id = Some b ->
              exists b', bookings (perform op now db).1 !! id = Some b'
                /\ countIn (Ride_ids_of user (rides (perform op now db).1))
                     "completed" b'
                   = countIn (Ride_ids_of user (rides db)) "completed" b
                /\ fareIn (Ride_ids_of user (rides (perform op now db).1))
                     "completed" b'
                   = fareIn (Ride_ids_of user (rides db)) "completed" b).
    { intros id b Hb. destruct (Hold id b Hb) as (b' & Hb' & Hsnap & Hst & Hsame).
      exists b'. split; [done|].
      destruct (decide (Booking.status b' = "completed")) as [Hc|Hc].
      - pose proof (Hcompleted id b b' Hb Hb' Hc) as Hbc.
        rewrite (Hsame (eq_trans Hc (eq_sym Hbc))).
        apply weights_member. rewrite !elem_of_Ride_ids_of.
        destruct (Hon id b Hb) as [r Hr0].
        destruct (Hrides_old _ r Hr0) as [(r' & Hr' & Hdrv & _)|[_ Hnone]];
          [|by destruct (Hnone id b Hb)].
        rewrite Hr0, Hr'.
        split; intros (? & [= <-] & ?); eexists; split; eauto; congruence.
      - destruct (weights_not_completed
                    (Ride_ids_of user (rides (perform op now db).1)) b' Hc)
          as [-> ->].
        assert (Booking.status b <> "completed") as Hbc.
        { intros Hbc. apply Hc. destruct Hst as [->|Hedge]; [done|].
          apply statusGraph_source_active in Hedge. exfalso. apply Hedge.
          rewrite Hbc. apply list_elem_of_here. }
        by destruct (weights_not_completed
                       (Ride_ids_of user (rides db)) b Hbc) as [-> ->]. }
    assert (Hfresh : forall id b', bookings (perform op now db).1 !! id = Some b' ->
              bookings db !! id = None -> Booking.status b' <> "completed").
    { intros id b' Hb' Hn. destruct (Hnew id b' Hb' Hn) as (-> & _). done. }
    rewrite Hrides, Hearn, Hr, He. split; symmetry; apply sumOver_evolve.
    + intros id b Hb. destruct (Hweights id b Hb) as (b' & ? & ? & ?). by exists b'.
    + intros id b' Hb' Hn. by apply weights_not_completed, (Hfresh id).
    + intros id b Hb. destruct (Hweights id b Hb) as (b' & ? & ? & ?). by exists b'.
    + intros id b' Hb' Hn. by apply weights_not_completed, (Hfresh id).
  - (* the completion of [b] by its driver *)
    cbn [perform handle] in *. rewrite Hout in Hp' |- *.
    cbn [rides bookings driverProfiles with_bookings DriverProfile_incStats
         with_driverProfiles] in *.
    destruct (afterSwitch_paths "completed" now b) as (Hfare & Hride & Hstatus).
    rewrite !(sumOver_insert _ _ _ b) by done.
    destruct (weights_not_completed (Ride_ids_of user (rides db)) b) as [-> ->];
      [by rewrite Hs|].
    unfold countIn at 2, fareIn at 2. rewrite Hfare, Hride, Hstatus.
    destruct (decide (user = driver)) as [->|Hne].
    + rewrite lookup_alter_eq in Hp'.
      destruct (driverProfiles db !! driver) as [p|] eqn:Hp; [|done].
      injection Hp' as <-. destruct (Hagree p eq_refl) as [Hrides Hearn].
      rewrite !decide_True
        by (split; [apply elem_of_Ride_ids_of; by exists r|done]).
      destruct p; cbn in *. lia.
    + rewrite lookup_alter_ne in Hp' by done.
      destruct (Hagree p' Hp') as [Hrides Hearn].
      rewrite !decide_False.
      * lia.
      * intros [(r' & Hr' & Hd')%elem_of_Ride_ids_of _]. congruence.
      * intros [(r' & Hr' & Hd')%elem_of_Ride_ids_of _]. congruence.
Qed.

(** ** Sequences of requests *)

Lemma performAll_invariant (P : DB -> Prop) :
  (forall op now db, P db -> P (perform op now db).1) ->
  forall ops db, P db -> P (performAll ops db).
Proof.
  intros Hstep ops. induction ops as [|[op now] ops IH]; intros db HP; [done|].
  cbn [performAll foldl fst snd]. apply IH. by apply Hstep.
Qed.

(** X1.  Across any sequence of write requests a stored booking stays
    stored, keeps the paths written at its creation (ride, passenger, seats,
    pickup and dropoff address, fare per seat, total fare, payment method and
    passenger note), and its status moves only along the edges of the status
    graph: from pending to confirmed, rejected or cancelled, from confirmed to
    cancelled, and along the progress chain. *)
Theorem booking_status_moves_along_the_graph ops db j b :
  bookings db !! j = Some b ->
  exists b',
    bookings (performAll ops db) !! j = Some b'
    /\ snapshot b' = snapshot b
    /\ rtc statusEdge (Booking.status b) (Booking.status b').
Proof.
  revert db b. induction ops as [|[op now] ops IH]; intros db b Hb.
  - exists b. by split_and!.
  - cbn [performAll foldl fst snd].
    destruct (perform_snapshot op now db j b Hb) as (b1 & Hb1 & Hs1).
    destruct (IH _ b1 Hb1) as (b' & Hb' & Hs' & Hpath).
    exists b'. split_and!; [done|congruence|].
    destruct (perform_status op now db j b b1 Hb Hb1) as [[->|Hedge] _];
      [done|]. by eapply rtc_l.
Qed.

(** X2.  A booking that is completed, cancelled or rejected is stored
    unchanged after any sequence of write requests. *)
Theorem terminal_booking_is_frozen ops db j b :
  bookings db !! j = Some b ->
  Booking.status b ∈ terminalStatuses ->
  bookings (performAll ops db) !! j = Some b.
Proof.
  revert db. induction ops as [|[op now] ops IH]; intros db Hb Ht; [done|].
  cbn [performAll foldl fst snd]. apply IH; [|done].
  destruct (perform_snapshot op now db j b Hb) as (b1 & Hb1 & _).
  destruct (perform_status op now db j b b1 Hb Hb1) as [_ Hfrozen].
  by rewrite Hb1, (Hfrozen Ht).
Qed.

(** X3.  When every booking is on a stored ride, the ride of a stored booking
    is still stored after any sequence of write requests, and deleteRide on it
    is refused for every user, whatever the status of the booking. *)
Theorem booked_ride_is_never_deleted ops db j b :
  bookingsOnRides db ->
  bookings db !! j = Some b ->
  is_Some (rides (performAll ops db) !! Booking.ride b)
  /\ forall user, code (deleteRide user (Booking.ride b) (performAll ops db)).2
                  <> 200.
Proof.
  revert db b. induction ops as [|[op now] ops IH]; intros db b Hinv Hb.
  - split; [by apply (Hinv j)|]. intros user H200.
    apply deleteRide_200_inv in H200 as [_ Hnone].
    by destruct (Hnone j b Hb).
  - cbn [performAll foldl fst snd].
    destruct (perform_snapshot op now db j b Hb) as (b1 & Hb1 & Hs1).
    destruct (snapshot_ride_passenger _ _ Hs1) as [<- _].
    apply IH; [|done]. by apply perform_bookingsOnRides.
Qed.

(** X4.  No sequence of write requests gives a passenger two bookings on one
    ride that are neither cancelled nor rejected. *)
Theorem one_active_booking_kept ops db :
  oneActiveBooking db -> oneActiveBooking (performAll ops db).
Proof. apply performAll_invariant, perform_oneActiveBooking. Qed.

(** X5.  Every booking being on a stored ride is kept by any sequence of
    write requests: bookRide books stored rides only, and deleteRide removes
    no ride that a booking names. *)
Theorem bookings_stay_on_stored_rides ops db :
  bookingsOnRides db -> bookingsOnRides (performAll ops db).
Proof. apply performAll_invariant, perform_bookingsOnRides. Qed.

(** X6.  With schema-valid bookings, no sequence of write requests, served
    one after the other, takes the free seats of a ride below zero. *)
Theorem available_seats_never_negative ops db :
  bookingsValid db -> seatsNonNegative db ->
  seatsNonNegative (performAll ops db).
Proof.
  intros Hv Hs.
  apply (performAll_invariant (fun db => bookingsValid db /\ seatsNonNegative db));
    [|done].
  intros op now db0 [Hv0 Hs0]. split.
  - by apply perform_bookingsValid.
  - by apply perform_seatsNonNegative.
Qed.

(** X7.  No sequence of write requests stores two reviews of one booking by
    one reviewer. *)
Theorem one_review_per_booking_kept ops db :
  oneReviewPerBooking db -> oneReviewPerBooking (performAll ops db).
Proof. apply performAll_invariant, perform_oneReviewPerBooking. Qed.

(** X8.  Fares and counters are whole numbers.  As long as the amounts of
    every database that a sequence of write requests passes through are
    safe, so that the increments of the counters and the sums of the
    aggregate are exact in whatever order they are made, the two counters of
    a driver profile and the statistics that getDriverHistory aggregates from
    the completed bookings on the driver's rides agree after the sequence,
    when they agree before it, the bookings are schema-valid and every
    booking is on a stored ride. *)
Theorem getDriverHistory_counters_agree ops user db :
  bookingsValid db -> bookingsOnRides db ->
  forallb amountsSafe (states ops db) = true ->
  countersAgree user db ->
  countersAgree user (performAll ops db).
Proof.
  intros Hv Hon _ Hc.
  apply (performAll_invariant
           (fun db => bookingsValid db /\ bookingsOnRides db
                      /\ countersAgree user db)); [|done].
  intros op now db0 (Hv0 & Hon0 & Hc0). split_and!.
  - by apply perform_bookingsValid.
  - by apply perform_bookingsOnRides.
  - by apply perform_countersAgree.
Qed.

(** ** What a refusal leaves *)

(** X9.  A write request answered with a 4xx status leaves the database as
    it was. *)
Theorem refusal_changes_nothing op now db :
  400 <= code (perform op now db).2 < 500 ->
  (perform op now db).1 = db.
Proof.
  destruct op as [[]| |]; cbn [perform handle];
    unfold bookRide, cancelBooking, respondToBooking, updateBookingStatus,
      updateRideStatus, updateRide, createReview, Review_create, updateReview,
      Review_save, deleteReview, postRide, deleteRide;
    repeat case_match; cbn [fst snd code]; intros ?; (done || lia).
Qed.

(** ** bookRide *)

(** X10.  A 201 of bookRide stores one new pending booking of the caller on
    a scheduled ride of another user, for the seats of the request, at least
    one and at most the free seats, with the ride's fare per seat, which is
    not negative; its total is that fare times the seats when this product
    is a safe integer, the product of the code being exact then; the ride
    loses these seats, gains the booking at the end of its passengers and is
    otherwise as before. *)
Theorem bookRide_reserves_seats user newId body db :
  code (bookRide user newId body db).2 = 201 ->
  exists rideId ride b ride',
    BookRideBody.rideId body = Some rideId
    /\ rides db !! rideId = Some ride
    /\ Ride.status ride = "scheduled"
    /\ Ride.driver ride <> user
    /\ bookings db !! newId = None
    /\ bookings (bookRide user newId body db).1
       = <[newId := b]> (bookings db)
    /\ Booking.ride b = rideId /\ Booking.passenger b = user
    /\ Booking.status b = "pending" /\ Booking.paymentStatus b = "pending"
    /\ BookRideBody.seatsBooked body = Some (Booking.seatsBooked b)
    /\ 1 <= Booking.seatsBooked b <= Ride.availableSeats ride
    /\ Booking.farePerSeat b = Ride.farePerSeat ride
    /\ 0 <= Ride.farePerSeat ride
    /\ (Number_isSafeInteger (Booking.seatsBooked b * Ride.farePerSeat ride) = true ->
        Booking.totalFare b = Booking.seatsBooked b * Ride.farePerSeat ride)
    /\ rides (bookRide user newId body db).1 = <[rideId := ride']> (rides db)
    /\ Ride.availableSeats ride'
       = Ride.availableSeats ride - Booking.seatsBooked b
    /\ Ride.passengers ride' = (Ride.passengers ride ++ [newId])%list
    /\ Ride.set_passengers (Ride.passengers ride)
         (Ride.set_availableSeats (Ride.availableSeats ride) ride') = ride.
Proof.
  intros H201.
  destruct (bookRide_201_inv _ _ _ _ H201)
    as (rideId & seats & pickup & dropoff & ride & Hid & Hseats & Hpick & Hdrop
        & Hr & Hst & Hrange & Hact & Hd & Hnew & Hv & Hrv & ->).
  apply truthy_Z_inv in Hseats as [Hseats _].
  eexists rideId, ride, _, _. split_and!; try done; try (cbn; lia).
  - destruct ride. unfold Ride.validate in Hrv. cbn -[includes maxlength] in Hrv.
    rewrite !andb_true_iff in Hrv. destruct_and? Hrv. cbn. lia.
  - by destruct ride.
  - by destruct ride.
  - by destruct ride.
Qed.

(** ** The properties on the example data *)

Ltac singleton_lookup H :=
  cbn in H; rewrite lookup_insert in H; case_decide;
  [injection H as <-; subst | by rewrite lookup_empty in H].

Lemma Example_dbA_bookingsOnRides status : bookingsOnRides (Example.dbA status).
Proof. intros id b Hb. singleton_lookup Hb. by eexists. Qed.

Lemma Example_dbA_bookingsValid status :
  status ∈ Booking.status_enum -> bookingsValid (Example.dbA status).
Proof.
  intros Hs id b Hb. singleton_lookup Hb. unfold Booking.validate. cbn.
  by rewrite (proj2 (includes_true _ _) Hs).
Qed.

Lemma Example_db0_no_booking id b : bookings Example.db0 !! id = Some b -> False.
Proof. cbn. by rewrite lookup_empty. Qed.

Lemma booking_status_moves_along_the_graph_witness :
  exists b',
    bookings (performAll Scenario.lifecycle (Example.dbA "pending"))
      !! Example.bookingA = Some b'
    /\ snapshot b' = snapshot (Example.booking Example.passengerA 3 "pending")
    /\ rtc statusEdge "pending" (Booking.status b').
Proof.
  exact (booking_status_moves_along_the_graph Scenario.lifecycle
           (Example.dbA "pending") Example.bookingA
           (Example.booking Example.passengerA 3 "pending") eq_refl).
Defined.

Lemma terminal_booking_is_frozen_witness :
  bookings (performAll Scenario.afterCancellation (Example.dbA "cancelled"))
    !! Example.bookingA
  = Some (Example.booking Example.passengerA 3 "cancelled").
Proof.
  apply (terminal_booking_is_frozen Scenario.afterCancellation
           (Example.dbA "cancelled") Example.bookingA
           (Example.booking Example.passengerA 3 "cancelled") eq_refl).
  apply list_elem_of_further, list_elem_of_here.
Defined.

Lemma booked_ride_is_never_deleted_witness :
  is_Some (rides (performAll Scenario.afterCancellation (Example.dbA "pending"))
             !! Example.rideId)
  /\ forall user,
       code (deleteRide user Example.rideId
               (performAll Scenario.afterCancellation (Example.dbA "pending"))).2
       <> 200.
Proof.
  exact (booked_ride_is_never_deleted Scenario.afterCancellation
           (Example.dbA "pending") Example.bookingA
           (Example.booking Example.passengerA 3 "pending")
           (Example_dbA_bookingsOnRides "pending") eq_refl).
Defined.

Lemma one_active_booking_kept_witness :
  oneActiveBooking (performAll Scenario.bookings Example.db0).
Proof.
  apply one_active_booking_kept.
  intros i j bi bj Hi. by destruct (Example_db0_no_booking i bi).
Defined.

Lemma bookings_stay_on_stored_rides_witness :
  bookingsOnRides (performAll Scenario.bookings Example.db0).
Proof.
  apply bookings_stay_on_stored_rides.
  intros i b Hi. by destruct (Example_db0_no_booking i b).
Defined.

Lemma available_seats_never_negative_witness :
  seatsNonNegative (performAll Scenario.bookings Example.db0).
Proof.
  apply available_seats_never_negative.
  - intros i b Hi. by destruct (Example_db0_no_booking i b).
  - intros i r Hr. singleton_lookup Hr. cbn. lia.
Defined.

Lemma one_review_per_booking_kept_witness :
  oneReviewPerBooking (performAll Scenario.reviewing (Example.dbA "completed")).
Proof.
  apply one_review_per_booking_kept.
  intros i j ri rj Hi. cbn in Hi. by rewrite lookup_empty in Hi.
Defined.

Lemma getDriverHistory_counters_agree_witness :
  countersAgree Example.driver
    (performAll Scenario.lifecycle (Example.dbA "pending")).
Proof.
  apply getDriverHistory_counters_agree.
  - apply Example_dbA_bookingsValid. apply list_elem_of_here.
  - apply Example_dbA_bookingsOnRides.
  - vm_compute. reflexivity.
  - intros h Hh. vm_compute in Hh. injection Hh as Hh. subst h. split; reflexivity.
Defined.

Lemma refusal_changes_nothing_witness :
  (perform (Core (BookRide Example.passengerB Example.bookingB Example.requestB))
     1767225700000 (Example.dbA "pending")).1
  = Example.dbA "pending".
Proof.
  apply refusal_changes_nothing. vm_compute. split; [discriminate|reflexivity].
Defined.

Lemma bookRide_reserves_seats_witness :
  exists b,
    bookings (bookRide Example.passengerA Example.bookingA Example.requestA
                Example.db0).1
    = <[Example.bookingA := b]> (bookings Example.db0)
    /\ Booking.seatsBooked b = 3
    /\ Booking.farePerSeat b = 250
    /\ Booking.totalFare b = 750.
Proof.
  destruct (bookRide_reserves_seats Example.passengerA Example.bookingA
              Example.requestA Example.db0 eq_refl)
    as (rideId & ride & b & ride' & Hid & Hride & _ & _ & _ & Hb & _ & _ & _ & _
        & Hseats & _ & Hfare & _ & Htotal & _).
  injection Hid as <-. injection Hride as <-. injection Hseats as Hseats.
  exists b. split_and!; [exact Hb|by symmetry|exact Hfare|].
  rewrite Htotal; rewrite <- Hseats; reflexivity.
Defined.


Lemma cancelBooking_releases_seats_once_witness :
  exists b,
    bookings (Example.dbA "confirmed") !! Example.bookingA = Some b
    /\ Booking.passenger b = Example.passengerA
    /\ Booking.status b ∈ ["pending"; "confirmed"]
    /\ Booking.status <$>
         bookings (cancelBooking Example.passengerA Example.bookingA None
                     1767225800000 (Example.dbA "confirmed")).1
           !! Example.bookingA
       = Some "cancelled"
    /\ (forall r, rides (Example.dbA "confirmed") !! Booking.ride b = Some r ->
          exists r',
            rides (cancelBooking Example.passengerA Example.bookingA None
                     1767225800000 (Example.dbA "confirmed")).1
              !! Booking.ride b = Some r'
            /\ Ride.availableSeats r'
               = Ride.availableSeats r + Booking.seatsBooked b
            /\ Example.bookingA ∉ Ride.passengers r')
    /\ (forall rid, rid <> Booking.ride b ->
          rides (cancelBooking Example.passengerA Example.bookingA None
                   1767225800000 (Example.dbA "confirmed")).1 !! rid
          = rides (Example.dbA "confirmed") !! rid)
    /\ (forall user' reason' now',
          cancelBooking user' Example.bookingA reason' now'
            (cancelBooking Example.passengerA Example.bookingA None
               1767225800000 (Example.dbA "confirmed")).1
          = ((cancelBooking Example.passengerA Example.bookingA None
                1767225800000 (Example.dbA "confirmed")).1,
             json (if decide (user' = Example.passengerA) then 400 else 404)
               (Message (if decide (user' = Example.passengerA)
                         then "Cannot cancel booking in current status"
                         else "Booking not found")))).
Proof.
  exact (cancelBooking_releases_seats_once Example.passengerA Example.bookingA
           None 1767225800000 (Example.dbA "confirmed") eq_refl).
Defined.

Lemma respondToBooking_answers_once_witness :
  let db1 := (respondToBooking Example.driver Example.bookingA "reject" None
                1767225700000 (Example.dbA "pending")).1 in
  Ride.availableSeats <$> rides db1 !! Example.rideId = Some (1 + 3)
  /\ forall user' action' driverNote' now',
       (respondToBooking user' Example.bookingA action' driverNote' now' db1).1
       = db1
       /\ code (respondToBooking user' Example.bookingA action' driverNote' now'
                  db1).2 <> 200.
Proof.
  destruct (respondToBooking_answers_once Example.driver Example.bookingA
              "reject" None 1767225700000 (Example.dbA "pending") eq_refl)
    as (b & r & _ & _ & _ & _ & _ & Hagain).
  split; [reflexivity|exact Hagain].
Defined.

Lemma respondToBooking_reject_long_note_witness :
  (respondToBooking Example.driver Example.bookingA "reject"
     (Some Scenario.longNote) 1767225700000 (Example.dbA "pending")).2
  = json 500 ServerError
  /\ forall k,
       let db' := respondRepeatedly Example.driver Example.bookingA "reject"
                    (Some Scenario.longNote) 1767225700000 k
                    (Example.dbA "pending") in
       bookings db' = bookings (Example.dbA "pending")
       /\ Ride.availableSeats <$> rides db' !! Example.rideId
          = Some (1 + Z.of_nat k * 3).
Proof.
  apply (respondToBooking_reject_long_note Example.driver Example.bookingA
           Scenario.longNote 1767225700000 (Example.dbA "pending")
           (Example.booking Example.passengerA 3 "pending")
           (Example.ride 4 1 [Example.bookingA]) eq_refl eq_refl eq_refl eq_refl).
  apply Nat.ltb_lt. reflexivity.
Defined.

Lemma updateRide_then_cancelBooking_exceeds_totalSeats_witness :
  let db1 := (updateRide Example.driver Example.rideId (onlyTotalSeats 2)
                (Example.dbA "pending")).1 in
  let out := cancelBooking Example.passengerA Example.bookingA None
               1767225800000 db1 in
  code out.2 = 200
  /\ exists r, rides out.1 !! Example.rideId = Some r
               /\ Ride.totalSeats r = 2
               /\ Ride.availableSeats r = 2 + 3
               /\ Ride.totalSeats r < Ride.availableSeats r.
Proof.
  exact (updateRide_then_cancelBooking_exceeds_totalSeats Example.driver
           Example.passengerA Example.rideId Example.bookingA (onlyTotalSeats 2)
           2 None 1767225800000 (Example.dbA "pending")
           (Example.booking Example.passengerA 3 "pending")
           eq_refl eq_refl eq_refl eq_refl eq_refl eq_refl eq_refl).
Defined.

Lemma updateRideStatus_cancel_then_reschedule_witness :
  let db1 := (updateRideStatus Example.driver Example.rideId "cancelled"
                1767225700000 Example.dbTwoConfirmed).1 in
  let out := updateRideStatus Example.driver Example.rideId "scheduled"
               1767225800000 db1 in
  code out.2 = 200
  /\ (Ride.status <$> rides out.1 !! Example.rideId) = Some "scheduled"
  /\ (Ride.availableSeats <$> rides out.1 !! Example.rideId) = Some 0
  /\ (Booking.status <$> bookings out.1 !! Example.bookingA) = Some "cancelled".
Proof.
  destruct (updateRideStatus_cancel_then_reschedule Example.driver Example.rideId
              1767225700000 1767225800000 Example.dbTwoConfirmed
              (Example.ride 4 0 [Example.bookingA; Example.bookingB])
              eq_refl eq_refl eq_refl)
    as (H200 & (r' & Hride & Hstatus & Hseats & _) & Hbookings & _).
  destruct (Hbookings Example.bookingA
              (Example.booking Example.passengerA 2 "confirmed") eq_refl eq_refl)
    as (b' & Hb' & Hs' & _).
  { apply list_elem_of_further, list_elem_of_here. }
  split_and!.
  - exact H200.
  - rewrite Hride. cbn. by rewrite Hstatus.
  - rewrite Hride. cbn. by rewrite Hseats.
  - rewrite Hb'. cbn. by rewrite Hs'.
Defined.

Lemma Scenario_dbOneReview_reviewsValid : reviewsValid Scenario.dbOneReview.
Proof. intros id r Hr. singleton_lookup Hr. reflexivity. Qed.

Lemma updateDriverRating_rating_in_range_witness :
  (1 <= 50 # 10 <= 5)%Q.
Proof.
  exact (updateDriverRating_rating_in_range Example.driver Scenario.dbOneReview
           (DriverProfile.mk true (50 # 10) 0 0) Scenario_dbOneReview_reviewsValid
           ltac:(vm_compute; discriminate) eq_refl).
Defined.

Lemma review_closes_after_24_hours_witness :
  deleteReview Example.passengerA 200 (1767312000000 + 86400001)
    Scenario.dbOneReview
  = (Scenario.dbOneReview,
     json 400 (Message "Can only delete reviews within 24 hours"))
  /\ code (deleteReview Example.passengerA 200 (1767312000000 + 86400000)
             Scenario.dbOneReview).2 = 200.
Proof.
  destruct (review_closes_after_24_hours Example.passengerA 200 Example.fiveStars
              (1767312000000 + 86400001) Scenario.dbOneReview
              (Example.review 0 5) eq_refl eq_refl) as [_ Hclosed].
  destruct (review_closes_after_24_hours Example.passengerA 200 Example.fiveStars
              (1767312000000 + 86400000) Scenario.dbOneReview
              (Example.review 0 5) eq_refl eq_refl) as [Hopen _].
  split.
  - apply Hclosed. cbn. lia.
  - apply Hopen. cbn. lia.
Defined.

Lemma createReview_by_a_party_of_a_completed_booking_witness :
  exists rv,
    reviews (createReview Example.passengerA 200 Example.bookingA
               Example.fiveStars 1767312000000 (Example.dbA "completed")).1
    = <[200%positive := rv]> (reviews (Example.dbA "completed"))
    /\ Review.reviewee rv = Example.driver
    /\ Review.reviewType rv = "passenger-to-driver".
Proof.
  destruct (createReview_by_a_party_of_a_completed_booking Example.passengerA 200
              Example.bookingA Example.fiveStars 1767312000000
              (Example.dbA "completed") eq_refl)
    as (b & r & rv & Hb & _ & Hr & _ & Hrs & _ & _ & Hparty & _).
  exists rv. split; [exact Hrs|].
  injection Hb as <-. injection Hr as <-.
  destruct Hparty as [(_ & ? & ?)|(Hne & _)]; [done|by destruct Hne].
Defined.

Lemma canReviewBooking_agrees_with_createReview_witness :
  (code (createReview Example.passengerA 200 Example.bookingA Example.fiveStars
           1767312000000 (Example.dbA "completed")).2 = 201
   <-> exists ty, canReviewBooking Example.passengerA Example.bookingA
                    (Example.dbA "completed")
                  = CanReview 200 true None (Some ty) None)
  /\ (code (createReview Example.passengerA 200 Example.bookingA Example.fiveStars
              1767312000000 (Example.dbA "dropped-off")).2 = 201
      <-> exists ty, canReviewBooking Example.passengerA Example.bookingA
                       (Example.dbA "dropped-off")
                     = CanReview 200 true None (Some ty) None).
Proof.
  split.
  - exact (proj1 (canReviewBooking_agrees_with_createReview Example.passengerA
                    200 Example.bookingA Example.fiveStars 1767312000000
                    (Example.dbA "completed") 5%Q
                    eq_refl eq_refl eq_refl eq_refl eq_refl)).
  - exact (proj1 (canReviewBooking_agrees_with_createReview Example.passengerA
                    200 Example.bookingA Example.fiveStars 1767312000000
                    (Example.dbA "dropped-off") 5%Q
                    eq_refl eq_refl eq_refl eq_refl eq_refl)).
Defined.

Lemma postRide_stores_one_ride_or_nothing_witness :
  rides (postRide Example.driver 11 Scenario.rideBody 1767139200000
           Example.db0).1 !! 11%positive
  = Some (Ride.mk Example.driver 1767225600000 "09:30" 3 3 400
            defaultPreferences None [] "scheduled" [])
  /\ (postRide Example.passengerA 11 Scenario.rideBody 1767139200000
        Example.db0).1 = Example.db0.
Proof.
  destruct (postRide_stores_one_ride_or_nothing Example.driver 11
              Scenario.rideBody 1767139200000 Example.db0) as [Hstored _].
  destruct (postRide_stores_one_ride_or_nothing Example.passengerA 11
              Scenario.rideBody 1767139200000 Example.db0) as [_ Hnothing].
  split.
  - destruct (Hstored eq_refl) as (p & r & _ & _ & _ & Hout & _).
    reflexivity.
  - apply Hnothing. vm_compute. discriminate.
Defined.

Lemma deleteRide_only_without_bookings_witness :
  code (deleteRide Example.driver Example.rideId Example.db0).2 = 200
  /\ code (deleteRide Example.driver Example.rideId (Example.dbA "cancelled")).2
     <> 200.
Proof.
  split.
  - apply (proj1 (deleteRide_only_without_bookings Example.driver Example.rideId
                    Example.db0)).
    split; [by eexists|]. intros j b Hj. by destruct (Example_db0_no_booking j b).
  - intros H200.
    apply (proj1 (deleteRide_only_without_bookings Example.driver Example.rideId
                    (Example.dbA "cancelled"))) in H200 as [_ Hnone].
    by destruct (Hnone Example.bookingA
                   (Example.booking Example.passengerA 3 "cancelled") eq_refl).
Defined.

Lemma updateReview_edits_rating_comment_aspects_witness :
  (updateReview Example.passengerA 200 (ReviewBody.mk (Some 6%Q) None None)
     1767312600000 Scenario.dbOneReview).1 = Scenario.dbOneReview
  /\ Review.rating <$>
       reviews (updateReview Example.passengerA 200
                  (ReviewBody.mk (Some 0%Q) None None)
                  1767312600000 Scenario.dbOneReview).1 !! 200%positive
     = Some 5%Q.
Proof.
  split.
  - apply (proj2 (updateReview_edits_rating_comment_aspects Example.passengerA
                    200 (ReviewBody.mk (Some 6%Q) None None) 1767312600000
                    Scenario.dbOneReview) 6%Q eq_refl); [|reflexivity].
    intros H. discriminate H.
  - destruct (proj1 (updateReview_edits_rating_comment_aspects
                       Example.passengerA 200
                       (ReviewBody.mk (Some 0%Q) None None) 1767312600000
                       Scenario.dbOneReview) eq_refl)
      as (rv & rv' & Hrv & Hrv' & _ & Hrating & _).
    rewrite Hrv'. cbn [fmap option_fmap option_map]. f_equal.
    rewrite Hrating. injection Hrv as <-. reflexivity.
Defined.

(** ** The seats of a ride: free, and held by bookings *)








(** ** getActiveBookings *)

Lemma passenger_pre_save_new b :
  Booking.passenger (Booking.pre_save_new b) = Booking.passenger b.
Proof. by destruct b. Qed.

(** A booking that a request adds is on a ride of another user. *)
Lemma perform_new_booking_not_own op now db id b' r' :
  bookings (perform op now db).1 !! id = Some b' ->
  bookings db !! id = None ->
  rides (perform op now db).1 !! Booking.ride b' = Some r' ->
  Ride.driver r' <> Booking.passenger b'.
Proof.
  destruct op as [[]| |]; cbn [perform handle];
    unfold bookRide, cancelBooking, respondToBooking, updateBookingStatus,
      updateRideStatus, updateRide, createReview, Review_create, updateReview,
      Review_save, deleteReview, postRide, deleteRide;
    open_handler; intros Hb' Hn; try congruence.
  all: try (rewrite lookup_insert in Hb'; case_decide; [|congruence];
            simplify_eq; rewrite ride_pre_save_new, passenger_pre_save_new;
            cbn [Booking.ride Booking.passenger];
            rewrite ?lookup_insert_eq;
            try match goal with H : rides _ !! _ = Some _ |- _ => rewrite H end;
            intros [= <-];
            match goal with H : bool_decide (Ride.driver _ = _) = false |- _ =>
              apply bool_decide_eq_false in H end;
            by destruct t).
  unfold Booking_cancelMany in Hb'. rewrite lookup_fmap, Hn in Hb'. done.
Qed.

Lemma perform_noOwnRideBooking op now db :
  bookingsOnRides db -> noOwnRideBooking db ->
  noOwnRideBooking (perform op now db).1.
Proof.
  intros Hon Hinv id b' r' Hb' Hr'.
  destruct (perform_bookingsEvolve op now db) as [Hold _].
  destruct (perform_ridesEvolve op now db) as [Hrides _].
  destruct (bookings db !! id) as [b|] eqn:Hb.
  - destruct (Hold id b Hb) as (b0 & Hb0 & Hsnap & _).
    assert (b0 = b') as -> by congruence.
    destruct (snapshot_ride_passenger _ _ Hsnap) as [Hride Hpass].
    rewrite Hride in Hr'. rewrite Hpass.
    destruct (Hon id b Hb) as [r Hr].
    destruct (Hrides _ r Hr) as [(r0 & Hr0 & Hdrv & _)|[Hnone _]];
      [|congruence].
    assert (r0 = r') as -> by congruence.
    rewrite Hdrv. by eapply Hinv.
  - by eapply perform_new_booking_not_own.
Qed.

(** X27.  When every booking is on a stored ride and none is on a ride of its
    own passenger, this stays so after any sequence of write requests, and
    getActiveBookings then lists no booking both as the user's own and as one
    on the user's rides. *)
Theorem getActiveBookings_lists_are_disjoint ops user roles db :
  bookingsOnRides db -> noOwnRideBooking db ->
  noOwnRideBooking (performAll ops db)
  /\ ActiveBookings.asPassenger (getActiveBookings user roles (performAll ops db))
     ##ₘ ActiveBookings.asDriver (getActiveBookings user roles (performAll ops db)).
Proof.
  intros Hon Hinv.
  assert (bookingsOnRides (performAll ops db)
          /\ noOwnRideBooking (performAll ops db)) as [_ Hown].
  { apply (performAll_invariant
             (fun db => bookingsOnRides db /\ noOwnRideBooking db)); [|done].
    intros op now db0 [Hon0 Hinv0]. split.
    - by apply perform_bookingsOnRides.
    - by apply perform_noOwnRideBooking. }
  split; [done|].
  unfold getActiveBookings. cbn [ActiveBookings.asPassenger ActiveBookings.asDriver].
  destruct (includes roles "driver"); [|apply map_disjoint_empty_r].
  apply map_disjoint_spec. intros id b1 b2 H1 H2.
  apply map_lookup_filter_Some in H1 as [H1 [Hp _]].
  apply map_lookup_filter_Some in H2 as [H2 [Hr _]].
  cbn in Hp, Hr. assert (b2 = b1) as -> by congruence.
  apply elem_of_Ride_ids_of in Hr as (r & Hr & Hd).
  apply (Hown id b1 r H1 Hr). congruence.
Qed.

Lemma getActiveBookings_lists_are_disjoint_witness :
  noOwnRideBooking (performAll Scenario.lifecycle (Example.dbA "pending"))
  /\ ActiveBookings.asPassenger
       (getActiveBookings Example.driver ["passenger"; "driver"]
          (performAll Scenario.lifecycle (Example.dbA "pending")))
     ##ₘ ActiveBookings.asDriver
           (getActiveBookings Example.driver ["passenger"; "driver"]
              (performAll Scenario.lifecycle (Example.dbA "pending"))).
Proof.
  apply getActiveBookings_lists_are_disjoint.
  - apply Example_dbA_bookingsOnRides.
  - intros id b r Hb Hr. singleton_lookup Hb. singleton_lookup Hr. done.
Defined.


(** ** cancelBooking and updateBookingStatus between their awaits *)

Lemma Booking_save_modified_own id b assign db :
  bookings db !! id = Some b ->
  Booking_save_modified id (assign b) assign db = Booking_save id (assign b) db.
Proof. intros Hb. unfold Booking_save_modified, Booking_save. by rewrite Hb. Qed.

(** Run on its own, the three steps of cancelBooking are the handler. *)
Lemma cancelBooking_steps user id reason now db :
  CancelSteps.steps 3 user id reason now CancelSteps.AtFind db
  = ((cancelBooking user id reason now db).1,
     CancelSteps.Finished (cancelBooking user id reason now db).2).
Proof.
  unfold cancelBooking. cbn [CancelSteps.steps CancelSteps.step].
  destruct (bookings db !! id) as [b|] eqn:Hb; [|reflexivity].
  destruct (bool_decide (Booking.passenger b <> user)); [reflexivity|].
  destruct (negb (includes ["pending"; "confirmed"] (Booking.status b)));
    [reflexivity|].
  cbn [CancelSteps.step].
  rewrite (Booking_save_modified_own id b (CancelSteps.assign reason now) db Hb).
  unfold CancelSteps.assign.
  destruct (Booking_save id _ db) as [db1|]; [|reflexivity].
  cbn [CancelSteps.step]. by destruct b.
Qed.

(** Run on its own, the steps of updateBookingStatus are the handler. *)
Lemma updateBookingStatus_steps user id status now db :
  StatusSteps.steps 3 user id status now StatusSteps.AtFind db
  = ((updateBookingStatus user id status now db).1,
     StatusSteps.Finished (updateBookingStatus user id status now db).2).
Proof.
  unfold updateBookingStatus. cbn [StatusSteps.steps StatusSteps.step].
  destruct (negb (includes validStatuses status)); [reflexivity|].
  destruct (bookings db !! id) as [b|] eqn:Hb; [|reflexivity].
  destruct (rides db !! Booking.ride b) as [r|]; [|reflexivity].
  destruct (bool_decide (Ride.driver r <> user)); [reflexivity|].
  destruct (negb (includes (default [] (statusFlow !! Booking.status b)) status));
    [reflexivity|].
  unfold afterSwitch.
  destruct (bool_decide (status = "completed")) eqn:Hc.
  - apply bool_decide_eq_true in Hc as ->. decide_strings.
    cbn [StatusSteps.step]. unfold afterSwitch. decide_strings.
    rewrite (Booking_save_modified_own id b
               (fun b => Booking.set_paymentStatus "paid"
                           (Booking.set_completedAt (Some now)
                              (Booking.set_status "completed" b)))
               (DriverProfile_incStats user (Booking.totalFare b) db) Hb).
    by destruct (Booking_save id _ _).
  - cbn [StatusSteps.step]. unfold afterSwitch. rewrite Hc.
    repeat case_bool_decide;
      match goal with
      | |- context [Booking_save_modified id (?f (Booking.set_status status b)) _ db] =>
          rewrite (Booking_save_modified_own id b
                     (fun b => f (Booking.set_status status b)) db Hb)
      | |- context [Booking_save_modified id (Booking.set_status status b) _ db] =>
          rewrite (Booking_save_modified_own id b
                     (fun b => Booking.set_status status b) db Hb)
      end;
      by destruct (Booking_save id _ db).
Qed.

Lemma CancelSteps_find user id reason now db b :
  bookings db !! id = Some b -> Booking.passenger b = user ->
  Booking.status b ∈ ["pending"; "confirmed"] ->
  CancelSteps.step user id reason now CancelSteps.AtFind db
  = (db, CancelSteps.AtSave b).
Proof.
  intros Hb Hp Hs. cbn [CancelSteps.step]. rewrite Hb.
  rewrite bool_decide_eq_false_2 by (intros ?; done).
  by rewrite (proj2 (includes_true _ _) Hs).
Qed.

Lemma CancelSteps_find_cancelled user id reason now db b :
  bookings db !! id = Some b -> Booking.passenger b = user ->
  Booking.status b = "cancelled" ->
  CancelSteps.step user id reason now CancelSteps.AtFind db
  = (db, CancelSteps.Finished
           (json 400 (Message "Cannot cancel booking in current status"))).
Proof.
  intros Hb Hp Hs. cbn [CancelSteps.step]. rewrite Hb.
  rewrite bool_decide_eq_false_2 by (intros ?; done).
  rewrite Hs. reflexivity.
Qed.

Lemma CancelSteps_save user id reason now db b stored :
  Booking.validate b = true ->
  bookings db !! id = Some stored ->
  CancelSteps.step user id reason now (CancelSteps.AtSave b) db
  = (with_bookings (<[id := CancelSteps.assign reason now stored]> (bookings db)) db,
     CancelSteps.AtRestore (CancelSteps.assign reason now b)).
Proof.
  intros Hv Hs. cbn [CancelSteps.step]. unfold Booking_save_modified.
  unfold CancelSteps.assign at 1.
  by rewrite validate_cancel_by_passenger, Hs.
Qed.

Lemma CancelSteps_assign_paths reason now b :
  Booking.ride (CancelSteps.assign reason now b) = Booking.ride b
  /\ Booking.seatsBooked (CancelSteps.assign reason now b) = Booking.seatsBooked b
  /\ Booking.passenger (CancelSteps.assign reason now b) = Booking.passenger b
  /\ Booking.status (CancelSteps.assign reason now b) = "cancelled".
Proof. by destruct b. Qed.

Lemma CancelSteps_restore user id reason now db b :
  CancelSteps.step user id reason now (CancelSteps.AtRestore b) db
  = (Ride_restoreSeats (Booking.ride b) (Booking.seatsBooked b) id db,
     CancelSteps.Finished
       (json 200 (MessageBooking "Booking cancelled successfully" id b))).
Proof. reflexivity. Qed.

Lemma CancelSteps_idle user id reason now db res :
  CancelSteps.step user id reason now (CancelSteps.Finished res) db
  = (db, CancelSteps.Finished res).
Proof. reflexivity. Qed.

Ltac race_turn :=
  cbn [fold_left Race.turn_step Race.store Race.atA Race.atB].

(** X28.  The check of the status, the save of the cancelled booking and the
    release of its seats are three awaited calls of cancelBooking.  When two
    cancellations of one pending or confirmed booking take turns, one awaited
    call each, both pass the check, both are answered 200, and the seats of
    the booking are added to the free seats of the ride twice.  Run one after
    the other, the second is refused with 400 and the seats are added once. *)
Theorem cancelBooking_interleaved_releases_twice
    user id reasonA reasonB nowA nowB db b r :
  bookings db !! id = Some b ->
  Booking.passenger b = user ->
  Booking.status b ∈ ["pending"; "confirmed"] ->
  Booking.validate b = true ->
  rides db !! Booking.ride b = Some r ->
  let stepA := CancelSteps.step user id reasonA nowA in
  let stepB := CancelSteps.step user id reasonB nowB in
  let fin := Race.run stepA stepB CancelSteps.AtFind CancelSteps.AtFind
               Example.alternating db in
  let seq := Race.run stepA stepB CancelSteps.AtFind CancelSteps.AtFind
               Example.oneAfterTheOther db in
  (exists bA bB,
     Race.atA fin = CancelSteps.Finished
       (json 200 (MessageBooking "Booking cancelled successfully" id bA))
     /\ Race.atB fin = CancelSteps.Finished
          (json 200 (MessageBooking "Booking cancelled successfully" id bB)))
  /\ Ride.availableSeats <$> rides (Race.store fin) !! Booking.ride b
     = Some (Ride.availableSeats r + 2 * Booking.seatsBooked b)
  /\ Race.atB seq = CancelSteps.Finished
       (json 400 (Message "Cannot cancel booking in current status"))
  /\ Ride.availableSeats <$> rides (Race.store seq) !! Booking.ride b
     = Some (Ride.availableSeats r + Booking.seatsBooked b).
Proof.
  intros Hb Hp Hs Hv Hr. cbn zeta.
  destruct (CancelSteps_assign_paths reasonA nowA b) as (HrA & HsA & HpA & HstA).
  destruct (CancelSteps_assign_paths reasonB nowB b) as (HrB & HsB & _ & _).
  assert (Hfin :
    Race.run (CancelSteps.step user id reasonA nowA)
      (CancelSteps.step user id reasonB nowB) CancelSteps.AtFind
      CancelSteps.AtFind Example.alternating db
    = Race.mkSys
        (Ride_restoreSeats (Booking.ride b) (Booking.seatsBooked b) id
           (Ride_restoreSeats (Booking.ride b) (Booking.seatsBooked b) id
              (with_bookings
                 (<[id := CancelSteps.assign reasonB nowB
                            (CancelSteps.assign reasonA nowA b)]>
                    (<[id := CancelSteps.assign reasonA nowA b]> (bookings db)))
                 db)))
        (CancelSteps.Finished
           (json 200 (MessageBooking "Booking cancelled successfully" id
                        (CancelSteps.assign reasonA nowA b))))
        (CancelSteps.Finished
           (json 200 (MessageBooking "Booking cancelled successfully" id
                        (CancelSteps.assign reasonB nowB b))))).
  { unfold Race.run, Example.alternating. race_turn.
    rewrite (CancelSteps_find user id _ _ db b Hb Hp Hs). race_turn.
    rewrite (CancelSteps_find user id _ _ db b Hb Hp Hs). race_turn.
    rewrite (CancelSteps_save user id reasonA nowA db b b Hv Hb). race_turn.
    rewrite (CancelSteps_save user id reasonB nowB _ b
               (CancelSteps.assign reasonA nowA b) Hv)
      by (cbn; apply lookup_insert_eq).
    race_turn. rewrite CancelSteps_restore. race_turn.
    rewrite CancelSteps_restore. race_turn.
    rewrite !CancelSteps_idle. race_turn.
    by rewrite HrA, HsA, HrB, HsB. }
  assert (Hseq :
    Race.run (CancelSteps.step user id reasonA nowA)
      (CancelSteps.step user id reasonB nowB) CancelSteps.AtFind
      CancelSteps.AtFind Example.oneAfterTheOther db
    = Race.mkSys
        (Ride_restoreSeats (Booking.ride b) (Booking.seatsBooked b) id
           (with_bookings
              (<[id := CancelSteps.assign reasonA nowA b]> (bookings db)) db))
        (CancelSteps.Finished
           (json 200 (MessageBooking "Booking cancelled successfully" id
                        (CancelSteps.assign reasonA nowA b))))
        (CancelSteps.Finished
           (json 400 (Message "Cannot cancel booking in current status")))).
  { unfold Race.run, Example.oneAfterTheOther. race_turn.
    rewrite (CancelSteps_find user id _ _ db b Hb Hp Hs). race_turn.
    rewrite (CancelSteps_save user id reasonA nowA db b b Hv Hb). race_turn.
    rewrite CancelSteps_restore. race_turn.
    rewrite CancelSteps_idle. race_turn.
    rewrite (CancelSteps_find_cancelled user id reasonB nowB _
               (CancelSteps.assign reasonA nowA b))
      by (cbn; rewrite ?lookup_insert_eq; congruence).
    race_turn. rewrite !CancelSteps_idle. race_turn.
    by rewrite HrA, HsA. }
  rewrite Hfin, Hseq. cbn [Race.store Race.atA Race.atB].
  split_and!.
  - by do 2 eexists.
  - cbn. rewrite !lookup_alter_eq, Hr. cbn. f_equal. destruct r; cbn. lia.
  - reflexivity.
  - cbn. rewrite lookup_alter_eq, Hr. cbn. f_equal. by destruct r.
Qed.








Lemma cancelBooking_interleaved_releases_twice_witness :
  let stepA := CancelSteps.step Example.passengerA Example.bookingA None
                 1767225700000 in
  let stepB := CancelSteps.step Example.passengerA Example.bookingA None
                 1767225700001 in
  let fin := Race.run stepA stepB CancelSteps.AtFind CancelSteps.AtFind
               Example.alternating (Example.dbA "confirmed") in
  Ride.availableSeats <$> rides (Race.store fin) !! Example.rideId = Some (1 + 2 * 3).
Proof.
  exact (proj1 (proj2
    (cancelBooking_interleaved_releases_twice Example.passengerA Example.bookingA
       None None 1767225700000 1767225700001 (Example.dbA "confirmed")
       (Example.booking Example.passengerA 3 "confirmed")
       (Example.ride 4 1 [Example.bookingA]) eq_refl eq_refl
       ltac:(apply list_elem_of_further, list_elem_of_here) eq_refl eq_refl))).
Defined.


(** ** createReview between its awaits *)

(** Run on its own, the six steps of createReview are the handler. *)
Lemma createReview_steps user newId bookingId body now db :
  ReviewSteps.steps 6 user newId bookingId body now ReviewSteps.AtFindBooking db
  = ((createReview user newId bookingId body now db).1,
     ReviewSteps.Finished (createReview user newId bookingId body now db).2).
Proof.
  unfold createReview. cbn [ReviewSteps.steps ReviewSteps.step].
  destruct (truthy_Q (ReviewBody.rating body)) as [rating|]; [|reflexivity].
  destruct (negb (Qle_bool 1 rating) || negb (Qle_bool rating 5)); [reflexivity|].
  destruct (bookings db !! bookingId) as [b|]; [|reflexivity].
  destruct (bool_decide (Booking.status b <> "completed")); [reflexivity|].
  destruct (rides db !! Booking.ride b) as [r|]; [|reflexivity].
  destruct (negb (bool_decide (Booking.passenger b = user))
            && negb (bool_decide (Ride.driver r = user))); [reflexivity|].
  destruct (bool_decide (Booking.passenger b = user)).
  all: cbn [ReviewSteps.step].
  all: destruct (Review_findOne_by bookingId user (reviews db)); [reflexivity|].
  all: cbn [ReviewSteps.step].
  all: match goal with
       | |- context [Review_create ?i ?d ?s] =>
           destruct (Review_create i d s) as [db1|] eqn:Hc; [|reflexivity]
       end.
  all: unfold Review_create in Hc.
  all: match type of Hc with
       | (if ?c then _ else _) = _ => destruct c; [|discriminate]
       end.
  all: injection Hc as <-.
  all: cbn [Review.reviewType Review.reviewee].
  - rewrite bool_decide_eq_true_2 by reflexivity.
    cbn [ReviewSteps.step Review.reviewee with_reviews reviews].
    unfold updateDriverRating. cbn [with_reviews reviews].
    destruct (0 <? _).
    + cbn [ReviewSteps.step with_driverProfiles with_reviews reviews
             Review.reviewee].
      by rewrite lookup_insert_eq.
    + cbn [ReviewSteps.step with_driverProfiles with_reviews reviews
             Review.reviewee].
      by rewrite lookup_insert_eq.
  - rewrite bool_decide_eq_false_2 by discriminate.
    cbn [ReviewSteps.step with_reviews reviews].
    by rewrite lookup_insert_eq.
Qed.

(** X30.  Inside createReview the recompute of the rating is two awaited
    calls: Review.find reads the reviews, DriverProfile.findOneAndUpdate
    writes the rating computed from them.  Passengers A and B review the
    driver at the same time, A with five stars and B with one.  A reads the
    reviews while its own is the only one, B stores its review, reads both
    and writes 3.0, then A writes the 5.0 it computed.  Both requests are
    answered 201 and both reviews are stored; the rating of the profile is
    5.0, which is not the rounded mean of the ratings 5 and 1, 3.0 is.  Run
    one after the other, the six calls of a request being the handler, the
    two requests leave 3.0. *)
Theorem createReview_interleaved_leaves_stale_rating :
  let db := Scenario.dbTwoCompleted in
  let stepA := ReviewSteps.step Example.passengerA 200 Example.bookingA
                 Example.fiveStars 1767312000000 in
  let stepB := ReviewSteps.step Example.passengerB 201 Example.bookingB
                 Scenario.oneStar 1767312000001 in
  let fin := Race.run stepA stepB ReviewSteps.AtFindBooking
               ReviewSteps.AtFindBooking Scenario.overtaking db in
  let seq := Race.run stepA stepB ReviewSteps.AtFindBooking
               ReviewSteps.AtFindBooking Scenario.inTurn db in
  let aloneA := createReview Example.passengerA 200 Example.bookingA
                  Example.fiveStars 1767312000000 db in
  let aloneB := createReview Example.passengerB 201 Example.bookingB
                  Scenario.oneStar 1767312000001 aloneA.1 in
  seq = Race.mkSys aloneB.1 (ReviewSteps.Finished aloneA.2)
          (ReviewSteps.Finished aloneB.2)
  /\ (exists a b,
        Race.atA fin = ReviewSteps.Finished
          (json 201 (MessageReview "Review submitted successfully" 200 a))
        /\ Race.atB fin = ReviewSteps.Finished
             (json 201 (MessageReview "Review submitted successfully" 201 b))
        /\ reviews (Race.store fin) = <[200%positive := a]> {[201%positive := b]}
        /\ Review.rating a = 5%Q /\ Review.rating b = 1%Q)
  /\ visibleRatings Example.driver (Race.store fin) = [1; 5]%Q
  /\ DriverProfile.rating <$> driverProfiles (Race.store fin) !! Example.driver
     = Some (50 # 10)%Q
  /\ isRoundedMean (visibleRatings Example.driver (Race.store fin)) (30 # 10)
  /\ ~ isRoundedMean (visibleRatings Example.driver (Race.store fin)) (50 # 10)
  /\ DriverProfile.rating <$> driverProfiles (Race.store seq) !! Example.driver
     = Some (30 # 10)%Q.
Proof.
  cbv zeta. split_and!.
  - vm_compute. reflexivity.
  - exists (Review.mk Example.bookingA Example.rideId Example.passengerA
              Example.driver "passenger-to-driver" 5 None Review.noAspects true
              1767312000000),
           (Review.mk Example.bookingB Example.rideId Example.passengerB
              Example.driver "passenger-to-driver" 1 None Review.noAspects true
              1767312000001).
    split_and!; vm_compute; reflexivity.
  - vm_compute. reflexivity.
  - vm_compute. reflexivity.
  - exists (6 # 2)%Q. split; [vm_compute; reflexivity|].
    split; [by exists 30|]. split; vm_compute; discriminate.
  - intros (m & Hm & _ & _ & Hhi). vm_compute in Hm. injection Hm as <-.
    vm_compute in Hhi. by apply Hhi.
  - vm_compute. reflexivity.
Qed.
